(** * ListingRadar: the momentum scoring engine and the alert gate

    A shallow embedding of [src/scoring/engine.py], [src/alerts/telegram.py]
    and the part of [src/storage/db.py] they use.  The queries and the
    loops of the collectors, the dashboard statistics and pages and the
    scheduled jobs of [src/main.py] that read or feed the same tables
    follow in sections of their own.

    Conventions of the embedding.
    - A Python [float] (and every SQL [Float] column) is an exact rational
      [Q]: rounding, infinities and NaN are outside the model.  [math.log10]
      is not rational valued and is a variable of the engine section.
    - A [datetime] stored in the database or read with [datetime.utcnow()]
      is a number of microseconds on the UTC time line; a [timedelta] is a
      number of microseconds.  Clock readings are explicit arguments; the
      readings made while one product is scored count as one instant.
    - [ORDER BY ... DESC] is a stable sort: SQL leaves the order of rows
      with equal keys open, the model keeps their table order.
    - A Python exception is the [Raise] case of [Py.outcome].  Whether the
      store answers while a row of a batch is scored is an input of the
      batch loop; when it does not, the query raises [OperationalError].
    - A [str] is a byte string; slicing counts bytes, which is slicing by
      character on ASCII text.
    - Columns that the source itself tests for absence (title, category, the
      two ranks), that raise when they are formatted while absent (price)
      or that are unset until the first scoring run (score, confidence) are
      [option]s; the other columns are always written by the collectors and
      are plain values. *)

From Stdlib Require Import ZArith QArith Qminmax Qround Qabs Lqa Lia.
From Stdlib Require Import Bool List String Ascii DecimalString.
From Stdlib Require Import Permutation Sorted.
Import ListNotations.

Local Open Scope Q_scope.

(* ================================================================== *)
(** * Python values and control                                        *)
(* ================================================================== *)

Module Py.

Inductive exn : Type :=
| TypeError
| ZeroDivisionError
| AttributeError
| KeyError
| OperationalError.

Inductive outcome (A : Type) : Type :=
| Return (a : A)
| Raise (e : exn).

Arguments Return {A} a.
Arguments Raise {A} e.

Definition bind {A B : Type} (c : outcome A) (k : A -> outcome B) : outcome B :=
  match c with
  | Return a => k a
  | Raise e => Raise e
  end.

(** [a > b] and [a < b] on numbers. *)
Definition gt (a b : Q) : bool := negb (Qle_bool a b).

Definition lt (a b : Q) : bool := gt b a.

Definition ge (a b : Q) : bool := Qle_bool b a.

(** The builtins [max(a, b)] and [min(a, b)]: the first argument is kept
    unless the second is strictly larger (smaller). *)
Definition max (a b : Q) : Q := if gt b a then b else a.

Definition min (a b : Q) : Q := if lt b a then b else a.

(** [sum(xs)]: a left fold that starts from the integer [0]. *)
Definition sum (xs : list Q) : Q := fold_left Qplus xs 0.

(** Truth value of an optional integer and of an optional string: [None],
    [0] and the empty string are false. *)
Definition truthy_int (o : option Z) : bool :=
  match o with
  | Some z => negb (z =? 0)%Z
  | None => false
  end.

Definition truthy_str (o : option string) : bool :=
  match o with
  | Some s => negb (String.eqb s EmptyString)
  | None => false
  end.

(** [xs[-k]] for [1 <= k <= len(xs)] and [xs[0]]; the callers guard the
    length, the default is never returned. *)
Definition from_end (xs : list Q) (k : nat) : Q := nth (List.length xs - k) xs 0.

Definition at_start (xs : list Q) : Q := nth 0 xs 0.

(** Characters that [str.split()] treats as separators (ASCII part). *)
Definition is_space (c : ascii) : bool :=
  let n := nat_of_ascii c in
  ((9 <=? n) && (n <=? 13) || (28 <=? n) && (n <=? 32))%nat.

(** [s.split()]: maximal runs of non-space characters.  [cur] is the word
    being read, most recent character first. *)
Fixpoint split_from (cur : list ascii) (s : string) : list string :=
  let flush (rest : list string) : list string :=
    match cur with
    | [] => rest
    | _ => string_of_list_ascii (rev cur) :: rest
    end in
  match s with
  | EmptyString => flush []
  | String c s' =>
      if is_space c then flush (split_from [] s')
      else split_from (c :: cur) s'
  end.

Definition split (s : string) : list string := split_from [] s.

(** [sep.join(words)]. *)
Fixpoint join (sep : string) (words : list string) : string :=
  match words with
  | [] => EmptyString
  | [w] => w
  | w :: ws => (w ++ sep ++ join sep ws)%string
  end.

Definition lower_char (c : ascii) : ascii :=
  let n := nat_of_ascii c in
  if ((65 <=? n) && (n <=? 90))%nat then ascii_of_nat (n + 32) else c.

Definition upper_char (c : ascii) : ascii :=
  let n := nat_of_ascii c in
  if ((97 <=? n) && (n <=? 122))%nat then ascii_of_nat (n - 32) else c.

Fixpoint map_string (f : ascii -> ascii) (s : string) : string :=
  match s with
  | EmptyString => EmptyString
  | String c s' => String (f c) (map_string f s')
  end.

Definition lower (s : string) : string := map_string lower_char s.

Definition upper (s : string) : string := map_string upper_char s.

(** [s[:n]]. *)
Definition prefix (n : nat) (s : string) : string := substring 0 n s.

End Py.

Notation "x <- c ;; k" := (Py.bind c (fun x => k))
  (at level 61, c at next level, right associativity).

Notation "' pat <- c ;; k" := (Py.bind c (fun x => match x with pat => k end))
  (at level 61, pat pattern, c at next level, right associativity).

(* ================================================================== *)
(** * The record store ([storage/db.py])                               *)
(* ================================================================== *)

(** Microseconds on the UTC time line. *)
Definition datetime : Type := Z.

Bind Scope Z_scope with datetime.

Definition timedelta_hours (h : Z) : Z := (h * 3600000000)%Z.

Definition timedelta_days (d : Z) : Z := (d * 86400000000)%Z.

(** The confidence strings the engine produces. *)
Inductive conf_tag : Type :=
| insufficient_data
| no_data
| declining
| low
| medium
| high.

Definition conf_eqb (a b : conf_tag) : bool :=
  match a, b with
  | insufficient_data, insufficient_data
  | no_data, no_data
  | declining, declining
  | low, low
  | medium, medium
  | high, high => true
  | _, _ => false
  end.

Definition conf_str (c : conf_tag) : string :=
  match c with
  | insufficient_data => "insufficient_data"
  | no_data => "no_data"
  | declining => "declining"
  | low => "low"
  | medium => "medium"
  | high => "high"
  end.

(** Table [products].  The column [bsr_velocity] is neither read nor written
    by the engine or the alerter and is left out. *)
Record Product : Type := mkProduct {
  id : Z;
  asin : string;
  title : option string;
  category : option string;
  price : option Q;
  bsr_current : option Z;
  bsr_previous : option Z;
  momentum_score : option Q;
  confidence_level : option conf_tag;
  first_seen : datetime;
  last_updated : datetime;
  is_trending : bool
}.

(** Table [trend_data]. *)
Record TrendData : Type := mkTrendData {
  keyword : string;
  platform : string;
  volume_score : Q;
  velocity_score : Q;
  sentiment_score : Q;
  timestamp : datetime
}.

(** Table [alerts]. *)
Record Alert : Type := mkAlert {
  product_asin : string;
  alert_type : string;
  message : string;
  alert_momentum_score : option Q;
  confidence : option conf_tag;
  sent_at : datetime;
  telegram_sent : bool
}.

Record Store : Type := mkStore {
  products : list Product;
  trends : list TrendData;
  alerts : list Alert
}.

(** A session ([autocommit=False, autoflush=False]): [durable] is what the
    database holds and what every SQL query reads; [working] holds the rows
    as the loaded Python objects show them, attribute assignments and added
    rows included.  [commit] writes the working rows; closing a session
    keeps the durable rows only. *)
Record Session : Type := mkSession {
  durable : Store;
  working : Store
}.

Definition open_session (db : Store) : Session := mkSession db db.

Definition commit (s : Session) : Session := mkSession (working s) (working s).

Definition close (s : Session) : Store := durable s.

(** [ORDER BY key DESC]: a stable insertion sort; rows with equal keys keep
    their table order. *)
Fixpoint insert_desc {A : Type} (geb : A -> A -> bool) (x : A) (l : list A) : list A :=
  match l with
  | [] => [x]
  | y :: l' => if geb x y then x :: l else y :: insert_desc geb x l'
  end.

Fixpoint order_by_desc {A : Type} (geb : A -> A -> bool) (l : list A) : list A :=
  match l with
  | [] => []
  | x :: l' => insert_desc geb x (order_by_desc geb l')
  end.

(** Assignment to the attributes of the [k]-th loaded row. *)
Fixpoint set_nth {A : Type} (k : nat) (x : A) (l : list A) : list A :=
  match l, k with
  | [], _ => []
  | _ :: l', O => x :: l'
  | y :: l', S k' => y :: set_nth k' x l'
  end.

(* ================================================================== *)
(** * The scoring engine ([scoring/engine.py])                         *)
(* ================================================================== *)

Module Engine.

Section MomentumScoringEngine.

(** [math.log10]. *)
Variable log10 : Q -> Q.

(** A [dict] with string keys, in insertion order. *)
Definition dict : Type := list (string * Q).

(** [d[key]]. *)
Fixpoint dict_get (key : string) (d : dict) : Py.outcome Q :=
  match d with
  | [] => Py.Raise Py.KeyError
  | (k, v) :: d' => if String.eqb k key then Py.Return v else dict_get key d'
  end.

(** [self.weights]. *)
Definition weights : dict :=
  [ ("bsr_velocity"%string, 35 # 100);
    ("search_acceleration"%string, 25 # 100);
    ("social_buzz"%string, 20 # 100);
    ("competition_density"%string, 20 # 100) ].

(** [calculate_bsr_velocity_score(current_bsr, previous_bsr, hours_elapsed)].
    [not previous_bsr] holds for [None] and for [0]. *)
Definition calculate_bsr_velocity_score
  (current_bsr : Z) (previous_bsr : option Z) (hours_elapsed : Q)
  : Py.outcome (Q * conf_tag) :=
  match previous_bsr with
  | None => Py.Return (0, insufficient_data)
  | Some previous =>
      if ((previous =? 0) || (current_bsr <=? 0))%Z
      then Py.Return (0, insufficient_data)
      else
        let bsr_change := (previous - current_bsr)%Z in
        if (bsr_change <=? 0)%Z
        then Py.Return
               (Py.max 0 (20 - inject_Z (Z.abs bsr_change) / 1000), declining)
        else if Qeq_bool hours_elapsed 0
        then Py.Raise Py.ZeroDivisionError
        else
          let velocity := inject_Z bsr_change / hours_elapsed in
          if Py.gt velocity 100
          then Py.Return (Py.min 100 (70 + log10 velocity * 10), high)
          else if Py.gt velocity 10
          then Py.Return (Py.min 80 (40 + velocity * 2), medium)
          else if Py.gt velocity 1
          then Py.Return (Py.min 60 (20 + velocity * 10), low)
          else Py.Return (Py.max 0 (velocity * 20), low)
  end.

Definition newer_first (a b : TrendData) : bool :=
  (timestamp b <=? timestamp a)%Z.

(** The query of [calculate_search_acceleration_score]. *)
Definition recent_search_rows (kw : string) (now : datetime) (db : Store)
  : list TrendData :=
  firstn 5
    (order_by_desc newer_first
       (filter
          (fun d =>
             String.eqb (keyword d) kw
             && String.eqb (platform d) "google_trends"
             && (now - timedelta_days 30 <? timestamp d)%Z)
          (trends db))).

Definition calculate_search_acceleration_score
  (kw : string) (now : datetime) (db : Store) : Q * conf_tag :=
  let recent_data := recent_search_rows kw now db in
  if (List.length recent_data <? 2)%nat then (0, insufficient_data)
  else
    let volumes := map volume_score (rev recent_data) in
    if (3 <=? List.length volumes)%nat then
      let recent_velocity := Py.from_end volumes 1 - Py.from_end volumes 2 in
      let previous_velocity := Py.from_end volumes 2 - Py.from_end volumes 3 in
      let acceleration := recent_velocity - previous_velocity in
      if Py.gt acceleration 10
      then (Py.min 100 (60 + acceleration * 2), high)
      else if Py.gt acceleration 5
      then (Py.min 80 (40 + acceleration * 4), medium)
      else if Py.gt acceleration 0
      then (Py.min 60 (20 + acceleration * 8), low)
      else (Py.max 0 (30 + acceleration * 5), low)
    else
      let velocity := Py.from_end volumes 1 - Py.at_start volumes in
      (Py.max 0 (Py.min 70 (velocity * 2)), low).

(** The query of [calculate_social_buzz_score]. *)
Definition recent_social_rows (kw : string) (now : datetime) (db : Store)
  : list TrendData :=
  filter
    (fun d =>
       String.eqb (keyword d) kw
       && (String.eqb (platform d) "reddit" || String.eqb (platform d) "tiktok")
       && (now - timedelta_days 7 <? timestamp d)%Z)
    (trends db).

Definition calculate_social_buzz_score
  (kw : string) (now : datetime) (db : Store) : Q * conf_tag :=
  let recent_social := recent_social_rows kw now db in
  match recent_social with
  | [] => (0, no_data)
  | _ =>
      let total_mentions := Py.sum (map volume_score recent_social) in
      let avg_sentiment :=
        Py.sum (map sentiment_score recent_social)
        / inject_Z (Z.of_nat (List.length recent_social)) in
      let mention_score := Py.min 50 (total_mentions * 2) in
      let sentiment_boost :=
        Py.max (-20) (Py.min 20 ((avg_sentiment - (1 # 2)) * 40)) in
      let score := mention_score + sentiment_boost in
      let confidence :=
        if Py.gt score 60 then high
        else if Py.gt score 30 then medium
        else low in
      (Py.max 0 score, confidence)
  end.

(** The count query of [calculate_competition_score]. *)
Definition new_products_count (cat : string) (now : datetime) (db : Store) : nat :=
  List.length
    (filter
       (fun p =>
          match category p with
          | Some c => String.eqb c cat
          | None => false
          end
          && (now - timedelta_days 30 <? first_seen p)%Z)
       (products db)).

Definition calculate_competition_score
  (cat : string) (now : datetime) (db : Store) : Q * conf_tag :=
  let new_products := inject_Z (Z.of_nat (new_products_count cat now db)) in
  if Py.gt new_products 50
  then (Py.min 100 (70 + new_products * (1 # 2)), high)
  else if Py.gt new_products 20
  then (Py.min 80 (40 + new_products * (3 # 2)), medium)
  else if Py.gt new_products 5
  then (Py.min 60 (20 + new_products * 3), low)
  else (Py.max 0 (new_products * 10), low).

(** [" ".join(product.title.split()[0:3]).lower()]. *)
Definition keyword_of_title (t : string) : string :=
  Py.lower (Py.join " " (firstn 3 (Py.split t))).

(** [confidences.count(tag)]. *)
Definition count_tag (tag : conf_tag) (confidences : list conf_tag) : nat :=
  List.length (filter (conf_eqb tag) confidences).

Definition overall_confidence (confidences : list conf_tag) : conf_tag :=
  let high_conf := count_tag high confidences in
  let med_conf := count_tag medium confidences in
  if (2 <=? high_conf)%nat then high
  else if ((1 <=? high_conf) || (2 <=? med_conf))%nat then medium
  else low.

(** The four guarded blocks of [calculate_composite_momentum_score]: each
    gives the entry of [scores] and what it appends to [confidences]. *)
Definition bsr_block (product : Product) : Py.outcome (Q * list conf_tag) :=
  match bsr_current product with
  | Some current =>
      if negb (current =? 0)%Z && Py.truthy_int (bsr_previous product)
      then
        '(score, conf) <-
           calculate_bsr_velocity_score current (bsr_previous product) 24 ;;
        Py.Return (score, [conf])
      else Py.Return (0, [])
  | None => Py.Return (0, [])
  end.

Definition search_block (now : datetime) (db : Store) (product : Product)
  : Q * list conf_tag :=
  match title product with
  | Some t =>
      if negb (String.eqb t EmptyString)
      then
        let '(score, conf) :=
          calculate_search_acceleration_score (keyword_of_title t) now db in
        (score, [conf])
      else (0, [])
  | None => (0, [])
  end.

Definition social_block (now : datetime) (db : Store) (product : Product)
  : Q * list conf_tag :=
  match title product with
  | Some t =>
      if negb (String.eqb t EmptyString)
      then
        let '(score, conf) :=
          calculate_social_buzz_score (keyword_of_title t) now db in
        (score, [conf])
      else (0, [])
  | None => (0, [])
  end.

Definition competition_block (now : datetime) (db : Store) (product : Product)
  : Q * list conf_tag :=
  match category product with
  | Some c =>
      if negb (String.eqb c EmptyString)
      then
        let '(score, conf) := calculate_competition_score c now db in
        (score, [conf])
      else (0, [])
  | None => (0, [])
  end.

(** [scores[key] * self.weights[key] for key in scores.keys()]. *)
Fixpoint weighted_terms (scores : dict) : Py.outcome (list Q) :=
  match scores with
  | [] => Py.Return []
  | (key, score) :: rest =>
      weight <- dict_get key weights ;;
      terms <- weighted_terms rest ;;
      Py.Return (score * weight :: terms)
  end.

Definition calculate_composite_momentum_score
  (now : datetime) (db : Store) (product : Product)
  : Py.outcome (Q * conf_tag) :=
  '(s_bsr, c_bsr) <- bsr_block product ;;
  let '(s_search, c_search) := search_block now db product in
  let '(s_social, c_social) := social_block now db product in
  let '(s_comp, c_comp) := competition_block now db product in
  let scores : dict :=
    [ ("bsr_velocity"%string, s_bsr);
      ("search_acceleration"%string, s_search);
      ("social_buzz"%string, s_social);
      ("competition_density"%string, s_comp) ] in
  let confidences := c_bsr ++ c_search ++ c_social ++ c_comp in
  terms <- weighted_terms scores ;;
  let composite_score := Py.sum terms in
  Py.Return (Py.min 100 (Py.max 0 composite_score),
             overall_confidence confidences).

(** The four attribute assignments shared by the two update functions. *)
Definition with_momentum
  (product : Product) (score : Q) (conf : conf_tag) (now : datetime) : Product :=
  mkProduct (id product) (asin product) (title product) (category product)
    (price product) (bsr_current product) (bsr_previous product)
    (Some score) (Some conf) (first_seen product) now (Py.gt score 60).

Definition set_products (db : Store) (ps : list Product) : Store :=
  mkStore ps (trends db) (alerts db).

(** Index of the first row that satisfies [f]. *)
Fixpoint find_index {A : Type} (f : A -> bool) (l : list A) : option nat :=
  match l with
  | [] => None
  | x :: l' =>
      if f x then Some O
      else match find_index f l' with
           | Some k => Some (S k)
           | None => None
           end
  end.

(** [update_product_momentum(product_id, db)]. *)
Definition update_product_momentum
  (product_id : Z) (now : datetime) (s : Session)
  : Py.outcome (option Product) * Session :=
  match find_index (fun p => (id p =? product_id)%Z) (products (working s)) with
  | None => (Py.Return None, s)
  | Some k =>
      match nth_error (products (working s)) k with
      | None => (Py.Return None, s)
      | Some product =>
          match calculate_composite_momentum_score now (durable s) product with
          | Py.Raise e => (Py.Raise e, s)
          | Py.Return (score, conf) =>
              let product' := with_momentum product score conf now in
              let s' :=
                mkSession (durable s)
                  (set_products (working s)
                     (set_nth k product' (products (working s)))) in
              (Py.Return (Some product'), commit s')
          end
      end
  end.

(** The loop of [batch_update_momentum_scores] from row [k] on.  [clock k]
    is the clock while row [k] is scored; [store_up k] tells whether the
    store answers the queries made for row [k]. *)
Fixpoint batch_loop
  (clock : nat -> datetime) (store_up : nat -> bool)
  (k : nat) (todo : list Product) (updated : list Product) (s : Session)
  : Py.outcome (list Product) * Session :=
  match todo with
  | [] => (Py.Return updated, s)
  | product :: rest =>
      if store_up k then
        match calculate_composite_momentum_score (clock k) (durable s) product with
        | Py.Raise e => (Py.Raise e, s)
        | Py.Return (score, conf) =>
            let product' := with_momentum product score conf (clock k) in
            let s' :=
              mkSession (durable s)
                (set_products (working s)
                   (set_nth k product' (products (working s)))) in
            batch_loop clock store_up (S k) rest (updated ++ [product']) s'
        end
      else (Py.Raise Py.OperationalError, s)
  end.

(** [batch_update_momentum_scores(db)]: one [db.commit()], after the loop. *)
Definition batch_update_momentum_scores
  (clock : nat -> datetime) (store_up : nat -> bool) (s : Session)
  : Py.outcome (list Product) * Session :=
  match batch_loop clock store_up 0 (products (working s)) [] s with
  | (Py.Return updated, s') => (Py.Return updated, commit s')
  | (Py.Raise e, s') => (Py.Raise e, s')
  end.

(** A scoring run as [main.py] schedules it ([update_momentum_scores]): a
    fresh session, the batch update, the error logged, the session closed.
    The result is what the database holds afterwards. *)
Definition scoring_run
  (clock : nat -> datetime) (store_up : nat -> bool) (db : Store) : Store :=
  close (snd (batch_update_momentum_scores clock store_up (open_session db))).

End MomentumScoringEngine.

End Engine.

(* ================================================================== *)
(** * The alerter ([alerts/telegram.py])                               *)
(* ================================================================== *)

Module Alerter.

Definition nl : string := String (ascii_of_nat 10) EmptyString.

(** [datetime.now()], the local wall clock, field by field as [strftime]
    prints it. *)
Record WallClock : Type := mkWallClock {
  year : Z;
  month : Z;
  day : Z;
  hour : Z;
  minute : Z;
  second : Z
}.

(** Decimal digits of an integer. *)
Definition dec (z : Z) : string := NilZero.string_of_int (Z.to_int z).

Fixpoint zeros (n : nat) : string :=
  match n with
  | O => EmptyString
  | S n' => String "0" (zeros n')
  end.

Definition zero_pad (width : nat) (s : string) : string :=
  (zeros (width - String.length s) ++ s)%string.

(** [strftime('%H:%M:%S')] and [strftime('%Y-%m-%d %H:%M')]. *)
Definition strftime_hms (t : WallClock) : string :=
  (zero_pad 2 (dec (hour t)) ++ ":" ++ zero_pad 2 (dec (minute t)) ++ ":"
   ++ zero_pad 2 (dec (second t)))%string.

Definition strftime_ymd_hm (t : WallClock) : string :=
  (zero_pad 4 (dec (year t)) ++ "-" ++ zero_pad 2 (dec (month t)) ++ "-"
   ++ zero_pad 2 (dec (day t)) ++ " " ++ zero_pad 2 (dec (hour t)) ++ ":"
   ++ zero_pad 2 (dec (minute t)))%string.

Definition round_half_even (q : Q) : Z :=
  let f := Qfloor q in
  let r := q - inject_Z f in
  if Py.gt r (1 # 2) then (f + 1)%Z
  else if Qeq_bool r (1 # 2) then (if Z.even f then f else f + 1)%Z
  else f.

(** The format [{x:.df}] for [d >= 1]. *)
Definition format_fixed (d : nat) (x : Q) : string :=
  let scale := (10 ^ Z.of_nat d)%Z in
  let n := round_half_even (Qabs x * inject_Z scale) in
  ((if Py.lt x 0 then "-" else "") ++ dec (n / scale) ++ "."
   ++ zero_pad d (dec (n mod scale)))%string.

(** Digits, least significant first, with a comma after every third. *)
Fixpoint commas_rev (k : nat) (l : list ascii) : list ascii :=
  match l with
  | [] => []
  | c :: l' =>
      if (k =? 3)%nat then ","%char :: c :: commas_rev 1 l'
      else c :: commas_rev (S k) l'
  end.

(** The format [{z:,}]. *)
Definition format_grouped (z : Z) : string :=
  let digits := list_ascii_of_string (dec (Z.abs z)) in
  ((if (z <? 0)%Z then "-" else "")
   ++ string_of_list_ascii (rev (commas_rev 0 (rev digits))))%string.

Definition emoji_rocket : string := "ðŸš€".

Definition emoji_chart_up : string := "ðŸ“ˆ".

Definition emoji_zap : string := "âš¡".

Definition emoji_arrow_up : string := "â†—ï¸".

Definition emoji_arrow_down : string := "â†˜ï¸".

Definition emoji_bar_chart : string := "ðŸ“Š".

Definition emoji_target : string := "ðŸŽ¯".

Definition emoji_chart_down : string := "ðŸ“‰".

Definition emoji_link : string := "ðŸ”—".

Definition emoji_fire : string := "ðŸ”¥".

Definition emoji_magnifier : string := "ðŸ”".

(** [str(x)] of an optional string, as an f-string prints it. *)
Definition str_of_opt (o : option string) : string :=
  match o with
  | Some s => s
  | None => "None"
  end.

(** What [__init__] keeps of the configuration: whether [self.bot] was
    built, [self.chat_id], and [self.momentum_threshold]. *)
Record TelegramAlerter : Type := mkTelegramAlerter {
  bot : bool;
  chat_id : option string;
  momentum_threshold : Q
}.

(** What [__init__] reads: whether the [telegram] package was imported,
    and the three settings of [config.yaml], each possibly missing. *)
Record Config : Type := mkConfig {
  bot_token : option string;
  cfg_chat_id : option string;
  cfg_momentum_threshold : option Q
}.

(** [__init__(config_path)]; the threshold is
    [config.get('scoring', {}).get('momentum_threshold', 60)]. *)
Definition init (telegram_available : bool) (config : Config) : TelegramAlerter :=
  mkTelegramAlerter
    (telegram_available
     && Py.truthy_str (bot_token config)
     && negb (String.eqb (str_of_opt (bot_token config)) "YOUR_BOT_TOKEN_HERE"))
    (cfg_chat_id config)
    match cfg_momentum_threshold config with
    | Some threshold => threshold
    | None => 60
    end.

(** What [await self.bot.send_message(...)] does. *)
Inductive send_result : Type :=
| Sent
| RaisedTelegramError
| RaisedException.

(** What one call reads from the outside world: the clock at the dedup
    query, the local wall clock at formatting, the transport, and the clock
    when the row is inserted (the column default of [sent_at]). *)
Record Env : Type := mkEnv {
  utcnow : datetime;
  wall : WallClock;
  wire : send_result;
  insert_utcnow : datetime
}.

(** [send_telegram_message(message)]: both handlers return [False]. *)
Definition send_telegram_message
  (self : TelegramAlerter) (w : send_result) (msg : string) : bool :=
  if negb (bot self) || negb (Py.truthy_str (chat_id self)) then false
  else match w with
       | Sent => true
       | RaisedTelegramError => false
       | RaisedException => false
       end.

(** [format_momentum_alert(product)].  A comparison, a slice or a format
    of [None] raises. *)
Definition format_momentum_alert (now : WallClock) (product : Product)
  : Py.outcome string :=
  match momentum_score product with
  | None => Py.Raise Py.TypeError
  | Some score =>
      let emoji :=
        if Py.ge score 80 then emoji_rocket
        else if Py.ge score 60 then emoji_chart_up
        else emoji_zap in
      let bsr_change :=
        match bsr_current product, bsr_previous product with
        | Some current, Some previous =>
            if negb (current =? 0)%Z && negb (previous =? 0)%Z then
              let change := (previous - current)%Z in
              if (0 <? change)%Z
              then (" (" ++ emoji_arrow_up ++ " +" ++ format_grouped change
                    ++ " ranks)")%string
              else (" (" ++ emoji_arrow_down ++ " " ++ format_grouped change
                    ++ " ranks)")%string
            else EmptyString
        | _, _ => EmptyString
        end in
      match title product with
      | None => Py.Raise Py.TypeError
      | Some t =>
          match price product with
          | None => Py.Raise Py.TypeError
          | Some dollars =>
              match confidence_level product with
              | None => Py.Raise Py.AttributeError
              | Some conf =>
                  match bsr_current product with
                  | None => Py.Raise Py.TypeError
                  | Some current =>
                      Py.Return
                        (emoji ++ " **MOMENTUM ALERT**" ++ nl
                         ++ "        " ++ nl
                         ++ "**Product:** " ++ Py.prefix 60 t ++ "..." ++ nl
                         ++ "**ASIN:** `" ++ asin product ++ "`" ++ nl
                         ++ "**Category:** " ++ str_of_opt (category product) ++ nl
                         ++ "**Price:** $" ++ format_fixed 2 dollars ++ nl
                         ++ nl
                         ++ emoji_bar_chart ++ " **Momentum Score:** "
                         ++ format_fixed 1 score ++ "/100" ++ nl
                         ++ emoji_target ++ " **Confidence:** "
                         ++ Py.upper (conf_str conf) ++ nl
                         ++ emoji_chart_down ++ " **BSR:** #"
                         ++ format_grouped current ++ bsr_change ++ nl
                         ++ nl
                         ++ emoji_link
                         ++ " **Amazon:** [View Product](https://amazon.com/dp/"
                         ++ asin product ++ ")" ++ nl
                         ++ nl
                         ++ "*Alert triggered at " ++ strftime_hms now ++ "*")%string
                  end
              end
          end
      end
  end.

Definition dedup_window : Z := timedelta_hours 6.

(** The filter of the dedup query of [send_momentum_alert]. *)
Definition is_recent_alert (a : string) (now : datetime) (r : Alert) : bool :=
  String.eqb (product_asin r) a && (now - dedup_window <? sent_at r)%Z.

Definition add_alert (s : Session) (a : Alert) : Session :=
  mkSession (durable s)
    (mkStore (products (working s)) (trends (working s))
       (alerts (working s) ++ [a])).

(** [send_momentum_alert(product, db)]. *)
Definition send_momentum_alert
  (self : TelegramAlerter) (env : Env) (product : Product) (s : Session)
  : Py.outcome bool * Session :=
  match find (is_recent_alert (asin product) (utcnow env)) (alerts (durable s)) with
  | Some _ => (Py.Return false, s)
  | None =>
      match format_momentum_alert (wall env) product with
      | Py.Raise e => (Py.Raise e, s)
      | Py.Return msg =>
          let sent := send_telegram_message self (wire env) msg in
          let alert :=
            mkAlert (asin product) "momentum_spike" msg
              (momentum_score product) (confidence_level product)
              (insert_utcnow env) sent in
          (Py.Return sent, commit (add_alert s alert))
      end
  end.

(** The filter of the query of [check_and_send_alerts]; a comparison with
    a NULL column is not true. *)
Definition alert_worthy (self : TelegramAlerter) (p : Product) : bool :=
  match momentum_score p with
  | Some score => Py.ge score (momentum_threshold self)
  | None => false
  end
  && match confidence_level p with
     | Some medium | Some high => true
     | _ => false
     end
  && is_trending p.

(** The loop of [check_and_send_alerts] from position [k] on; an exception
    of [send_momentum_alert] is printed and the loop goes on. *)
Fixpoint alerts_loop
  (self : TelegramAlerter) (envs : nat -> Env) (k : nat)
  (todo : list Product) (alerts_sent : nat) (s : Session) : nat * Session :=
  match todo with
  | [] => (alerts_sent, s)
  | product :: rest =>
      match send_momentum_alert self (envs k) product s with
      | (Py.Return true, s') =>
          alerts_loop self envs (S k) rest (S alerts_sent) s'
      | (Py.Return false, s') =>
          alerts_loop self envs (S k) rest alerts_sent s'
      | (Py.Raise _, s') =>
          alerts_loop self envs (S k) rest alerts_sent s'
      end
  end.

Definition check_and_send_alerts
  (self : TelegramAlerter) (envs : nat -> Env) (s : Session) : nat * Session :=
  alerts_loop self envs 0 (filter (alert_worthy self) (products (durable s))) 0 s.

(** [ORDER BY momentum_score DESC] and [ORDER BY velocity_score DESC]; a
    NULL score sorts last. *)
Definition score_geb (a b : Product) : bool :=
  match momentum_score b with
  | None => true
  | Some y =>
      match momentum_score a with
      | None => false
      | Some x => Py.ge x y
      end
  end.

Definition velocity_geb (a b : TrendData) : bool :=
  Py.ge (velocity_score a) (velocity_score b).

(** The filters of the two queries of [send_daily_digest]; a comparison
    with a NULL score is not true. *)
Definition top_product_filter (yesterday : datetime) (p : Product) : bool :=
  (yesterday <? last_updated p)%Z
  && match momentum_score p with
     | Some score => Py.gt score 40
     | None => false
     end.

Definition trending_keyword_filter (yesterday : datetime) (t : TrendData) : bool :=
  String.eqb (platform t) "google_trends"
  && (yesterday <? timestamp t)%Z
  && Py.gt (velocity_score t) 0.

(** The two queries of [send_daily_digest]. *)
Definition digest_products (now : datetime) (db : Store) : list Product :=
  let yesterday := (now - timedelta_days 1)%Z in
  firstn 10
    (order_by_desc score_geb
       (filter (top_product_filter yesterday) (products db))).

Definition digest_keywords (now : datetime) (db : Store) : list TrendData :=
  let yesterday := (now - timedelta_days 1)%Z in
  firstn 10
    (order_by_desc velocity_geb
       (filter (trending_keyword_filter yesterday) (trends db))).

(** An entry of [trending_kw_list]. *)
Record KeywordEntry : Type := mkKeywordEntry {
  kw_keyword : string;
  kw_velocity : Q;
  kw_volume : Q
}.

Definition keyword_entry (t : TrendData) : KeywordEntry :=
  mkKeywordEntry (keyword t) (velocity_score t) (volume_score t).

(** The two [enumerate] loops of [format_trends_digest], from index [i]. *)
Fixpoint product_lines (i : nat) (l : list Product) : Py.outcome string :=
  match l with
  | [] => Py.Return EmptyString
  | product :: rest =>
      match momentum_score product, title product with
      | Some score, Some t =>
          let score_emoji :=
            if Py.ge score 80 then emoji_rocket else emoji_chart_up in
          tail <- product_lines (S i) rest ;;
          Py.Return
            (dec (Z.of_nat i) ++ ". " ++ score_emoji ++ " " ++ Py.prefix 40 t
             ++ "... (" ++ format_fixed 1 score ++ "/100)" ++ nl ++ tail)%string
      | _, _ => Py.Raise Py.TypeError
      end
  end.

Fixpoint keyword_lines (i : nat) (l : list KeywordEntry) : string :=
  match l with
  | [] => EmptyString
  | entry :: rest =>
      let velocity := kw_velocity entry in
      let velocity_emoji :=
        if Py.gt velocity 10 then emoji_zap else emoji_bar_chart in
      (dec (Z.of_nat i) ++ ". " ++ velocity_emoji ++ " " ++ kw_keyword entry
       ++ " (+" ++ format_fixed 1 velocity ++ ")" ++ nl
       ++ keyword_lines (S i) rest)%string
  end.

(** [format_trends_digest(top_products, trending_keywords)]. *)
Definition format_trends_digest
  (now : WallClock) (top_products : list Product)
  (trending_keywords : list KeywordEntry) : Py.outcome string :=
  let header := (emoji_bar_chart ++ " **DAILY TRENDS DIGEST**" ++ nl ++ nl)%string in
  products_part <-
    match top_products with
    | [] => Py.Return EmptyString
    | _ =>
        lines <- product_lines 1 (firstn 5 top_products) ;;
        Py.Return
          (emoji_fire ++ " **TOP MOMENTUM PRODUCTS:**" ++ nl ++ lines ++ nl)%string
    end ;;
  let keywords_part :=
    match trending_keywords with
    | [] => EmptyString
    | _ =>
        (emoji_magnifier ++ " **TRENDING SEARCHES:**" ++ nl
         ++ keyword_lines 1 (firstn 5 trending_keywords) ++ nl)%string
    end in
  Py.Return
    (header ++ products_part ++ keywords_part
     ++ "*Generated at " ++ strftime_ymd_hm now ++ "*")%string.

(** The summary payload of [send_daily_digest]: the two queries and the
    formatting. *)
Definition build_digest (env : Env) (db : Store) : Py.outcome string :=
  format_trends_digest (wall env)
    (digest_products (utcnow env) db)
    (map keyword_entry (digest_keywords (utcnow env) db)).

(** [send_daily_digest(db)]. *)
Definition send_daily_digest
  (self : TelegramAlerter) (env : Env) (db : Store) : Py.outcome bool :=
  msg <- build_digest env db ;;
  Py.Return (send_telegram_message self (wire env) msg).

End Alerter.

(* ================================================================== *)
(** * Reference points for the statements                              *)
(* ================================================================== *)

(** A rational stand-in for [math.log10] where a concrete function is
    needed: the number of decimal digits of the integer part, less one. *)
Fixpoint digits_above_one (fuel : nat) (n : Z) : Z :=
  match fuel with
  | O => 0%Z
  | S fuel' => if (n <? 10)%Z then 0%Z else (1 + digits_above_one fuel' (n / 10))%Z
  end.

Definition floor_log10 (v : Q) : Q :=
  inject_Z (digits_above_one (Z.to_nat (Qfloor v)) (Qfloor v)).

(** [is_trending == (momentum_score > 60)] on a row. *)
Definition trend_consistent (p : Product) : Prop :=
  exists score, momentum_score p = Some score /\ (is_trending p = true <-> 60 < score).

Definition conf_eq_dec (a b : conf_tag) : {a = b} + {a <> b}.
Proof. decide equality. Defined.

(** [news] are the rows [olds] rescored one by one, row [i] at clock
    [clock (k + i)] against the durable rows [db]. *)
Fixpoint rescored_from
  (log10 : Q -> Q) (clock : nat -> datetime) (db : Store)
  (k : nat) (olds news : list Product) : Prop :=
  match olds, news with
  | [], [] => True
  | old :: olds', new :: news' =>
      (exists score conf,
         Engine.calculate_composite_momentum_score log10 (clock k) db old
         = Py.Return (score, conf)
         /\ new = Engine.with_momentum old score conf (clock k))
      /\ rescored_from log10 clock db (S k) olds' news'
  | _, _ => False
  end.

(** The derived state of the gate: an item is recently alerted at [now]
    when some alert row for it has [sent_at] later than six hours before
    [now]. *)
Definition recently_alerted (db : Store) (a : string) (now : datetime) : Prop :=
  exists r, In r (alerts db) /\ product_asin r = a
            /\ (now - timedelta_hours 6 < sent_at r)%Z.

Definition quiet (db : Store) (a : string) (now : datetime) : Prop :=
  ~ recently_alerted db a now.

(** The ways the transport is out of order: no bot, no chat id, or an
    exception of [send_message]. *)
Definition transport_broken (self : Alerter.TelegramAlerter) (env : Alerter.Env) : Prop :=
  Alerter.bot self = false
  \/ Py.truthy_str (Alerter.chat_id self) = false
  \/ Alerter.wire env = Alerter.RaisedTelegramError
  \/ Alerter.wire env = Alerter.RaisedException.

(** The delivery of the product's alert fails: its message [msg] was
    rendered and handed to [send_telegram_message], which returned
    [False]. *)
Definition delivery_fails
  (self : Alerter.TelegramAlerter) (env : Alerter.Env) (p : Product) (msg : string)
  : Prop :=
  Alerter.format_momentum_alert (Alerter.wall env) p = Py.Return msg
  /\ Alerter.send_telegram_message self (Alerter.wire env) msg = false.


Definition with_alert (db : Store) (a : Alert) : Store :=
  mkStore (products db) (trends db) (alerts db ++ [a]).


(** The columns that the collector writes for every row and that no other
    code assigns: title, price and current rank. *)
Definition collected (p : Product) : Prop :=
  title p <> None /\ price p <> None /\ bsr_current p <> None.


(** [sel] is the answer to "at most [n] rows of [l] that satisfy [P], in
    descending order": the table splits into the selected rows, the
    qualifying rows that were cut and the rows that do not qualify; rows are
    cut only when [n] are selected, and no cut row ranks above a selected
    one. *)
Definition top_selection {A : Type}
  (n : nat) (P : A -> Prop) (ge : A -> A -> Prop) (l sel : list A) : Prop :=
  (List.length sel <= n)%nat
  /\ StronglySorted ge sel
  /\ Forall P sel
  /\ exists cut others,
       Permutation l (sel ++ cut ++ others)
       /\ Forall P cut
       /\ Forall (fun x => ~ P x) others
       /\ (cut <> [] -> List.length sel = n)
       /\ (forall x y, In x sel -> In y cut -> ge x y).

(** What the claim asks of a digest item and of a digest keyword, with the
    window of the code (24 hours) for both. *)
Definition item_qualifies (now : datetime) (p : Product) : Prop :=
  (now - timedelta_hours 24 < last_updated p)%Z
  /\ exists score, momentum_score p = Some score /\ 40 < score.

Definition score_at_least (a b : Product) : Prop :=
  exists x y, momentum_score a = Some x /\ momentum_score b = Some y /\ y <= x.

Definition keyword_qualifies (now : datetime) (t : TrendData) : Prop :=
  platform t = "google_trends"%string
  /\ (now - timedelta_hours 24 < timestamp t)%Z
  /\ 0 < velocity_score t.

Definition velocity_at_least (a b : TrendData) : Prop :=
  velocity_score b <= velocity_score a.

(* ================================================================== *)
(** * Rows and readings used in the worked runs                        *)
(* ================================================================== *)

(** Two rows as the collector writes them, unscored. *)
Definition purifier : Product :=
  mkProduct 1 "B09G9F43QL" (Some "LEVOIT Core 300S Air Purifier"%string)
    (Some "Home & Kitchen"%string) (Some (1999 # 100)) (Some 900%Z) (Some 1000%Z)
    None None (timedelta_days 90) (timedelta_days 90) false.

Definition vacuum : Product :=
  mkProduct 2 "B07Y523S3G" (Some "iRobot Roomba 694 Robot Vacuum"%string)
    (Some "Home & Kitchen"%string) (Some (27499 # 100)) (Some 500%Z) (Some 450%Z)
    None None (timedelta_days 90) (timedelta_days 90) false.

Definition two_products : Store := mkStore [purifier; vacuum] [] [].

Definition noon_day_100 : datetime := (timedelta_days 100 + timedelta_hours 12)%Z.

(** The store answers while row 0 is scored and is down for row 1. *)
Definition down_from_row_1 (k : nat) : bool := (k <? 1)%nat.

(** An alerter with a bot and a chat id, at the default threshold. *)
Definition configured_alerter : Alerter.TelegramAlerter :=
  Alerter.init true
    (Alerter.mkConfig (Some "110201543:token"%string) (Some "42"%string) None).

(** The purifier after a scoring run that found it trending. *)
Definition trending_purifier : Product :=
  mkProduct 1 "B09G9F43QL" (Some "LEVOIT Core 300S Air Purifier"%string)
    (Some "Home & Kitchen"%string) (Some (1999 # 100)) (Some 900%Z) (Some 1000%Z)
    (Some 85) (Some high) (timedelta_days 90) (timedelta_days 100) true.

(** A row with a qualifying score and no title. *)
Definition untitled_mover : Product :=
  mkProduct 3 "B000000000" None (Some "Home & Kitchen"%string) (Some (999 # 100))
    (Some 900%Z) (Some 1000%Z) (Some 85) (Some high)
    (timedelta_days 90) (timedelta_days 100) true.

Definition nine_o_clock : Alerter.WallClock := Alerter.mkWallClock 2024 3 5 9 0 7.

(** The outside world of a call made at UTC time [t] with transport [w]. *)
Definition env_at (t : datetime) (w : Alerter.send_result) : Alerter.Env :=
  Alerter.mkEnv t nine_o_clock w t.

(** An alert row for the purifier whose delivery failed at noon of day 100. *)
Definition failed_alert : Alert :=
  mkAlert "B09G9F43QL" "momentum_spike" "not delivered" (Some 85) (Some high)
    noon_day_100 false.

Definition alerted_store : Store := mkStore [trending_purifier] [] [failed_alert].

Definition unalerted_store : Store := mkStore [trending_purifier] [] [].

(** A search-trend row observed three days before noon of day 100. *)
Definition three_days_old_keyword : TrendData :=
  mkTrendData "air purifier" "google_trends" 50 (25 # 2) (1 # 2)
    (noon_day_100 - timedelta_days 3).

(** A store with one trending product and one fresh search-trend row. *)
Definition fresh_keyword : TrendData :=
  mkTrendData "air purifier" "google_trends" 50 (25 # 2) (1 # 2)
    (noon_day_100 - timedelta_hours 2).

Definition digest_store : Store :=
  mkStore [trending_purifier] [fresh_keyword] [].

Definition half_a_minute : Z := 30000000%Z.

Definition env_at_wall
  (t : datetime) (w : Alerter.WallClock) : Alerter.Env :=
  Alerter.mkEnv t w Alerter.Sent t.

(* ================================================================== *)
(** * The trends collector ([collectors/google_trends.py])             *)
(* ================================================================== *)

Module TrendsCollector.

(** The keyword of one title in [extract_keywords_from_products]:
    [" ".join(product.title.lower().split()[:3])]. *)
Definition title_keyword (t : string) : string :=
  Py.join " " (firstn 3 (Py.split (Py.lower t))).

(** [keywords.add(keyword)] on a [set] of strings.  Python leaves the order
    of [list(keywords)] open; the model lists the elements in the order of
    their first insertion. *)
Definition set_add (k : string) (keywords : list string) : list string :=
  if existsb (String.eqb k) keywords then keywords else keywords ++ [k].

(** [extract_keywords_from_products(db)]. *)
Definition extract_keywords_from_products (db : Store) : list string :=
  fold_left
    (fun keywords product =>
       match title product with
       | Some t =>
           if negb (String.eqb t EmptyString)
           then set_add (title_keyword t) keywords
           else keywords
       | None => keywords
       end)
    (firstn 50 (products db)) [].

(** The filter of the query of [get_accelerating_keywords]. *)
Definition accelerating_filter (week_ago : datetime) (t : TrendData) : bool :=
  String.eqb (platform t) "google_trends"
  && (week_ago <? timestamp t)%Z
  && Py.gt (velocity_score t) 5.

(** SQL [LIMIT n] as SQLite reads it: a negative [n] is no limit. *)
Definition sql_limit {A : Type} (n : Z) (rows : list A) : list A :=
  if (n <? 0)%Z then rows else firstn (Z.to_nat n) rows.

(** SQL [OFFSET n] as SQLite reads it: a negative [n] is zero. *)
Definition sql_offset {A : Type} (n : Z) (rows : list A) : list A :=
  skipn (Z.to_nat n) rows.

(** The rows behind [get_accelerating_keywords(db, limit)]; each is then
    copied into a dictionary. *)
Definition get_accelerating_keywords
  (now : datetime) (limit : Z) (db : Store) : list TrendData :=
  let week_ago := (now - timedelta_days 7)%Z in
  sql_limit limit
    (order_by_desc Alerter.velocity_geb
       (filter (accelerating_filter week_ago) (trends db))).

End TrendsCollector.

(* ================================================================== *)
(** * The social collector ([collectors/social.py])                    *)
(* ================================================================== *)

Module SocialCollector.

(** [needle in hay] on strings. *)
Fixpoint contains (needle hay : string) : bool :=
  if String.prefix needle hay then true
  else match hay with
       | EmptyString => false
       | String _ hay' => contains needle hay'
       end.

Definition positive_words : list string :=
  [ "love"; "amazing"; "great"; "awesome"; "fantastic"; "perfect";
    "excellent"; "recommend"; "best"; "good"; "happy"; "satisfied" ]%string.

Definition negative_words : list string :=
  [ "hate"; "terrible"; "awful"; "worst"; "bad"; "disappointing";
    "scam"; "fake"; "poor"; "broken"; "useless"; "waste" ]%string.

(** [sum(1 for word in words if word in text_lower)]. *)
Definition count_present (words : list string) (text_lower : string) : nat :=
  List.length (filter (fun word => contains word text_lower) words).

(** [analyze_social_sentiment(text)]. *)
Definition analyze_social_sentiment (text : string) : Q :=
  let text_lower := Py.lower text in
  let positive_count := count_present positive_words text_lower in
  let negative_count := count_present negative_words text_lower in
  if (positive_count + negative_count =? 0)%nat then 1 # 2
  else inject_Z (Z.of_nat positive_count)
       / inject_Z (Z.of_nat (positive_count + negative_count)).

(** The filter of the query of [get_viral_products]; [platform] is the
    optional argument, used when it is a non-empty string. *)
Definition viral_filter
  (since : datetime) (platform_arg : option string) (t : TrendData) : bool :=
  (since <? timestamp t)%Z
  && Py.gt (velocity_score t) 10
  && match platform_arg with
     | Some wanted =>
         if negb (String.eqb wanted EmptyString)
         then String.eqb (platform t) wanted
         else String.eqb (platform t) "reddit" || String.eqb (platform t) "tiktok"
     | None => String.eqb (platform t) "reddit" || String.eqb (platform t) "tiktok"
     end.

(** The rows behind [get_viral_products(db, platform, days)]. *)
Definition get_viral_products
  (now : datetime) (platform_arg : option string) (days : Z) (db : Store)
  : list TrendData :=
  let since := (now - timedelta_days days)%Z in
  firstn 10
    (order_by_desc Alerter.velocity_geb
       (filter (viral_filter since platform_arg) (trends db))).

End SocialCollector.

(* ================================================================== *)
(** * The dashboard ([dashboard/app.py])                               *)
(* ================================================================== *)

Module Dashboard.

(** [db.query(...).filter(...).count()]. *)
Definition count {A : Type} (f : A -> bool) (rows : list A) : nat :=
  List.length (filter f rows).

(** A comparison of the score column with a constant; NULL is not true. *)
Definition score_is (test : Q -> bool) (p : Product) : bool :=
  match momentum_score p with
  | Some score => test score
  | None => false
  end.

(** The answer of [get_stats]. *)
Record Stats : Type := mkStats {
  total_products : nat;
  trending_products : nat;
  daily_alerts : nat;
  high : nat;
  medium : nat;
  low : nat
}.

(** [get_stats(db)]. *)
Definition get_stats (now : datetime) (db : Store) : Stats :=
  let day_ago := (now - timedelta_days 1)%Z in
  mkStats
    (List.length (products db))
    (count is_trending (products db))
    (count (fun a => (day_ago <? sent_at a)%Z) (alerts db))
    (count (score_is (fun s => Py.ge s 70)) (products db))
    (count (score_is (fun s => Py.ge s 40 && Py.lt s 70)) (products db))
    (count (score_is (fun s => Py.lt s 40)) (products db)).

(** The rows behind [get_products(skip, limit, trending_only)]. *)
Definition get_products
  (skip limit : Z) (trending_only : bool) (db : Store) : list Product :=
  let query :=
    if trending_only then filter is_trending (products db) else products db in
  TrendsCollector.sql_limit limit
    (TrendsCollector.sql_offset skip (order_by_desc Alerter.score_geb query)).

End Dashboard.

(* ================================================================== *)
(** * The scheduled jobs ([main.py])                                   *)
(* ================================================================== *)

Module Main.

(** What [update_momentum_scores] logs: the two counts of its info line, or
    the error. *)
Inductive scoring_log : Type :=
| Updated (n_updated n_high_momentum : nat)
| Failed (e : Py.exn).

(** [len([p for p in updated_products if p.momentum_score > 60])]; the
    comparison of [None] raises. *)
Fixpoint count_high_momentum (updated_products : list Product) : Py.outcome nat :=
  match updated_products with
  | [] => Py.Return O
  | p :: rest =>
      match momentum_score p with
      | None => Py.Raise Py.TypeError
      | Some score =>
          n <- count_high_momentum rest ;;
          Py.Return (if Py.gt score 60 then S n else n)
      end
  end.

(** [update_momentum_scores()]: the batch update in a fresh session, the
    log line, and what the database holds after [db.close()]. *)
Definition update_momentum_scores
  (log10 : Q -> Q) (clock : nat -> datetime) (store_up : nat -> bool) (db : Store)
  : scoring_log * Store :=
  match Engine.batch_update_momentum_scores log10 clock store_up (open_session db) with
  | (Py.Return updated_products, s) =>
      match count_high_momentum updated_products with
      | Py.Return n_high =>
          (Updated (List.length updated_products) n_high, close s)
      | Py.Raise e => (Failed e, close s)
      end
  | (Py.Raise e, s) => (Failed e, close s)
  end.

(** [check_alerts()]: the alert check in a fresh session; the count and
    what the database holds afterwards. *)
Definition check_alerts
  (self : Alerter.TelegramAlerter) (envs : nat -> Alerter.Env) (db : Store)
  : nat * Store :=
  let '(alerts_sent, s) := Alerter.check_and_send_alerts self envs (open_session db) in
  (alerts_sent, close s).

End Main.

(* ================================================================== *)
(** * The Amazon collector ([collectors/amazon.py])                    *)
(* ================================================================== *)

Module AmazonCollector.

(** The fixed list of [get_real_products_for_demo]: asin, title, category. *)
Definition real_products : list (string * string * string) :=
  [ ("B09G9F43QL", "LEVOIT Core 300S Air Purifier", "Home & Kitchen");
    ("B07Y523S3G", "iRobot Roomba 694 Robot Vacuum", "Home & Kitchen");
    ("B08166SLDF", "Anker Nano Charger, 20W PIQ 3.0", "Electronics");
    ("B07XJ8C8F7", "SAMSUNG EVO Select Micro SD Card", "Electronics");
    ("B08J816436", "Hydro Flask Wide Mouth Straw Lid", "Sports & Outdoors");
    ("B01N6S4A25", "LifeStraw Personal Water Filter", "Sports & Outdoors");
    ("B07YV1FB4N", "Vital Proteins Collagen Peptides", "Health & Personal Care");
    ("B081CK61TW", "TheraGun Mini Massage Gun", "Health & Personal Care");
    ("B07RFSS7W2", "CeraVe Hydrating Facial Cleanser", "Beauty & Personal Care");
    ("B08L59X72Q", "The Ordinary Niacinamide 10% + Zinc 1%", "Beauty & Personal Care");
    ("B07W4F2728", "TeeTurtle | The Original Reversible Octopus", "Toys & Games");
    ("B08F223V34", "WHAT DO YOU MEME? Family Edition", "Toys & Games");
    ("B01M337229", "FURminator Undercoat Deshedding Tool", "Pet Supplies");
    ("B07M592B9X", "Greenies Original TEENIE Dental Treats", "Pet Supplies");
    ("B07GPR2T4V", "Rocketbook Smart Reusable Notebook", "Office Products");
    ("B0842B5C62", "Logitech MX Master 3S Mouse", "Office Products");
    ("B0B3YC5VPC", "Stanley Quencher H2.0 FlowState Tumbler", "Home & Kitchen");
    ("B08T27XDX9", "Owala FreeSip Insulated Water Bottle", "Sports & Outdoors");
    ("B0BQZR7QXS", "Mighty Patch Original from Hero Cosmetics", "Beauty & Personal Care");
    ("B08W2TP2TT", "Simple Modern 40 oz Tumbler with Handle", "Home & Kitchen") ]%string.

(** The random draws made for one product: [randint(100, 50000)], whether
    [random.random() < 0.5], [randint(1000, 20000)], [randint(0, 5000)],
    [round(uniform(9.99, 149.99), 2)] and [randint(1, 90)]. *)
Record Draw : Type := mkDraw {
  drawn_bsr : Z;
  rank_improved : bool;
  drawn_gain : Z;
  drawn_loss : Z;
  drawn_price : Q;
  drawn_age_days : Z
}.

(** The ranges the draws come from. *)
Definition draw_in_range (d : Draw) : Prop :=
  (100 <= drawn_bsr d <= 50000)%Z
  /\ (1000 <= drawn_gain d <= 20000)%Z
  /\ (0 <= drawn_loss d <= 5000)%Z
  /\ 999 # 100 <= drawn_price d /\ drawn_price d <= 14999 # 100
  /\ (1 <= drawn_age_days d <= 90)%Z.

(** An entry of [products_with_bsr]. *)
Record ProductData : Type := mkProductData {
  pd_asin : string;
  pd_title : string;
  pd_category : string;
  pd_price : Q;
  pd_bsr_current : Z;
  pd_bsr_previous : Z;
  pd_first_seen : datetime
}.

(** The loop body of [get_real_products_for_demo]. *)
Definition demo_entry
  (info : string * string * string) (d : Draw) (now : datetime) : ProductData :=
  let '(a, t, c) := info in
  let current_bsr := drawn_bsr d in
  let previous_bsr :=
    if rank_improved d then (current_bsr + drawn_gain d)%Z
    else (current_bsr - drawn_loss d)%Z in
  mkProductData a t c (drawn_price d) current_bsr previous_bsr
    (now - timedelta_days (drawn_age_days d))%Z.

(** [get_real_products_for_demo()], the draws and clock readings of entry
    [k] given by [draws k] and [clock k]. *)
Fixpoint demo_entries
  (draws : nat -> Draw) (clock : nat -> datetime) (k : nat)
  (infos : list (string * string * string)) : list ProductData :=
  match infos with
  | [] => []
  | info :: rest =>
      demo_entry info (draws k) (clock k) :: demo_entries draws clock (S k) rest
  end.

Definition get_real_products_for_demo
  (draws : nat -> Draw) (clock : nat -> datetime) : list ProductData :=
  demo_entries draws clock 0 real_products.

(** The row [Product(...)] builds; the primary key is given at insertion,
    [last_updated] and [is_trending] take their column defaults. *)
Definition new_product (key : Z) (pd : ProductData) (now : datetime) : Product :=
  mkProduct key (pd_asin pd) (Some (pd_title pd)) (Some (pd_category pd))
    (Some (pd_price pd)) (Some (pd_bsr_current pd)) (Some (pd_bsr_previous pd))
    None None (pd_first_seen pd) now false.

(** The next primary key: one more than the largest in the table. *)
Definition next_id (rows : list Product) : Z :=
  (1 + fold_right Z.max 0 (map id rows))%Z.

(** The unique index on [asin]. *)
Definition asin_taken (a : string) (rows : list Product) : bool :=
  existsb (fun p => String.eqb (asin p) a) rows.

(** The loop of [update_product_database]: [db.add], [db.commit()]; a
    commit that breaks the unique index raises, the handler rolls back and
    the loop goes on. *)
Fixpoint insert_loop
  (clock : nat -> datetime) (k : nat) (todo : list ProductData)
  (updated_count : nat) (s : Session) : nat * Session :=
  match todo with
  | [] => (updated_count, s)
  | pd :: rest =>
      let row := new_product (next_id (products (durable s))) pd (clock k) in
      let s1 :=
        mkSession (durable s)
          (mkStore (products (working s) ++ [row]) (trends (working s))
             (alerts (working s))) in
      if asin_taken (pd_asin pd) (products (durable s))
      then insert_loop clock (S k) rest updated_count
             (mkSession (durable s) (durable s))
      else insert_loop clock (S k) rest (S updated_count) (commit s1)
  end.

(** [update_product_database(db)]; [insert_clock k] is the clock when entry
    [k] is inserted. *)
Definition update_product_database
  (draws : nat -> Draw) (clock insert_clock : nat -> datetime) (s : Session)
  : nat * Session :=
  insert_loop insert_clock 0 (get_real_products_for_demo draws clock) 0 s.

End AmazonCollector.

(* ================================================================== *)
(** * Rows used in the further runs                                    *)
(* ================================================================== *)

(** A purifier that climbed from rank 5000 to rank 100, unscored. *)
Definition climbing_purifier : Product :=
  mkProduct 1 "B09G9F43QL" (Some "LEVOIT Core 300S Air Purifier"%string)
    (Some "Home & Kitchen"%string) (Some (1999 # 100)) (Some 100%Z) (Some 5000%Z)
    None None (timedelta_days 90) (timedelta_days 90) false.

(** Search volumes 10, 20 and 60 for its keyword on days 97 to 99, and one
    enthusiastic Reddit row. *)
Definition purifier_trends : list TrendData :=
  [ mkTrendData "levoit core 300s" "google_trends" 10 10 (1 # 2) (timedelta_days 97);
    mkTrendData "levoit core 300s" "google_trends" 20 10 (1 # 2) (timedelta_days 98);
    mkTrendData "levoit core 300s" "google_trends" 60 40 (1 # 2) (timedelta_days 99);
    mkTrendData "levoit core 300s" "reddit" 30 15 1 (timedelta_days 99) ].

Definition hot_store : Store :=
  mkStore [climbing_purifier; vacuum] purifier_trends [].

(* ================================================================== *)
(** * Further reference points                                         *)
(* ================================================================== *)

(** Two rows agree in every column that the scoring never writes. *)
Definition same_catalogue (p q : Product) : Prop :=
  id p = id q /\ asin p = asin q /\ title p = title q
  /\ category p = category q /\ price p = price q
  /\ bsr_current p = bsr_current q /\ bsr_previous p = bsr_previous q
  /\ first_seen p = first_seen q.

(** Two stores differ at most in what the scoring wrote to their product
    rows: score, confidence, time of update and trending flag. *)
Definition same_inputs (db db' : Store) : Prop :=
  Forall2 same_catalogue (products db) (products db')
  /\ trends db = trends db' /\ alerts db = alerts db'.

(** What [calculate_search_acceleration_score] asks of a trend row, and the
    order in which it takes the rows: newest first. *)
Definition search_row (kw : string) (now : datetime) (t : TrendData) : Prop :=
  keyword t = kw /\ platform t = "google_trends"%string
  /\ (now - timedelta_days 30 < timestamp t)%Z.

Definition no_older (a b : TrendData) : Prop := (timestamp b <= timestamp a)%Z.

(** The ASINs of the fixed list of the Amazon collector. *)
Definition demo_asins : list string :=
  map (fun info => fst (fst info)) AmazonCollector.real_products.

(** What [get_accelerating_keywords] and [get_viral_products] ask of a
    row. *)
Definition accelerating (now : datetime) (t : TrendData) : Prop :=
  platform t = "google_trends"%string
  /\ (now - timedelta_days 7 < timestamp t)%Z
  /\ 5 < velocity_score t.

Definition wanted_platform (platform_arg : option string) (t : TrendData) : Prop :=
  match platform_arg with
  | Some wanted =>
      if String.eqb wanted EmptyString
      then platform t = "reddit"%string \/ platform t = "tiktok"%string
      else platform t = wanted
  | None => platform t = "reddit"%string \/ platform t = "tiktok"%string
  end.

Definition viral (now : datetime) (platform_arg : option string) (days : Z)
  (t : TrendData) : Prop :=
  (now - timedelta_days days < timestamp t)%Z
  /\ 10 < velocity_score t
  /\ wanted_platform platform_arg t.

(** A store with a scored and an unscored row, for the product pages. *)
Definition mixed_store : Store :=
  mkStore [vacuum; trending_purifier; untitled_mover] [] [].

(* ================================================================== *)
(** * Arithmetic of the Python builtins                                *)
(* ================================================================== *)

Lemma gt_true (a b : Q) : Py.gt a b = true <-> b < a.
Proof.
  unfold Py.gt. rewrite negb_true_iff. split; intro H.
  - apply Qnot_le_lt. intro Hle. apply Qle_bool_iff in Hle. congruence.
  - destruct (Qle_bool a b) eqn:E; [ | reflexivity ].
    apply Qle_bool_iff in E. apply Qle_not_lt in E. contradiction.
Qed.

Lemma gt_false (a b : Q) : Py.gt a b = false <-> a <= b.
Proof.
  unfold Py.gt. rewrite negb_false_iff. apply Qle_bool_iff.
Qed.

Lemma ge_true (a b : Q) : Py.ge a b = true <-> b <= a.
Proof. unfold Py.ge. apply Qle_bool_iff. Qed.

Lemma ge_false (a b : Q) : Py.ge a b = false <-> a < b.
Proof.
  unfold Py.ge. split; intro H.
  - apply Qnot_le_lt. intro Hle. apply Qle_bool_iff in Hle. congruence.
  - destruct (Qle_bool b a) eqn:E; [ | reflexivity ].
    apply Qle_bool_iff in E. apply Qle_not_lt in E. contradiction.
Qed.

(** Case analysis on every comparison left in the goal. *)
Ltac split_gt :=
  repeat match goal with
  | |- context [Py.gt ?a ?b] =>
      let H := fresh "Hcmp" in
      destruct (Py.gt a b) eqn:H;
      [ apply gt_true in H | apply gt_false in H ]
  end.

Lemma max_is_Qmax (a b : Q) : Py.max a b == Qmax a b.
Proof.
  unfold Py.max. split_gt.
  - symmetry. apply Q.max_r. apply Qlt_le_weak. assumption.
  - symmetry. apply Q.max_l. assumption.
Qed.

Lemma min_is_Qmin (a b : Q) : Py.min a b == Qmin a b.
Proof.
  unfold Py.min, Py.lt. split_gt.
  - symmetry. apply Q.min_r. apply Qlt_le_weak. assumption.
  - symmetry. apply Q.min_l. assumption.
Qed.

Lemma max_bounds (a b lo hi : Q) :
  lo <= a -> a <= hi -> b <= hi -> lo <= Py.max a b /\ Py.max a b <= hi.
Proof.
  intros Ha1 Ha2 Hb. unfold Py.max. split_gt; split; try assumption.
  apply Qle_trans with a; [ assumption | apply Qlt_le_weak; assumption ].
Qed.

Lemma min_bounds (a b lo hi : Q) :
  lo <= a -> a <= hi -> lo <= b -> lo <= Py.min a b /\ Py.min a b <= hi.
Proof.
  intros Ha1 Ha2 Hb. unfold Py.min, Py.lt. split_gt; split; try assumption.
  apply Qle_trans with a; [ apply Qlt_le_weak; assumption | assumption ].
Qed.

(* ================================================================== *)
(** * Rank velocity                                                    *)
(* ================================================================== *)

Section RankVelocity.

Variable log10 : Q -> Q.

Let bsr := Engine.calculate_bsr_velocity_score log10.

Lemma bsr_insufficient (current : Z) (previous : option Z) (hours : Q) :
  previous = None \/ previous = Some 0%Z \/ (current <= 0)%Z ->
  bsr current previous hours = Py.Return (0, insufficient_data).
Proof.
  unfold bsr, Engine.calculate_bsr_velocity_score.
  intros [-> | [-> | H]]; try reflexivity.
  destruct previous as [p | ]; [ | reflexivity ].
  apply Z.leb_le in H. rewrite H, orb_true_r. reflexivity.
Qed.

Lemma bsr_declining (current p : Z) (hours : Q) :
  p <> 0%Z -> (0 < current)%Z -> (p - current <= 0)%Z ->
  bsr current (Some p) hours
  = Py.Return (Py.max 0 (20 - inject_Z (Z.abs (p - current)) / 1000), declining).
Proof.
  intros Hp Hc Hch. unfold bsr, Engine.calculate_bsr_velocity_score.
  apply Z.eqb_neq in Hp. rewrite Hp.
  assert (Hc' : (current <=? 0)%Z = false) by (apply Z.leb_gt; assumption).
  rewrite Hc'. simpl orb. cbv iota.
  apply Z.leb_le in Hch. rewrite Hch. reflexivity.
Qed.

Lemma bsr_climbing (current p : Z) (hours : Q) :
  p <> 0%Z -> (0 < current)%Z -> (0 < p - current)%Z -> ~ hours == 0 ->
  let v := inject_Z (p - current) / hours in
  bsr current (Some p) hours
  = if Py.gt v 100 then Py.Return (Py.min 100 (70 + log10 v * 10), high)
    else if Py.gt v 10 then Py.Return (Py.min 80 (40 + v * 2), medium)
    else if Py.gt v 1 then Py.Return (Py.min 60 (20 + v * 10), low)
    else Py.Return (Py.max 0 (v * 20), low).
Proof.
  intros Hp Hc Hch Hh v. unfold bsr, Engine.calculate_bsr_velocity_score.
  apply Z.eqb_neq in Hp. rewrite Hp.
  assert (Hc' : (current <=? 0)%Z = false) by (apply Z.leb_gt; assumption).
  rewrite Hc'. simpl orb. cbv iota.
  assert (Hch' : (p - current <=? 0)%Z = false) by (apply Z.leb_gt; assumption).
  rewrite Hch'.
  destruct (Qeq_bool hours 0) eqn:E.
  - apply Qeq_bool_iff in E. contradiction.
  - reflexivity.
Qed.

Lemma bsr_zero_hours (current p : Z) (hours : Q) :
  p <> 0%Z -> (0 < current)%Z -> (0 < p - current)%Z -> hours == 0 ->
  bsr current (Some p) hours = Py.Raise Py.ZeroDivisionError.
Proof.
  intros Hp Hc Hch Hh. unfold bsr, Engine.calculate_bsr_velocity_score.
  apply Z.eqb_neq in Hp. rewrite Hp.
  assert (Hc' : (current <=? 0)%Z = false) by (apply Z.leb_gt; assumption).
  rewrite Hc'. simpl orb. cbv iota.
  assert (Hch' : (p - current <=? 0)%Z = false) by (apply Z.leb_gt; assumption).
  rewrite Hch'.
  apply Qeq_bool_iff in Hh. rewrite Hh. reflexivity.
Qed.

End RankVelocity.

(** C4 (as amended).  The rank-velocity calculator returns
    [(0, insufficient_data)] when the previous rank is absent or zero or the
    current rank is not positive.  Otherwise, with
    [change = previous - current]: for [change <= 0] it returns
    [(max(0, 20 - |change|/1000), declining)]; for [change > 0] and elapsed
    hours other than zero, with [velocity = change / hours], it returns
    [(min(100, 70 + log10(velocity)*10), high)] above 100,
    [(min(80, 40 + velocity*2), medium)] in (10,100],
    [(min(60, 20 + velocity*10), low)] in (1,10] and
    [(max(0, velocity*20), low)] up to 1; for [change > 0] and zero hours the
    division raises.  With previous 1000, current 900 and 24 hours the
    result is [(60, low)]. *)
Theorem rank_velocity_tiers
  (log10 : Q -> Q) (current : Z) (previous : option Z) (hours : Q) :
  let result := Engine.calculate_bsr_velocity_score log10 current previous hours in
  ((previous = None \/ previous = Some 0%Z \/ (current <= 0)%Z) ->
   result = Py.Return (0, insufficient_data))
  /\ (forall p : Z,
        previous = Some p -> p <> 0%Z -> (0 < current)%Z ->
        let change := (p - current)%Z in
        ((change <= 0)%Z ->
         exists s, result = Py.Return (s, declining)
                   /\ s == Qmax 0 (20 - inject_Z (Z.abs change) / 1000))
        /\ ((0 < change)%Z -> hours == 0 ->
            result = Py.Raise Py.ZeroDivisionError)
        /\ ((0 < change)%Z -> ~ hours == 0 ->
            let v := inject_Z change / hours in
            (100 < v ->
             exists s, result = Py.Return (s, high)
                       /\ s == Qmin 100 (70 + log10 v * 10))
            /\ (10 < v /\ v <= 100 ->
                exists s, result = Py.Return (s, medium)
                          /\ s == Qmin 80 (40 + v * 2))
            /\ (1 < v /\ v <= 10 ->
                exists s, result = Py.Return (s, low)
                          /\ s == Qmin 60 (20 + v * 10))
            /\ (v <= 1 ->
                exists s, result = Py.Return (s, low)
                          /\ s == Qmax 0 (v * 20))))
  /\ Engine.calculate_bsr_velocity_score log10 900 (Some 1000%Z) 24
     = Py.Return (60, low).
Proof.
  intro result. split; [ | split ].
  - apply bsr_insufficient.
  - intros p -> Hp Hc change. split; [ | split ].
    + intro Hch. eexists. split.
      * apply bsr_declining; assumption.
      * apply max_is_Qmax.
    + intros Hch Hh. apply bsr_zero_hours; assumption.
    + intros Hch Hh v.
      pose proof (bsr_climbing log10 current p hours Hp Hc Hch Hh) as E.
      cbv zeta in E. fold change in E. fold v in E. fold result in E.
      repeat split.
      * intro H. apply gt_true in H. rewrite H in E.
        eexists. split; [ exact E | apply min_is_Qmin ].
      * intros [H1 H2]. apply gt_false in H2. apply gt_true in H1.
        rewrite H2, H1 in E.
        eexists. split; [ exact E | apply min_is_Qmin ].
      * intros [H1 H2].
        assert (H3 : v <= 100) by (apply Qle_trans with 10; [ assumption | discriminate ]).
        apply gt_false in H2, H3. apply gt_true in H1.
        rewrite H3, H2, H1 in E.
        eexists. split; [ exact E | apply min_is_Qmin ].
      * intro H1.
        assert (H2 : v <= 10) by (apply Qle_trans with 1; [ assumption | discriminate ]).
        assert (H3 : v <= 100) by (apply Qle_trans with 1; [ assumption | discriminate ]).
        apply gt_false in H1, H2, H3.
        rewrite H3, H2, H1 in E.
        eexists. split; [ exact E | apply max_is_Qmax ].
  - reflexivity.
Qed.

(** C4, where the claim as stated fails: a stored previous rank of zero
    counts as absent, so with a positive current rank the result is
    [(0, insufficient_data)] and not the [declining] score the claim gives
    for [change = previous - current <= 0]. *)
Lemma rank_velocity_zero_previous :
  Engine.calculate_bsr_velocity_score floor_log10 5 (Some 0%Z) 24
  = Py.Return (0, insufficient_data)
  /\ (0 - 5 <= 0)%Z
  /\ Engine.calculate_bsr_velocity_score floor_log10 5 (Some 0%Z) 24
     <> Py.Return (Py.max 0 (20 - inject_Z (Z.abs (0 - 5)) / 1000), declining).
Proof.
  split; [ reflexivity | split; [ lia | discriminate ] ].
Qed.

(* ================================================================== *)
(** * Ranges and tags of the four calculators                          *)
(* ================================================================== *)

Lemma digits_above_one_nonneg (fuel : nat) (n : Z) :
  (0 <= digits_above_one fuel n)%Z.
Proof.
  revert n. induction fuel as [ | fuel IH ]; intro n; cbn [digits_above_one].
  - lia.
  - destruct (n <? 10)%Z; [ lia | ]. specialize (IH (n / 10)%Z). lia.
Qed.

Lemma floor_log10_nonneg (v : Q) : 0 <= floor_log10 v.
Proof.
  unfold floor_log10. change 0 with (inject_Z 0). rewrite <- Zle_Qle.
  apply digits_above_one_nonneg.
Qed.

Section CalculatorRanges.

Variable log10 : Q -> Q.

Hypothesis log10_nonneg : forall v : Q, 1 <= v -> 0 <= log10 v.

Lemma bsr_range (current : Z) (previous : option Z) (hours : Q) :
  ~ hours == 0 ->
  exists s c,
    Engine.calculate_bsr_velocity_score log10 current previous hours
    = Py.Return (s, c)
    /\ 0 <= s /\ s <= 100
    /\ In c [insufficient_data; declining; low; medium; high].
Proof.
  intro Hh. unfold Engine.calculate_bsr_velocity_score.
  destruct previous as [p | ].
  2: { exists 0, insufficient_data. simpl. intuition (try discriminate). }
  destruct ((p =? 0)%Z || (current <=? 0)%Z).
  { exists 0, insufficient_data. simpl. intuition (try discriminate). }
  destruct (p - current <=? 0)%Z.
  { eexists; eexists. split; [ reflexivity | ].
    assert (Habs : 0 <= inject_Z (Z.abs (p - current)) / 1000).
    { apply Qle_shift_div_l; [ reflexivity | ].
      rewrite Qmult_0_l. change 0 with (inject_Z 0). rewrite <- Zle_Qle. lia. }
    destruct (max_bounds 0 (20 - inject_Z (Z.abs (p - current)) / 1000) 0 100)
      as [H1 H2]; try discriminate; [ lra | ].
    simpl. intuition. }
  destruct (Qeq_bool hours 0) eqn:E.
  { apply Qeq_bool_iff in E. contradiction. }
  set (v := inject_Z (p - current) / hours).
  split_gt.
  - eexists; eexists. split; [ reflexivity | ].
    assert (Hl : 0 <= log10 v).
    { apply log10_nonneg. apply Qle_trans with 100; [ discriminate | ].
      apply Qlt_le_weak. assumption. }
    destruct (min_bounds 100 (70 + log10 v * 10) 0 100) as [H1 H2];
      try discriminate; [ lra | ].
    simpl. intuition.
  - eexists; eexists. split; [ reflexivity | ].
    destruct (min_bounds 80 (40 + v * 2) 0 100) as [H1 H2];
      try discriminate; [ lra | ].
    simpl. intuition.
  - eexists; eexists. split; [ reflexivity | ].
    destruct (min_bounds 60 (20 + v * 10) 0 100) as [H1 H2];
      try discriminate; [ lra | ].
    simpl. intuition.
  - eexists; eexists. split; [ reflexivity | ].
    destruct (max_bounds 0 (v * 20) 0 100) as [H1 H2];
      try discriminate; [ lra | ].
    simpl. intuition.
Qed.

End CalculatorRanges.

Lemma search_range (kw : string) (now : datetime) (db : Store) :
  let '(s, c) := Engine.calculate_search_acceleration_score kw now db in
  0 <= s /\ s <= 100 /\ In c [insufficient_data; low; medium; high].
Proof.
  unfold Engine.calculate_search_acceleration_score.
  destruct (List.length (Engine.recent_search_rows kw now db) <? 2)%nat.
  { simpl. intuition (try discriminate). }
  set (volumes := map volume_score (rev (Engine.recent_search_rows kw now db))).
  destruct (3 <=? List.length volumes)%nat.
  - set (a := Py.from_end volumes 1 - Py.from_end volumes 2
              - (Py.from_end volumes 2 - Py.from_end volumes 3)).
    split_gt.
    + destruct (min_bounds 100 (60 + a * 2) 0 100) as [H1 H2];
        try discriminate; [ lra | ].
      simpl. intuition.
    + destruct (min_bounds 80 (40 + a * 4) 0 100) as [H1 H2];
        try discriminate; [ lra | ].
      simpl. intuition.
    + destruct (min_bounds 60 (20 + a * 8) 0 100) as [H1 H2];
        try discriminate; [ lra | ].
      simpl. intuition.
    + destruct (max_bounds 0 (30 + a * 5) 0 100) as [H1 H2];
        try discriminate; [ lra | ].
      simpl. intuition.
  - set (v := Py.from_end volumes 1 - Py.at_start volumes).
    assert (Hm : Py.min 70 (v * 2) <= 100).
    { unfold Py.min, Py.lt. split_gt; [ lra | discriminate ]. }
    destruct (max_bounds 0 (Py.min 70 (v * 2)) 0 100) as [H1 H2];
      try discriminate; [ assumption | ].
    simpl. intuition.
Qed.

Lemma social_range (kw : string) (now : datetime) (db : Store) :
  let '(s, c) := Engine.calculate_social_buzz_score kw now db in
  0 <= s /\ s <= 70 /\ In c [no_data; low; medium; high].
Proof.
  unfold Engine.calculate_social_buzz_score.
  destruct (Engine.recent_social_rows kw now db) as [ | d rows ].
  { simpl. intuition (try discriminate). }
  set (total := Py.sum (map volume_score (d :: rows))).
  set (avg := Py.sum (map sentiment_score (d :: rows))
              / inject_Z (Z.of_nat (List.length (d :: rows)))).
  set (mention := Py.min 50 (total * 2)).
  set (boost := Py.max (-20) (Py.min 20 ((avg - (1 # 2)) * 40))).
  assert (Hm : mention <= 50).
  { unfold mention, Py.min, Py.lt. split_gt; [ lra | discriminate ]. }
  assert (Hb : boost <= 20).
  { unfold boost, Py.max, Py.min, Py.lt. split_gt; try lra; discriminate. }
  destruct (max_bounds 0 (mention + boost) 0 70) as [H1 H2];
    try discriminate; [ lra | ].
  split; [ assumption | split; [ assumption | ] ].
  split_gt; simpl; intuition.
Qed.

Lemma competition_range (cat : string) (now : datetime) (db : Store) :
  let '(s, c) := Engine.calculate_competition_score cat now db in
  0 <= s /\ s <= 100 /\ In c [low; medium; high].
Proof.
  unfold Engine.calculate_competition_score.
  set (n := inject_Z (Z.of_nat (Engine.new_products_count cat now db))).
  split_gt.
  - destruct (min_bounds 100 (70 + n * (1 # 2)) 0 100) as [H1 H2];
      try discriminate; [ lra | ].
    simpl. intuition.
  - destruct (min_bounds 80 (40 + n * (3 # 2)) 0 100) as [H1 H2];
      try discriminate; [ lra | ].
    simpl. intuition.
  - destruct (min_bounds 60 (20 + n * 3) 0 100) as [H1 H2];
      try discriminate; [ lra | ].
    simpl. intuition.
  - destruct (max_bounds 0 (n * 10) 0 100) as [H1 H2];
      try discriminate; [ lra | ].
    simpl. intuition.
Qed.

(** C6 (as amended).  With [log10] non-negative from 1 on: for elapsed
    hours other than zero the rank-velocity calculator returns a score in
    [0,100] and a tag among insufficient_data, declining, low, medium, high;
    the search-acceleration calculator a score in [0,100] and a tag among
    insufficient_data, low, medium, high; the social-buzz calculator a score
    in [0,100] and a tag among no_data, low, medium, high; the
    competition-density calculator a score in [0,100] and a tag among low,
    medium, high.  Every tag lies in the claim's set extended by
    [declining]. *)
Theorem calculators_range_and_tags
  (log10 : Q -> Q) (Hlog : forall v : Q, 1 <= v -> 0 <= log10 v) :
  (forall (current : Z) (previous : option Z) (hours : Q),
     ~ hours == 0 ->
     exists s c,
       Engine.calculate_bsr_velocity_score log10 current previous hours
       = Py.Return (s, c)
       /\ 0 <= s /\ s <= 100
       /\ In c [insufficient_data; declining; low; medium; high])
  /\ (forall (kw : string) (now : datetime) (db : Store),
        exists s c,
          Engine.calculate_search_acceleration_score kw now db = (s, c)
          /\ 0 <= s /\ s <= 100
          /\ In c [insufficient_data; low; medium; high])
  /\ (forall (kw : string) (now : datetime) (db : Store),
        exists s c,
          Engine.calculate_social_buzz_score kw now db = (s, c)
          /\ 0 <= s /\ s <= 100
          /\ In c [no_data; low; medium; high])
  /\ (forall (cat : string) (now : datetime) (db : Store),
        exists s c,
          Engine.calculate_competition_score cat now db = (s, c)
          /\ 0 <= s /\ s <= 100
          /\ In c [low; medium; high]).
Proof.
  split; [ | split; [ | split ] ].
  - intros current previous hours Hh. apply bsr_range; assumption.
  - intros kw now db. pose proof (search_range kw now db) as H.
    destruct (Engine.calculate_search_acceleration_score kw now db) as [s c].
    exists s, c. split; [ reflexivity | exact H ].
  - intros kw now db. pose proof (social_range kw now db) as H.
    destruct (Engine.calculate_social_buzz_score kw now db) as [s c].
    exists s, c. split; [ reflexivity | ].
    destruct H as (H0 & H70 & Hc). repeat split; try assumption.
    apply Qle_trans with 70; [ assumption | discriminate ].
  - intros cat now db. pose proof (competition_range cat now db) as H.
    destruct (Engine.calculate_competition_score cat now db) as [s c].
    exists s, c. split; [ reflexivity | exact H ].
Qed.

(** C6, a run of the amended statement: [floor_log10] is non-negative, and
    a climb of 4900 ranks in 24 hours is scored within range. *)
Lemma calculators_range_and_tags_witness :
  (forall v : Q, 1 <= v -> 0 <= floor_log10 v)
  /\ exists s c,
       Engine.calculate_bsr_velocity_score floor_log10 100 (Some 5000%Z) 24
       = Py.Return (s, c)
       /\ 0 <= s /\ s <= 100
       /\ In c [insufficient_data; declining; low; medium; high].
Proof.
  split.
  - intros v _. apply floor_log10_nonneg.
  - apply (calculators_range_and_tags floor_log10
             (fun v _ => floor_log10_nonneg v)).
    discriminate.
Defined.

(** C6, where the claim as stated fails: a rank that worsened from 900 to
    1000 is tagged [declining], which is none of insufficient_data,
    no_data, low, medium, high; and with zero elapsed hours a climbing rank
    gives no result at all. *)
Lemma rank_velocity_declining_tag :
  Engine.calculate_bsr_velocity_score floor_log10 1000 (Some 900%Z) 24
  = Py.Return (Py.max 0 (20 - inject_Z 100 / 1000), declining)
  /\ ~ In declining [insufficient_data; no_data; low; medium; high]
  /\ Engine.calculate_bsr_velocity_score floor_log10 900 (Some 1000%Z) 0
     = Py.Raise Py.ZeroDivisionError.
Proof.
  split; [ reflexivity | split; [ | reflexivity ] ].
  simpl. intuition discriminate.
Qed.

(* ================================================================== *)
(** * The composite score                                              *)
(* ================================================================== *)

Lemma count_tag_count_occ (tag : conf_tag) (l : list conf_tag) :
  Engine.count_tag tag l = count_occ conf_eq_dec l tag.
Proof.
  unfold Engine.count_tag. induction l as [ | c l IH ]; [ reflexivity | ].
  simpl. destruct (conf_eq_dec c tag) as [-> | Hne].
  - replace (conf_eqb tag tag) with true by (destruct tag; reflexivity).
    simpl. rewrite IH. reflexivity.
  - replace (conf_eqb tag c) with false.
    + exact IH.
    + destruct tag, c; try reflexivity; contradiction Hne; reflexivity.
Qed.

Lemma overall_confidence_rule (l : list conf_tag) :
  let n_high := count_occ conf_eq_dec l high in
  let n_med := count_occ conf_eq_dec l medium in
  (Engine.overall_confidence l = high <-> (2 <= n_high)%nat)
  /\ (Engine.overall_confidence l = medium
      <-> (n_high < 2)%nat /\ ((1 <= n_high)%nat \/ (2 <= n_med)%nat))
  /\ (Engine.overall_confidence l = low
      <-> (n_high < 2)%nat /\ ~ ((1 <= n_high)%nat \/ (2 <= n_med)%nat)).
Proof.
  intros n_high n_med. unfold Engine.overall_confidence.
  rewrite !count_tag_count_occ. fold n_high n_med.
  destruct (2 <=? n_high)%nat eqn:E2;
    [ apply Nat.leb_le in E2 | apply Nat.leb_gt in E2 ].
  - intuition (try discriminate; try lia).
  - destruct (1 <=? n_high)%nat eqn:E1;
      [ apply Nat.leb_le in E1 | apply Nat.leb_gt in E1 ];
      destruct (2 <=? n_med)%nat eqn:Em;
      [ apply Nat.leb_le in Em | apply Nat.leb_gt in Em
      | apply Nat.leb_le in Em | apply Nat.leb_gt in Em ];
      simpl orb; cbv iota;
      intuition (try discriminate; try lia).
Qed.

Lemma bsr_returns (log10 : Q -> Q) (current : Z) (previous : option Z) (hours : Q) :
  ~ hours == 0 ->
  exists s c,
    Engine.calculate_bsr_velocity_score log10 current previous hours
    = Py.Return (s, c).
Proof.
  intro Hh. unfold Engine.calculate_bsr_velocity_score.
  destruct previous as [p | ]; [ | eexists; eexists; reflexivity ].
  destruct ((p =? 0)%Z || (current <=? 0)%Z); [ eexists; eexists; reflexivity | ].
  destruct (p - current <=? 0)%Z; [ eexists; eexists; reflexivity | ].
  destruct (Qeq_bool hours 0) eqn:E.
  { apply Qeq_bool_iff in E. contradiction. }
  split_gt; eexists; eexists; reflexivity.
Qed.

Lemma clamp_is_Qmin_Qmax (x y : Q) :
  x == y -> Py.min 100 (Py.max 0 x) == Qmin 100 (Qmax 0 y).
Proof.
  intro E. rewrite min_is_Qmin.
  destruct (Q.max_spec 0 y) as [[H1 H2] | [H1 H2]];
    destruct (Q.max_spec 0 x) as [[H3 H4] | [H3 H4]];
    pose proof (max_is_Qmax 0 x) as H5;
    destruct (Q.min_spec 100 (Py.max 0 x)) as [[H6 H7] | [H6 H7]];
    destruct (Q.min_spec 100 (Qmax 0 y)) as [[H8 H9] | [H8 H9]];
    lra.
Qed.

Lemma bsr_block_spec (log10 : Q -> Q) (p : Product) :
  exists s c,
    Engine.bsr_block log10 p = Py.Return (s, c)
    /\ (Py.truthy_int (bsr_current p) && Py.truthy_int (bsr_previous p) = false ->
        s = 0 /\ c = [])
    /\ (forall cur : Z,
          bsr_current p = Some cur ->
          Py.truthy_int (bsr_current p) && Py.truthy_int (bsr_previous p) = true ->
          exists t,
            Engine.calculate_bsr_velocity_score log10 cur (bsr_previous p) 24
            = Py.Return (s, t)
            /\ c = [t]).
Proof.
  unfold Engine.bsr_block.
  destruct (bsr_current p) as [cur | ] eqn:Ecur; simpl Py.truthy_int.
  - destruct (negb (cur =? 0)%Z && Py.truthy_int (bsr_previous p)) eqn:Eg.
    + destruct (bsr_returns log10 cur (bsr_previous p) 24) as (s & t & E);
        [ discriminate | ].
      rewrite E. simpl. exists s, [t]. split; [ reflexivity | ].
      split; [ discriminate | ].
      intros cur' Hc _. injection Hc as <-. exists t. split; [ exact E | reflexivity ].
    + exists 0, []. split; [ reflexivity | ].
      split; [ intros _; split; reflexivity | discriminate ].
  - exists 0, []. split; [ reflexivity | ].
    split; [ intros _; split; reflexivity | discriminate ].
Qed.

Lemma title_blocks_spec (now : datetime) (db : Store) (p : Product) :
  exists s1 c1 s2 c2,
    Engine.search_block now db p = (s1, c1)
    /\ Engine.social_block now db p = (s2, c2)
    /\ (Py.truthy_str (title p) = false ->
        s1 = 0 /\ c1 = [] /\ s2 = 0 /\ c2 = [])
    /\ (forall t : string,
          title p = Some t -> Py.truthy_str (title p) = true ->
          exists t1 t2,
            Engine.calculate_search_acceleration_score
              (Engine.keyword_of_title t) now db = (s1, t1)
            /\ c1 = [t1]
            /\ Engine.calculate_social_buzz_score
                 (Engine.keyword_of_title t) now db = (s2, t2)
            /\ c2 = [t2]).
Proof.
  unfold Engine.search_block, Engine.social_block.
  destruct (title p) as [t | ]; simpl Py.truthy_str.
  - destruct (negb (String.eqb t EmptyString)).
    + destruct (Engine.calculate_search_acceleration_score
                  (Engine.keyword_of_title t) now db) as [s1 t1] eqn:E1.
      destruct (Engine.calculate_social_buzz_score
                  (Engine.keyword_of_title t) now db) as [s2 t2] eqn:E2.
      exists s1, [t1], s2, [t2]. repeat split; try discriminate.
      intros t' Ht _. injection Ht as <-. exists t1, t2.
      rewrite E1, E2. repeat split.
    + exists 0, [], 0, []. repeat split; discriminate.
  - exists 0, [], 0, []. repeat split; discriminate.
Qed.

Lemma competition_block_spec (now : datetime) (db : Store) (p : Product) :
  exists s c,
    Engine.competition_block now db p = (s, c)
    /\ (Py.truthy_str (category p) = false -> s = 0 /\ c = [])
    /\ (forall cat : string,
          category p = Some cat -> Py.truthy_str (category p) = true ->
          exists t,
            Engine.calculate_competition_score cat now db = (s, t) /\ c = [t]).
Proof.
  unfold Engine.competition_block.
  destruct (category p) as [cat | ]; simpl Py.truthy_str.
  - destruct (negb (String.eqb cat EmptyString)).
    + destruct (Engine.calculate_competition_score cat now db) as [s t] eqn:E.
      exists s, [t]. repeat split; try discriminate.
      intros cat' Hc _. injection Hc as <-. exists t. rewrite E. split; reflexivity.
    + exists 0, []. repeat split; discriminate.
  - exists 0, []. repeat split; discriminate.
Qed.

Lemma composite_unfolded
  (log10 : Q -> Q) (now : datetime) (db : Store) (p : Product)
  (s1 s2 s3 s4 : Q) (c1 c2 c3 c4 : list conf_tag) :
  Engine.bsr_block log10 p = Py.Return (s1, c1) ->
  Engine.search_block now db p = (s2, c2) ->
  Engine.social_block now db p = (s3, c3) ->
  Engine.competition_block now db p = (s4, c4) ->
  Engine.calculate_composite_momentum_score log10 now db p
  = Py.Return
      (Py.min 100
         (Py.max 0
            (Py.sum [ s1 * (35 # 100); s2 * (25 # 100);
                      s3 * (20 # 100); s4 * (20 # 100) ])),
       Engine.overall_confidence (c1 ++ c2 ++ c3 ++ c4)).
Proof.
  intros E1 E2 E3 E4. unfold Engine.calculate_composite_momentum_score.
  rewrite E1. simpl Py.bind. rewrite E2, E3, E4. reflexivity.
Qed.

Lemma clamp_range (x : Q) :
  0 <= Py.min 100 (Py.max 0 x) /\ Py.min 100 (Py.max 0 x) <= 100.
Proof.
  apply min_bounds; try discriminate.
  unfold Py.max. split_gt; [ apply Qlt_le_weak; assumption | discriminate ].
Qed.

Lemma overall_confidence_tiers (l : list conf_tag) :
  In (Engine.overall_confidence l) [low; medium; high].
Proof.
  unfold Engine.overall_confidence.
  destruct (2 <=? Engine.count_tag high l)%nat; [ simpl; tauto | ].
  destruct ((1 <=? Engine.count_tag high l)%nat
            || (2 <=? Engine.count_tag medium l)%nat); simpl; tauto.
Qed.

(** C1.  For every product the composite score is returned, and it is
    [clamp(0, 100, 0.35*rank + 0.25*search + 0.20*social + 0.20*competition)],
    where each sub-score is the calculator's result when its inputs are
    there and 0, with the weights unchanged and no tag collected, when they
    are missing (a missing or zero rank; a missing or empty title, for both
    the search and the social score; a missing or empty category).  The
    score lies in [0,100].  The confidence is high exactly when at least two
    collected tags are high, else medium exactly when at least one is high
    or at least two are medium, else low; so it is one of low, medium,
    high. *)
Theorem composite_momentum_score_spec
  (log10 : Q -> Q) (now : datetime) (db : Store) (p : Product) :
  exists (s_rank s_search s_social s_comp : Q)
         (c_rank c_search c_social c_comp : list conf_tag)
         (score : Q) (conf : conf_tag),
    Engine.calculate_composite_momentum_score log10 now db p
    = Py.Return (score, conf)
    /\ score == Qmin 100
                  (Qmax 0
                     ((35 # 100) * s_rank + (25 # 100) * s_search
                      + (20 # 100) * s_social + (20 # 100) * s_comp))
    /\ 0 <= score /\ score <= 100
    /\ (Py.truthy_int (bsr_current p) && Py.truthy_int (bsr_previous p) = false ->
        s_rank = 0 /\ c_rank = [])
    /\ (forall cur : Z,
          bsr_current p = Some cur ->
          Py.truthy_int (bsr_current p) && Py.truthy_int (bsr_previous p) = true ->
          exists t,
            Engine.calculate_bsr_velocity_score log10 cur (bsr_previous p) 24
            = Py.Return (s_rank, t)
            /\ c_rank = [t])
    /\ (Py.truthy_str (title p) = false ->
        s_search = 0 /\ c_search = [] /\ s_social = 0 /\ c_social = [])
    /\ (forall t : string,
          title p = Some t -> Py.truthy_str (title p) = true ->
          exists t1 t2,
            Engine.calculate_search_acceleration_score
              (Engine.keyword_of_title t) now db = (s_search, t1)
            /\ c_search = [t1]
            /\ Engine.calculate_social_buzz_score
                 (Engine.keyword_of_title t) now db = (s_social, t2)
            /\ c_social = [t2])
    /\ (Py.truthy_str (category p) = false -> s_comp = 0 /\ c_comp = [])
    /\ (forall cat : string,
          category p = Some cat -> Py.truthy_str (category p) = true ->
          exists t,
            Engine.calculate_competition_score cat now db = (s_comp, t)
            /\ c_comp = [t])
    /\ (let collected := c_rank ++ c_search ++ c_social ++ c_comp in
        let n_high := count_occ conf_eq_dec collected high in
        let n_med := count_occ conf_eq_dec collected medium in
        (conf = high <-> (2 <= n_high)%nat)
        /\ (conf = medium
            <-> (n_high < 2)%nat /\ ((1 <= n_high)%nat \/ (2 <= n_med)%nat))
        /\ (conf = low
            <-> (n_high < 2)%nat /\ ~ ((1 <= n_high)%nat \/ (2 <= n_med)%nat)))
    /\ In conf [low; medium; high].
Proof.
  destruct (bsr_block_spec log10 p) as (s1 & c1 & E1 & M1 & A1).
  destruct (title_blocks_spec now db p) as (s2 & c2 & s3 & c3 & E2 & E3 & M2 & A2).
  destruct (competition_block_spec now db p) as (s4 & c4 & E4 & M4 & A4).
  exists s1, s2, s3, s4, c1, c2, c3, c4.
  eexists. eexists.
  split; [ apply (composite_unfolded log10 now db p _ _ _ _ _ _ _ _ E1 E2 E3 E4) | ].
  split.
  { apply clamp_is_Qmin_Qmax. unfold Py.sum. simpl fold_left. ring. }
  split; [ apply clamp_range | ].
  split; [ apply clamp_range | ].
  repeat (split; [ assumption | ]).
  split; [ apply overall_confidence_rule | apply overall_confidence_tiers ].
Qed.

(** The weights sum to one. *)
Example weights_sum_to_one : Py.sum (map snd Engine.weights) == 1.
Proof. reflexivity. Qed.

(** The worked example of the specification: sub-scores 60, 0, 0 and 80
    weigh to 37. *)
Example composite_example :
  (terms <- Engine.weighted_terms
              [ ("bsr_velocity"%string, 60); ("search_acceleration"%string, 0);
                ("social_buzz"%string, 0); ("competition_density"%string, 80) ] ;;
   Py.Return (Qred (Py.min 100 (Py.max 0 (Py.sum terms)))))
  = Py.Return 37.
Proof. reflexivity. Qed.

(* ================================================================== *)
(** * Score updates and their commit                                   *)
(* ================================================================== *)

Lemma composite_returns (log10 : Q -> Q) (now : datetime) (db : Store) (p : Product) :
  exists score conf,
    Engine.calculate_composite_momentum_score log10 now db p
    = Py.Return (score, conf).
Proof.
  destruct (bsr_block_spec log10 p) as (s1 & c1 & E1 & _).
  destruct (Engine.search_block now db p) as [s2 c2] eqn:E2.
  destruct (Engine.social_block now db p) as [s3 c3] eqn:E3.
  destruct (Engine.competition_block now db p) as [s4 c4] eqn:E4.
  eexists. eexists.
  apply (composite_unfolded log10 now db p _ _ _ _ _ _ _ _ E1 E2 E3 E4).
Qed.

Lemma with_momentum_consistent (p : Product) (score : Q) (conf : conf_tag) (now : datetime) :
  trend_consistent (Engine.with_momentum p score conf now).
Proof.
  exists score. split; [ reflexivity | ]. simpl. apply gt_true.
Qed.

Lemma set_nth_app {A : Type} (pre : list A) (x y : A) (rest : list A) :
  set_nth (List.length pre) x (pre ++ y :: rest) = pre ++ x :: rest.
Proof.
  induction pre as [ | z pre IH ]; simpl; [ reflexivity | ].
  rewrite IH. reflexivity.
Qed.

Lemma find_index_spec {A : Type} (f : A -> bool) (l : list A) :
  match Engine.find_index f l with
  | Some k =>
      exists pre x rest,
        l = pre ++ x :: rest /\ List.length pre = k /\ f x = true
        /\ forallb (fun y => negb (f y)) pre = true
  | None => forallb (fun y => negb (f y)) l = true
  end.
Proof.
  induction l as [ | y l IH ]; simpl; [ reflexivity | ].
  destruct (f y) eqn:E.
  - exists [], y, l. repeat split. exact E.
  - destruct (Engine.find_index f l) as [k | ].
    + destruct IH as (pre & x & rest & -> & Hlen & Hx & Hpre).
      exists (y :: pre), x, rest. simpl. rewrite E, Hlen, Hx, Hpre.
      repeat split.
    + simpl. exact IH.
Qed.

Lemma rescored_consistent
  (log10 : Q -> Q) (clock : nat -> datetime) (db : Store)
  (olds : list Product) :
  forall (k : nat) (news : list Product),
    rescored_from log10 clock db k olds news ->
    Forall trend_consistent news /\ List.length news = List.length olds.
Proof.
  induction olds as [ | old olds IH ]; intros k [ | new news ] H;
    simpl in H; try contradiction.
  - split; [ constructor | reflexivity ].
  - destruct H as [(score & conf & _ & ->) Hrest].
    destruct (IH _ _ Hrest) as [Hall Hlen].
    split; [ constructor; [ apply with_momentum_consistent | assumption ]
           | simpl; congruence ].
Qed.

Section BatchLoop.

Variable log10 : Q -> Q.

Variable clock : nat -> datetime.

Variable store_up : nat -> bool.

Lemma batch_loop_durable (todo : list Product) :
  forall (k : nat) (updated : list Product) (s : Session),
    durable (snd (Engine.batch_loop log10 clock store_up k todo updated s))
    = durable s.
Proof.
  induction todo as [ | p todo IH ]; intros k updated s; simpl; [ reflexivity | ].
  destruct (store_up k); [ | reflexivity ].
  destruct (Engine.calculate_composite_momentum_score log10 (clock k) (durable s) p)
    as [[score conf] | e]; [ | reflexivity ].
  rewrite IH. reflexivity.
Qed.

Lemma batch_loop_complete (todo : list Product) :
  forall (pre updated : list Product) (s : Session),
    products (working s) = pre ++ todo ->
    (forall j, (List.length pre <= j < List.length pre + List.length todo)%nat ->
               store_up j = true) ->
    exists news s',
      Engine.batch_loop log10 clock store_up (List.length pre) todo updated s
      = (Py.Return (updated ++ news), s')
      /\ products (working s') = pre ++ news
      /\ trends (working s') = trends (working s)
      /\ alerts (working s') = alerts (working s)
      /\ rescored_from log10 clock (durable s) (List.length pre) todo news.
Proof.
  induction todo as [ | p todo IH ]; intros pre updated s Hw Hup.
  - exists [], s. simpl. rewrite app_nil_r. rewrite app_nil_r in Hw.
    repeat split; try assumption. rewrite app_nil_r. assumption.
  - cbn [Engine.batch_loop].
    rewrite Hup by (simpl; lia).
    destruct (composite_returns log10 (clock (List.length pre)) (durable s) p)
      as (score & conf & E).
    rewrite E.
    set (p' := Engine.with_momentum p score conf (clock (List.length pre))).
    set (s1 := mkSession (durable s)
                 (Engine.set_products (working s)
                    (set_nth (List.length pre) p' (products (working s))))).
    assert (Hw1 : products (working s1) = (pre ++ [p']) ++ todo).
    { unfold s1. simpl. rewrite Hw, set_nth_app, <- app_assoc. reflexivity. }
    assert (Hlen : List.length (pre ++ [p']) = S (List.length pre)).
    { rewrite length_app. simpl. lia. }
    destruct (IH (pre ++ [p']) (updated ++ [p']) s1 Hw1) as (news & s' & El & Hp & Ht & Ha & Hr).
    { intros j Hj. apply Hup. rewrite Hlen in Hj. simpl. lia. }
    rewrite Hlen in El, Hr.
    exists (p' :: news), s'. rewrite El.
    split; [ rewrite <- app_assoc; reflexivity | ].
    split; [ rewrite Hp, <- app_assoc; reflexivity | ].
    split; [ rewrite Ht; reflexivity | ].
    split; [ rewrite Ha; reflexivity | ].
    simpl. split; [ exists score, conf; split; [ exact E | reflexivity ] | exact Hr ].
Qed.

Lemma batch_loop_fault (todo : list Product) :
  forall (k : nat) (updated : list Product) (s : Session),
    (exists j, (k <= j < k + List.length todo)%nat /\ store_up j = false) ->
    exists e,
      fst (Engine.batch_loop log10 clock store_up k todo updated s) = Py.Raise e.
Proof.
  induction todo as [ | p todo IH ]; intros k updated s (j & Hj & Hdown).
  - simpl in Hj. lia.
  - cbn [Engine.batch_loop].
    destruct (store_up k) eqn:Ek.
    + destruct (Engine.calculate_composite_momentum_score log10 (clock k) (durable s) p)
        as [[score conf] | e].
      * apply IH. exists j. split; [ | assumption ].
        assert (j <> k) by (intros ->; congruence). simpl in Hj. lia.
      * exists e. reflexivity.
    + exists Py.OperationalError. reflexivity.
Qed.

End BatchLoop.

Lemma store_up_prefix (store_up : nat -> bool) (n : nat) :
  (exists k, (k < n)%nat /\ store_up k = false)
  \/ (forall k, (k < n)%nat -> store_up k = true).
Proof.
  induction n as [ | n [ (k & Hk & Hd) | Hall ] ].
  - right. intros k Hk. lia.
  - left. exists k. split; [ lia | assumption ].
  - destruct (store_up n) eqn:E.
    + right. intros k Hk. destruct (Nat.eq_dec k n) as [-> | Hne];
        [ assumption | apply Hall; lia ].
    + left. exists n. split; [ lia | assumption ].
Qed.

Lemma batch_update_outcome
  (log10 : Q -> Q) (clock : nat -> datetime) (store_up : nat -> bool) (db : Store) :
  ((exists k, (k < List.length (products db))%nat /\ store_up k = false)
   /\ (exists e,
         fst (Engine.batch_update_momentum_scores log10 clock store_up (open_session db))
         = Py.Raise e)
   /\ durable (snd (Engine.batch_update_momentum_scores log10 clock store_up
                      (open_session db))) = db)
  \/ ((forall k, (k < List.length (products db))%nat -> store_up k = true)
      /\ exists updated,
           fst (Engine.batch_update_momentum_scores log10 clock store_up (open_session db))
           = Py.Return updated
           /\ durable (snd (Engine.batch_update_momentum_scores log10 clock store_up
                              (open_session db)))
              = mkStore updated (trends db) (alerts db)
           /\ rescored_from log10 clock db 0 (products db) updated).
Proof.
  unfold Engine.batch_update_momentum_scores.
  destruct (store_up_prefix store_up (List.length (products db))) as [Hdown | Hup].
  - left. split; [ assumption | ].
    destruct Hdown as (k & Hk & Hd).
    destruct (batch_loop_fault log10 clock store_up (products db) 0 [] (open_session db))
      as (e & He).
    { exists k. split; [ simpl; lia | assumption ]. }
    pose proof (batch_loop_durable log10 clock store_up (products db) 0 []
                  (open_session db)) as Hdur.
    simpl working.
    destruct (Engine.batch_loop log10 clock store_up 0 (products db) [] (open_session db))
      as [r s'].
    simpl in He, Hdur. subst r. simpl.
    split; [ exists e; reflexivity | exact Hdur ].
  - right. split; [ assumption | ].
    destruct (batch_loop_complete log10 clock store_up (products db) [] []
                (open_session db)) as (news & s' & El & Hp & Ht & Ha & Hr).
    { reflexivity. }
    { intros j Hj. apply Hup. simpl in Hj. lia. }
    simpl in El, Hp, Ht, Ha, Hr. simpl working. rewrite El.
    exists news. simpl.
    split; [ reflexivity | ].
    split; [ | exact Hr ].
    destruct (working s') as [ps ts als]. simpl in *. congruence.
Qed.

Lemma update_product_outcome
  (log10 : Q -> Q) (product_id : Z) (now : datetime) (db : Store) :
  ((forall p, In p (products db) -> id p <> product_id)
   /\ Engine.update_product_momentum log10 product_id now (open_session db)
      = (Py.Return None, open_session db))
  \/ (exists pre p rest score conf,
        products db = pre ++ p :: rest
        /\ id p = product_id
        /\ (forall q, In q pre -> id q <> product_id)
        /\ Engine.calculate_composite_momentum_score log10 now db p
           = Py.Return (score, conf)
        /\ let p' := Engine.with_momentum p score conf now in
           let db' := mkStore (pre ++ p' :: rest) (trends db) (alerts db) in
           Engine.update_product_momentum log10 product_id now (open_session db)
           = (Py.Return (Some p'), mkSession db' db')).
Proof.
  unfold Engine.update_product_momentum. simpl working. simpl durable.
  pose proof (find_index_spec (fun p => (id p =? product_id)%Z) (products db)) as H.
  destruct (Engine.find_index (fun p => (id p =? product_id)%Z) (products db)) as [k | ].
  - right. destruct H as (pre & p & rest & Hl & Hlen & Hp & Hpre).
    destruct (composite_returns log10 now db p) as (score & conf & E).
    exists pre, p, rest, score, conf.
    split; [ exact Hl | ].
    split; [ apply Z.eqb_eq; exact Hp | ].
    split.
    { intros q Hq. rewrite forallb_forall in Hpre. specialize (Hpre q Hq).
      apply negb_true_iff in Hpre. apply Z.eqb_neq. exact Hpre. }
    split; [ exact E | ].
    cbv zeta. rewrite Hl.
    assert (Hn : nth_error (pre ++ p :: rest) k = Some p).
    { rewrite <- Hlen. rewrite nth_error_app2 by lia.
      rewrite Nat.sub_diag. reflexivity. }
    rewrite Hn. rewrite <- Hl, E, Hl. rewrite <- Hlen, set_nth_app.
    reflexivity.
  - left. split; [ | reflexivity ].
    intros p Hp. rewrite forallb_forall in H. specialize (H p Hp).
    apply negb_true_iff in H. apply Z.eqb_neq. exact H.
Qed.

(** C2.  The single-item update returns the row with the new score, and in
    what it commits that row satisfies [is_trending == (momentum_score > 60)],
    the other rows being as before (or, when no row has the id, nothing is
    changed).  The batch update that returns commits exactly the rows it
    returns, each the old row rescored, and each satisfies
    [is_trending == (momentum_score > 60)]; a batch update that raises
    commits nothing.  So no committed update leaves the flag stale. *)
Theorem trending_flag_committed_with_score (log10 : Q -> Q) (db : Store) :
  (forall (product_id : Z) (now : datetime),
     let run := Engine.update_product_momentum log10 product_id now (open_session db) in
     match fst run with
     | Py.Return (Some p') =>
         trend_consistent p'
         /\ id p' = product_id
         /\ exists pre p rest,
              products db = pre ++ p :: rest
              /\ durable (snd run)
                 = mkStore (pre ++ p' :: rest) (trends db) (alerts db)
     | Py.Return None =>
         (forall p, In p (products db) -> id p <> product_id)
         /\ durable (snd run) = db
     | Py.Raise _ => False
     end)
  /\ (forall (clock : nat -> datetime) (store_up : nat -> bool),
        let run :=
          Engine.batch_update_momentum_scores log10 clock store_up (open_session db) in
        match fst run with
        | Py.Return updated =>
            Forall trend_consistent updated
            /\ List.length updated = List.length (products db)
            /\ durable (snd run) = mkStore updated (trends db) (alerts db)
        | Py.Raise _ => durable (snd run) = db
        end).
Proof.
  split.
  - intros product_id now run.
    destruct (update_product_outcome log10 product_id now db)
      as [[Hno E] | (pre & p & rest & score & conf & Hl & Hid & _ & _ & E)].
    + unfold run. rewrite E. simpl. split; [ exact Hno | reflexivity ].
    + cbv zeta in E. unfold run. rewrite E. simpl.
      split; [ apply with_momentum_consistent | ].
      split; [ exact Hid | ].
      exists pre, p, rest. split; [ exact Hl | reflexivity ].
  - intros clock store_up run.
    destruct (batch_update_outcome log10 clock store_up db)
      as [(_ & (e & He) & Hd) | (_ & updated & Hr & Hd & Hres)];
      fold run in He || fold run in Hr; fold run in Hd.
    + rewrite He. exact Hd.
    + rewrite Hr.
      destruct (rescored_consistent log10 clock db (products db) 0 updated Hres)
        as [Hall Hlen].
      repeat split; assumption.
Qed.

(** C9 (as amended).  A scoring run commits once, after its last item.  If
    the store becomes unavailable while some item of the run is being
    scored, the run raises and the database is exactly as before the run:
    the updates of the items processed earlier in the run are lost together
    with the one in progress.  If the store answers for every item, the run
    returns and all rescored rows are committed together. *)
Theorem scoring_run_commits_all_or_nothing
  (log10 : Q -> Q) (clock : nat -> datetime) (store_up : nat -> bool) (db : Store) :
  ((exists k, (k < List.length (products db))%nat /\ store_up k = false)
   /\ (exists e,
         fst (Engine.batch_update_momentum_scores log10 clock store_up (open_session db))
         = Py.Raise e)
   /\ Engine.scoring_run log10 clock store_up db = db)
  \/ ((forall k, (k < List.length (products db))%nat -> store_up k = true)
      /\ exists updated,
           fst (Engine.batch_update_momentum_scores log10 clock store_up (open_session db))
           = Py.Return updated
           /\ Engine.scoring_run log10 clock store_up db
              = mkStore updated (trends db) (alerts db)
           /\ rescored_from log10 clock db 0 (products db) updated).
Proof.
  unfold Engine.scoring_run, close.
  apply batch_update_outcome.
Qed.

(** C9, where the claim as stated fails: the run is aborted while the second
    of two rows is in progress, the first row has been scored (alone, or in
    a run that is not aborted, it gets the score 25), and yet after the run
    the database holds both rows unscored, as before. *)
Lemma aborted_run_loses_earlier_update :
  down_from_row_1 0 = true
  /\ down_from_row_1 1 = false
  /\ Engine.scoring_run floor_log10 (fun _ => noon_day_100) down_from_row_1
       two_products
     = two_products
  /\ map momentum_score (products two_products) = [None; None]
  /\ map (fun p => option_map Qred (momentum_score p))
       (products
          (Engine.scoring_run floor_log10 (fun _ => noon_day_100) (fun _ => true)
             two_products))
     = [Some 25; Some (4393 # 400)].
Proof.
  repeat split; vm_compute; reflexivity.
Qed.

(* ================================================================== *)
(** * The alert gate                                                   *)
(* ================================================================== *)

Lemma is_recent_alert_true (a : string) (now : datetime) (r : Alert) :
  Alerter.is_recent_alert a now r = true
  <-> product_asin r = a /\ (now - timedelta_hours 6 < sent_at r)%Z.
Proof.
  unfold Alerter.is_recent_alert, Alerter.dedup_window.
  rewrite andb_true_iff, String.eqb_eq, Z.ltb_lt. reflexivity.
Qed.

Lemma find_recent_some (db : Store) (a : string) (now : datetime) :
  recently_alerted db a now ->
  exists r, find (Alerter.is_recent_alert a now) (alerts db) = Some r.
Proof.
  intros (r & Hin & Ha & Ht).
  destruct (find (Alerter.is_recent_alert a now) (alerts db)) as [r' | ] eqn:E.
  - exists r'. reflexivity.
  - pose proof (find_none _ _ E r Hin) as Hf.
    assert (Ht' : Alerter.is_recent_alert a now r = true)
      by (apply is_recent_alert_true; split; assumption).
    congruence.
Qed.

Lemma find_recent_none (db : Store) (a : string) (now : datetime) :
  quiet db a now ->
  find (Alerter.is_recent_alert a now) (alerts db) = None.
Proof.
  intro Hq.
  destruct (find (Alerter.is_recent_alert a now) (alerts db)) as [r | ] eqn:E;
    [ | reflexivity ].
  apply find_some in E. destruct E as [Hin Hr].
  apply is_recent_alert_true in Hr. destruct Hr as [Ha Ht].
  exfalso. apply Hq. exists r. repeat split; assumption.
Qed.

Lemma send_when_recent
  (self : Alerter.TelegramAlerter) (env : Alerter.Env) (p : Product) (s : Session) :
  recently_alerted (durable s) (asin p) (Alerter.utcnow env) ->
  Alerter.send_momentum_alert self env p s = (Py.Return false, s).
Proof.
  intro H. unfold Alerter.send_momentum_alert.
  destruct (find_recent_some _ _ _ H) as (r & ->). reflexivity.
Qed.

Lemma send_when_quiet
  (self : Alerter.TelegramAlerter) (env : Alerter.Env) (p : Product) (s : Session) :
  quiet (durable s) (asin p) (Alerter.utcnow env) ->
  Alerter.send_momentum_alert self env p s
  = match Alerter.format_momentum_alert (Alerter.wall env) p with
    | Py.Raise e => (Py.Raise e, s)
    | Py.Return msg =>
        let sent := Alerter.send_telegram_message self (Alerter.wire env) msg in
        (Py.Return sent,
         commit
           (Alerter.add_alert s
              (mkAlert (asin p) "momentum_spike" msg (momentum_score p)
                 (confidence_level p) (Alerter.insert_utcnow env) sent)))
    end.
Proof.
  intro H. unfold Alerter.send_momentum_alert.
  rewrite (find_recent_none _ _ _ H). reflexivity.
Qed.

Lemma commit_add_alert (db : Store) (a : Alert) :
  commit (Alerter.add_alert (open_session db) a)
  = open_session (with_alert db a).
Proof. reflexivity. Qed.

Lemma recently_alerted_after (db : Store) (a : Alert) (now : datetime) :
  (now - timedelta_hours 6 < sent_at a)%Z ->
  recently_alerted (with_alert db a) (product_asin a) now.
Proof.
  intro H. exists a. split; [ | split; [ reflexivity | assumption ] ].
  simpl. apply in_or_app. right. left. reflexivity.
Qed.

Lemma transport_broken_false
  (self : Alerter.TelegramAlerter) (env : Alerter.Env) (msg : string) :
  transport_broken self env ->
  Alerter.send_telegram_message self (Alerter.wire env) msg = false.
Proof.
  unfold transport_broken, Alerter.send_telegram_message.
  intros [H | [H | [H | H]]]; rewrite H.
  - reflexivity.
  - rewrite orb_true_r. reflexivity.
  - destruct (negb (Alerter.bot self) || negb (Py.truthy_str (Alerter.chat_id self)));
      reflexivity.
  - destruct (negb (Alerter.bot self) || negb (Py.truthy_str (Alerter.chat_id self)));
      reflexivity.
Qed.

(** C10.  If some alert row for the product's item has [sent_at] within the
    six hours before the check, [send_momentum_alert] returns [False] and
    leaves the session as it was: no row is written.  The row [r] is
    arbitrary, its [telegram_sent] flag is not read; in particular a row of
    a failed delivery blocks the re-alert just the same. *)
Theorem dedup_ignores_delivery_flag
  (self : Alerter.TelegramAlerter) (env : Alerter.Env) (p : Product)
  (s : Session) (r : Alert) :
  In r (alerts (durable s)) ->
  product_asin r = asin p ->
  (Alerter.utcnow env - timedelta_hours 6 < sent_at r)%Z ->
  Alerter.send_momentum_alert self env p s = (Py.Return false, s)
  /\ alerts (durable (snd (Alerter.send_momentum_alert self env p s)))
     = alerts (durable s).
Proof.
  intros Hin Ha Ht.
  assert (E : Alerter.send_momentum_alert self env p s = (Py.Return false, s)).
  { apply send_when_recent. exists r. repeat split; assumption. }
  split; [ exact E | rewrite E; reflexivity ].
Qed.

(** C5.  When the delivery of the alert of a product whose item is quiet
    fails, [send_momentum_alert] returns [False] without raising and commits
    one new alert row that carries the product's momentum score and
    confidence and [telegram_sent = False]; the item is then recently
    alerted, and any check whose clock is less than six hours after the
    row's [sent_at] returns without writing a row.  The delivery fails, in
    particular, whenever the message was rendered and the transport is out
    of order. *)
Theorem failed_delivery_is_recorded
  (self : Alerter.TelegramAlerter) (env : Alerter.Env) (p : Product)
  (db : Store) (msg : string) :
  quiet db (asin p) (Alerter.utcnow env) ->
  delivery_fails self env p msg ->
  let record :=
    mkAlert (asin p) "momentum_spike" msg (momentum_score p)
      (confidence_level p) (Alerter.insert_utcnow env) false in
  Alerter.send_momentum_alert self env p (open_session db)
  = (Py.Return false, open_session (with_alert db record))
  /\ (forall (self' : Alerter.TelegramAlerter) (env' : Alerter.Env),
        (Alerter.utcnow env' < Alerter.insert_utcnow env + timedelta_hours 6)%Z ->
        recently_alerted (with_alert db record) (asin p) (Alerter.utcnow env')
        /\ Alerter.send_momentum_alert self' env' p
             (open_session (with_alert db record))
           = (Py.Return false, open_session (with_alert db record)))
  /\ (forall m : string,
        Alerter.format_momentum_alert (Alerter.wall env) p = Py.Return m ->
        transport_broken self env -> delivery_fails self env p m).
Proof.
  intros Hq [Hmsg Hfail] record. split; [ | split ].
  - rewrite send_when_quiet by exact Hq. rewrite Hmsg. cbv zeta.
    rewrite Hfail. rewrite commit_add_alert. reflexivity.
  - intros self' env' Ht.
    assert (Hr : recently_alerted (with_alert db record) (asin p) (Alerter.utcnow env')).
    { apply (recently_alerted_after db record). unfold record. cbn [sent_at]. lia. }
    split; [ exact Hr | ].
    apply (send_when_recent self' env' p (open_session (with_alert db record)) Hr).
  - intros m Hm Hbroken. split; [ exact Hm | ].
    apply transport_broken_false. exact Hbroken.
Qed.

(** C10, a run: one hour after an alert whose delivery failed, the check for
    the same item writes nothing. *)
Lemma dedup_ignores_delivery_flag_witness :
  telegram_sent failed_alert = false
  /\ Alerter.send_momentum_alert configured_alerter
       (env_at (noon_day_100 + timedelta_hours 1) Alerter.Sent)
       trending_purifier (open_session alerted_store)
     = (Py.Return false, open_session alerted_store)
  /\ alerts
       (durable
          (snd
             (Alerter.send_momentum_alert configured_alerter
                (env_at (noon_day_100 + timedelta_hours 1) Alerter.Sent)
                trending_purifier (open_session alerted_store))))
     = alerts (durable (open_session alerted_store)).
Proof.
  split; [ reflexivity | ].
  apply (dedup_ignores_delivery_flag configured_alerter
           (env_at (noon_day_100 + timedelta_hours 1) Alerter.Sent)
           trending_purifier (open_session alerted_store) failed_alert).
  - simpl. left. reflexivity.
  - reflexivity.
  - reflexivity.
Defined.

(** C5, a run: the purifier has no alert row, the transport raises, the
    row is written with [telegram_sent = False]. *)
Lemma failed_delivery_is_recorded_witness :
  exists msg,
    delivery_fails configured_alerter
      (env_at noon_day_100 Alerter.RaisedTelegramError) trending_purifier msg
    /\ Alerter.send_momentum_alert configured_alerter
         (env_at noon_day_100 Alerter.RaisedTelegramError)
         trending_purifier (open_session unalerted_store)
       = (Py.Return false,
          open_session
            (with_alert unalerted_store
               (mkAlert "B09G9F43QL" "momentum_spike" msg (Some 85) (Some high)
                  noon_day_100 false))).
Proof.
  eexists. split; [ split; reflexivity | ].
  refine (proj1
            (failed_delivery_is_recorded configured_alerter
               (env_at noon_day_100 Alerter.RaisedTelegramError)
               trending_purifier unalerted_store _ _ (conj eq_refl eq_refl))).
  intros (r & Hin & _). simpl in Hin. exact Hin.
Defined.




(** A score of 60 or more cannot be reached without a title and both
    ranks. *)
Lemma bsr_upper (log10 : Q -> Q) (current : Z) (previous : option Z) (hours s : Q) (c : conf_tag) :
  Engine.calculate_bsr_velocity_score log10 current previous hours = Py.Return (s, c) ->
  s <= 100.
Proof.
  unfold Engine.calculate_bsr_velocity_score.
  destruct previous as [p | ].
  2: { intro E. injection E as <- _. discriminate. }
  destruct ((p =? 0)%Z || (current <=? 0)%Z).
  { intro E. injection E as <- _. discriminate. }
  destruct (p - current <=? 0)%Z.
  { intro E. injection E as <- _.
    assert (Habs : 0 <= inject_Z (Z.abs (p - current)) / 1000).
    { apply Qle_shift_div_l; [ reflexivity | ].
      rewrite Qmult_0_l. change 0 with (inject_Z 0). rewrite <- Zle_Qle. lia. }
    apply (max_bounds 0 (20 - inject_Z (Z.abs (p - current)) / 1000) 0 100);
      try discriminate. lra. }
  destruct (Qeq_bool hours 0); [ discriminate | ].
  set (v := inject_Z (p - current) / hours).
  split_gt; intro E; injection E as <- _.
  - unfold Py.min, Py.lt. split_gt; [ lra | discriminate ].
  - unfold Py.min, Py.lt. split_gt; [ lra | discriminate ].
  - unfold Py.min, Py.lt. split_gt; [ lra | discriminate ].
  - apply (max_bounds 0 (v * 20) 0 100); try discriminate. lra.
Qed.

Lemma clamp_below (x b : Q) : 0 <= b -> x <= b -> Py.min 100 (Py.max 0 x) <= b.
Proof.
  intros Hb Hx. unfold Py.max. split_gt; unfold Py.min, Py.lt; split_gt; lra.
Qed.

Lemma scored_sixty_has_inputs
  (log10 : Q -> Q) (now : datetime) (db : Store) (p : Product)
  (score : Q) (conf : conf_tag) :
  Engine.calculate_composite_momentum_score log10 now db p = Py.Return (score, conf) ->
  60 <= score ->
  Py.truthy_str (title p) = true
  /\ Py.truthy_int (bsr_current p) && Py.truthy_int (bsr_previous p) = true.
Proof.
  intros E Hs.
  destruct (bsr_block_spec log10 p) as (s1 & c1 & E1 & M1 & A1).
  destruct (title_blocks_spec now db p) as (s2 & c2 & s3 & c3 & E2 & E3 & M2 & A2).
  destruct (competition_block_spec now db p) as (s4 & c4 & E4 & M4 & A4).
  rewrite (composite_unfolded log10 now db p _ _ _ _ _ _ _ _ E1 E2 E3 E4) in E.
  injection E as Hscore _.
  assert (B1 : s1 <= 100).
  { destruct (Py.truthy_int (bsr_current p) && Py.truthy_int (bsr_previous p)) eqn:T.
    - destruct (bsr_current p) as [cur | ] eqn:Ec; [ | discriminate T ].
      destruct (A1 cur eq_refl eq_refl) as (t & Ht & _).
      apply (bsr_upper _ _ _ _ _ _ Ht).
    - destruct (M1 eq_refl) as [-> _]. discriminate. }
  assert (B2 : s2 <= 100 /\ s3 <= 70).
  { destruct (Py.truthy_str (title p)) eqn:T.
    - destruct (title p) as [t | ] eqn:Et; [ | discriminate T ].
      destruct (A2 t eq_refl eq_refl) as (t1 & t2 & H1 & _ & H2 & _).
      pose proof (search_range (Engine.keyword_of_title t) now db) as R1.
      pose proof (social_range (Engine.keyword_of_title t) now db) as R2.
      rewrite H1 in R1. rewrite H2 in R2. tauto.
    - destruct (M2 eq_refl) as (-> & _ & -> & _). split; discriminate. }
  assert (B4 : s4 <= 100).
  { destruct (Py.truthy_str (category p)) eqn:T.
    - destruct (category p) as [cat | ] eqn:Ec; [ | discriminate T ].
      destruct (A4 cat eq_refl eq_refl) as (t & H & _).
      pose proof (competition_range cat now db) as R. rewrite H in R. tauto.
    - destruct (M4 eq_refl) as [-> _]. discriminate. }
  destruct B2 as [B2 B3].
  assert (Hsum : Py.sum [ s1 * (35 # 100); s2 * (25 # 100);
                          s3 * (20 # 100); s4 * (20 # 100) ]
                 == s1 * (35 # 100) + s2 * (25 # 100) + s3 * (20 # 100) + s4 * (20 # 100)).
  { unfold Py.sum. simpl fold_left. ring. }
  split.
  - destruct (Py.truthy_str (title p)) eqn:T; [ reflexivity | exfalso ].
    destruct (M2 eq_refl) as (Z2 & _ & Z3 & _). subst s2 s3.
    assert (Hc : score <= 55).
    { rewrite <- Hscore. apply clamp_below; [ discriminate | ]. rewrite Hsum. lra. }
    lra.
  - destruct (Py.truthy_int (bsr_current p) && Py.truthy_int (bsr_previous p)) eqn:T;
      [ reflexivity | exfalso ].
    destruct (M1 eq_refl) as [Z1 _]. subst s1.
    assert (Hc : score <= 59).
    { rewrite <- Hscore. apply clamp_below; [ discriminate | ]. rewrite Hsum. lra. }
    lra.
Qed.







(* ================================================================== *)
(** * The daily digest                                                 *)
(* ================================================================== *)

Section OrderBy.

Variable A : Type.

Variable geb : A -> A -> bool.

Hypothesis geb_total : forall a b, geb a b = true \/ geb b a = true.

Hypothesis geb_trans : forall a b c, geb a b = true -> geb b c = true -> geb a c = true.

Let ge (a b : A) : Prop := geb a b = true.

Lemma insert_desc_perm (x : A) (l : list A) :
  Permutation (x :: l) (insert_desc geb x l).
Proof.
  induction l as [ | y l IH ]; simpl; [ apply Permutation_refl | ].
  destruct (geb x y); [ apply Permutation_refl | ].
  apply perm_trans with (y :: x :: l); [ apply perm_swap | ].
  apply perm_skip. exact IH.
Qed.

Lemma order_by_desc_perm (l : list A) : Permutation l (order_by_desc geb l).
Proof.
  induction l as [ | x l IH ]; simpl; [ apply perm_nil | ].
  apply perm_trans with (x :: order_by_desc geb l);
    [ apply perm_skip; exact IH | apply insert_desc_perm ].
Qed.

Lemma insert_desc_sorted (x : A) (l : list A) :
  StronglySorted ge l -> StronglySorted ge (insert_desc geb x l).
Proof.
  induction l as [ | y l IH ]; intro Hs; simpl.
  - constructor; [ constructor | constructor ].
  - inversion Hs as [ | y' l' Hl Hy ]; subst.
    destruct (geb x y) eqn:E.
    + constructor; [ exact Hs | ].
      constructor; [ exact E | ].
      eapply Forall_impl; [ | exact Hy ].
      intros z Hz. unfold ge in *. eapply geb_trans; eassumption.
    + constructor; [ apply IH; exact Hl | ].
      assert (Hyx : ge y x).
      { destruct (geb_total x y) as [H | H]; [ congruence | exact H ]. }
      apply (Permutation_Forall (insert_desc_perm x l)).
      constructor; assumption.
Qed.

Lemma order_by_desc_sorted (l : list A) : StronglySorted ge (order_by_desc geb l).
Proof.
  induction l as [ | x l IH ]; simpl; [ constructor | ].
  apply insert_desc_sorted. exact IH.
Qed.

Lemma sorted_split (l1 l2 : list A) :
  StronglySorted ge (l1 ++ l2) ->
  StronglySorted ge l1 /\ forall x y, In x l1 -> In y l2 -> ge x y.
Proof.
  induction l1 as [ | a l1 IH ]; simpl; intro Hs.
  - split; [ constructor | intros x y [] ].
  - inversion Hs as [ | a' l' Hl Ha ]; subst.
    destruct (IH Hl) as [Hs1 Hcross].
    apply Forall_app in Ha. destruct Ha as [Ha1 Ha2].
    split; [ constructor; assumption | ].
    intros x y [<- | Hx] Hy.
    + rewrite Forall_forall in Ha2. apply Ha2. exact Hy.
    + apply Hcross; assumption.
Qed.

Lemma filter_split (f : A -> bool) (l : list A) :
  Permutation l (filter f l ++ filter (fun x => negb (f x)) l).
Proof.
  induction l as [ | x l IH ]; simpl; [ apply perm_nil | ].
  destruct (f x); simpl.
  - apply perm_skip. exact IH.
  - apply Permutation_cons_app. exact IH.
Qed.

(** The shape of the two digest queries. *)
Lemma query_top (n : nat) (f : A -> bool) (l : list A) :
  let sorted := order_by_desc geb (filter f l) in
  let sel := firstn n sorted in
  let cut := skipn n sorted in
  (List.length sel <= n)%nat
  /\ StronglySorted ge sel
  /\ Forall (fun x => f x = true) sel
  /\ Permutation l (sel ++ cut ++ filter (fun x => negb (f x)) l)
  /\ Forall (fun x => f x = true) cut
  /\ (cut <> [] -> List.length sel = n)
  /\ (forall x y, In x sel -> In y cut -> ge x y).
Proof.
  intros sorted sel cut.
  assert (Hsplit : sorted = sel ++ cut) by (symmetry; apply firstn_skipn).
  assert (Hperm : Permutation (filter f l) sorted) by apply order_by_desc_perm.
  assert (Hall : Forall (fun x => f x = true) sorted).
  { apply (Permutation_Forall Hperm). apply Forall_forall.
    intros x Hx. apply filter_In in Hx. tauto. }
  pose proof (order_by_desc_sorted (filter f l)) as Hs.
  fold sorted in Hs. rewrite Hsplit in Hs, Hall.
  apply sorted_split in Hs. destruct Hs as [Hs Hcross].
  apply Forall_app in Hall. destruct Hall as [Hall1 Hall2].
  split; [ apply firstn_le_length | ].
  split; [ exact Hs | ].
  split; [ exact Hall1 | ].
  split.
  { rewrite app_assoc, <- Hsplit.
    apply perm_trans with (filter f l ++ filter (fun x => negb (f x)) l);
      [ apply filter_split | apply Permutation_app_tail; exact Hperm ]. }
  split; [ exact Hall2 | ].
  split; [ | exact Hcross ].
  intro Hne. unfold sel. apply firstn_length_le.
  destruct (Nat.le_gt_cases n (List.length sorted)) as [Hle | Hgt]; [ exact Hle | ].
  exfalso. apply Hne. unfold cut. apply skipn_all2. lia.
Qed.

End OrderBy.

Lemma strongly_sorted_on {A : Type} (P : A -> Prop) (R R' : A -> A -> Prop) (l : list A) :
  (forall a b, P a -> P b -> R a b -> R' a b) ->
  Forall P l -> StronglySorted R l -> StronglySorted R' l.
Proof.
  intros Himp Hall Hs. induction Hs as [ | a l Hs IH Ha ]; [ constructor | ].
  inversion Hall as [ | a' l' Hpa Hpl ]; subst.
  constructor; [ apply IH; exact Hpl | ].
  rewrite Forall_forall in *. intros b Hb.
  apply Himp; [ exact Hpa | apply Hpl; exact Hb | apply Ha; exact Hb ].
Qed.

Lemma item_filter_qualifies (now : datetime) (p : Product) :
  Alerter.top_product_filter (now - timedelta_days 1) p = true
  <-> item_qualifies now p.
Proof.
  unfold Alerter.top_product_filter, item_qualifies.
  rewrite andb_true_iff, Z.ltb_lt.
  change (timedelta_days 1) with (timedelta_hours 24).
  split; intros [Ht Hs]; (split; [ exact Ht | ]).
  - destruct (momentum_score p) as [score | ]; [ | discriminate ].
    exists score. split; [ reflexivity | apply gt_true; exact Hs ].
  - destruct Hs as (score & -> & Hs). apply gt_true. exact Hs.
Qed.

Lemma keyword_filter_qualifies (now : datetime) (t : TrendData) :
  Alerter.trending_keyword_filter (now - timedelta_days 1) t = true
  <-> keyword_qualifies now t.
Proof.
  unfold Alerter.trending_keyword_filter, keyword_qualifies.
  rewrite !andb_true_iff, Z.ltb_lt, String.eqb_eq, gt_true.
  change (timedelta_days 1) with (timedelta_hours 24). tauto.
Qed.

Lemma score_geb_total (a b : Product) :
  Alerter.score_geb a b = true \/ Alerter.score_geb b a = true.
Proof.
  unfold Alerter.score_geb.
  destruct (momentum_score a) as [x | ], (momentum_score b) as [y | ]; auto.
  destruct (Qlt_le_dec x y) as [H | H].
  - right. apply ge_true. apply Qlt_le_weak. exact H.
  - left. apply ge_true. exact H.
Qed.

Lemma score_geb_trans (a b c : Product) :
  Alerter.score_geb a b = true -> Alerter.score_geb b c = true ->
  Alerter.score_geb a c = true.
Proof.
  unfold Alerter.score_geb.
  destruct (momentum_score a) as [x | ], (momentum_score b) as [y | ],
    (momentum_score c) as [z | ]; try reflexivity; try discriminate.
  rewrite !ge_true. intros H1 H2. apply Qle_trans with y; assumption.
Qed.

Lemma velocity_geb_total (a b : TrendData) :
  Alerter.velocity_geb a b = true \/ Alerter.velocity_geb b a = true.
Proof.
  unfold Alerter.velocity_geb.
  destruct (Qlt_le_dec (velocity_score a) (velocity_score b)) as [H | H].
  - right. apply ge_true. apply Qlt_le_weak. exact H.
  - left. apply ge_true. exact H.
Qed.

Lemma velocity_geb_trans (a b c : TrendData) :
  Alerter.velocity_geb a b = true -> Alerter.velocity_geb b c = true ->
  Alerter.velocity_geb a c = true.
Proof.
  unfold Alerter.velocity_geb. rewrite !ge_true.
  intros H1 H2. apply Qle_trans with (velocity_score b); assumption.
Qed.

Lemma score_geb_at_least (now : datetime) (a b : Product) :
  item_qualifies now a -> item_qualifies now b ->
  Alerter.score_geb a b = true -> score_at_least a b.
Proof.
  intros [_ (x & Hx & _)] [_ (y & Hy & _)] H.
  unfold Alerter.score_geb in H. rewrite Hx, Hy in H. apply ge_true in H.
  exists x, y. repeat split; assumption.
Qed.

Lemma forall_filter_negb {A : Type} (f : A -> bool) (P : A -> Prop) (l : list A) :
  (forall x, f x = true <-> P x) ->
  Forall (fun x => ~ P x) (filter (fun x => negb (f x)) l).
Proof.
  intro Hf. apply Forall_forall. intros x Hx. apply filter_In in Hx.
  destruct Hx as [_ Hx]. apply negb_true_iff in Hx.
  intro HP. apply Hf in HP. congruence.
Qed.

(** C7 (as amended).  The digest selects at most 10 items whose last update
    is within the last 24 hours and whose momentum score exceeds 40, in
    descending order of score, and at most 10 rows of the search-trend
    platform with strictly positive velocity observed within the last 24
    hours, in descending order of velocity; in both cases a qualifying row
    is left out only when 10 are selected, and then it does not rank above
    any selected row. *)
Theorem digest_selects_top_ten (now : datetime) (db : Store) :
  top_selection 10 (item_qualifies now) score_at_least
    (products db) (Alerter.digest_products now db)
  /\ top_selection 10 (keyword_qualifies now) velocity_at_least
       (trends db) (Alerter.digest_keywords now db).
Proof.
  split.
  - destruct (query_top Product Alerter.score_geb score_geb_total score_geb_trans
                10 (Alerter.top_product_filter (now - timedelta_days 1)) (products db))
      as (Hlen & Hs & Hsel & Hperm & Hcut & Hfull & Hcross).
    assert (Hq : Forall (item_qualifies now) (Alerter.digest_products now db)).
    { eapply Forall_impl; [ | exact Hsel ]. intro p. apply item_filter_qualifies. }
    assert (Hqc : Forall (item_qualifies now)
                    (skipn 10 (order_by_desc Alerter.score_geb
                                 (filter (Alerter.top_product_filter (now - timedelta_days 1)) (products db))))).
    { eapply Forall_impl; [ | exact Hcut ]. intro p. apply item_filter_qualifies. }
    split; [ exact Hlen | ].
    split.
    { apply (strongly_sorted_on (item_qualifies now)
               (fun a b => Alerter.score_geb a b = true));
        [ apply score_geb_at_least | exact Hq | exact Hs ]. }
    split; [ exact Hq | ].
    eexists. eexists.
    split; [ exact Hperm | ].
    split; [ exact Hqc | ].
    split; [ apply forall_filter_negb; apply item_filter_qualifies | ].
    split; [ exact Hfull | ].
    intros x y Hx Hy. rewrite Forall_forall in Hq, Hqc.
    apply (score_geb_at_least now); [ apply Hq; exact Hx | apply Hqc; exact Hy | ].
    apply Hcross; assumption.
  - destruct (query_top TrendData Alerter.velocity_geb velocity_geb_total
                velocity_geb_trans 10
                (Alerter.trending_keyword_filter (now - timedelta_days 1)) (trends db))
      as (Hlen & Hs & Hsel & Hperm & Hcut & Hfull & Hcross).
    split; [ exact Hlen | ].
    split.
    { eapply (strongly_sorted_on (fun _ => True)); [ | | exact Hs ].
      - intros a b _ _ H. apply ge_true in H. exact H.
      - apply Forall_forall. intros; exact I. }
    split.
    { eapply Forall_impl; [ | exact Hsel ]. intro t. apply keyword_filter_qualifies. }
    eexists. eexists.
    split; [ exact Hperm | ].
    split.
    { eapply Forall_impl; [ | exact Hcut ]. intro t. apply keyword_filter_qualifies. }
    split; [ apply forall_filter_negb; apply keyword_filter_qualifies | ].
    split; [ exact Hfull | ].
    intros x y Hx Hy. apply ge_true. apply Hcross; assumption.
Qed.

(** C7, where the claim as stated fails: the only row of the store is of the
    search-trend platform, has positive velocity and was observed within the
    last 7 days, fewer than 10 keywords are selected, and the digest does
    not select it. *)
Lemma digest_skips_keyword_of_three_days_ago :
  platform three_days_old_keyword = "google_trends"%string
  /\ 0 < velocity_score three_days_old_keyword
  /\ (noon_day_100 - timedelta_days 7 < timestamp three_days_old_keyword)%Z
  /\ (timestamp three_days_old_keyword <= noon_day_100)%Z
  /\ Alerter.digest_keywords noon_day_100 (mkStore [] [three_days_old_keyword] [])
     = [].
Proof. repeat split; discriminate. Qed.

(** C8 (as amended).  Over a fixed snapshot of the store, two digest builds
    produce the same result, byte for byte, whenever their clock readings
    agree on the minute printed in the "Generated at" line and on which
    product and trend rows fall inside the 24-hour window. *)
Theorem digest_build_deterministic (db : Store) (env1 env2 : Alerter.Env) :
  Alerter.strftime_ymd_hm (Alerter.wall env1)
  = Alerter.strftime_ymd_hm (Alerter.wall env2) ->
  (forall p, In p (products db) ->
     (Alerter.utcnow env1 - timedelta_days 1 <? last_updated p)%Z
     = (Alerter.utcnow env2 - timedelta_days 1 <? last_updated p)%Z) ->
  (forall t, In t (trends db) ->
     (Alerter.utcnow env1 - timedelta_days 1 <? timestamp t)%Z
     = (Alerter.utcnow env2 - timedelta_days 1 <? timestamp t)%Z) ->
  Alerter.build_digest env1 db = Alerter.build_digest env2 db.
Proof.
  intros Hwall Hp Ht.
  assert (Eprod : Alerter.digest_products (Alerter.utcnow env1) db
                  = Alerter.digest_products (Alerter.utcnow env2) db).
  { unfold Alerter.digest_products. cbv zeta. f_equal. f_equal.
    apply filter_ext_in. intros p Hin. unfold Alerter.top_product_filter.
    rewrite (Hp p Hin). reflexivity. }
  assert (Ekw : Alerter.digest_keywords (Alerter.utcnow env1) db
                = Alerter.digest_keywords (Alerter.utcnow env2) db).
  { unfold Alerter.digest_keywords. cbv zeta. f_equal. f_equal.
    apply filter_ext_in. intros t Hin. unfold Alerter.trending_keyword_filter.
    rewrite (Ht t Hin). reflexivity. }
  unfold Alerter.build_digest, Alerter.format_trends_digest.
  rewrite Eprod, Ekw, Hwall. reflexivity.
Qed.

(** C8, a run of the amended statement: two builds half a minute apart
    within the same minute are identical. *)
Lemma digest_build_deterministic_witness :
  Alerter.build_digest
    (env_at_wall noon_day_100 (Alerter.mkWallClock 2024 3 5 9 0 7)) digest_store
  = Alerter.build_digest
      (env_at_wall (noon_day_100 + half_a_minute)
         (Alerter.mkWallClock 2024 3 5 9 0 37)) digest_store.
Proof.
  apply (digest_build_deterministic digest_store
           (env_at_wall noon_day_100 (Alerter.mkWallClock 2024 3 5 9 0 7))
           (env_at_wall (noon_day_100 + half_a_minute)
              (Alerter.mkWallClock 2024 3 5 9 0 37))).
  - reflexivity.
  - intros p [<- | []]. reflexivity.
  - intros t [<- | []]. reflexivity.
Defined.

(** C8, where the claim as stated fails: over the same store, a build at
    09:00 and a build at 09:01 differ in their last line. *)
Lemma digest_builds_differ_by_minute :
  Alerter.build_digest
    (env_at_wall noon_day_100 (Alerter.mkWallClock 2024 3 5 9 0 7))
    (mkStore [] [] [])
  = Py.Return
      (Alerter.emoji_bar_chart ++ " **DAILY TRENDS DIGEST**" ++ Alerter.nl
       ++ Alerter.nl ++ "*Generated at 2024-03-05 09:00*")%string
  /\ Alerter.build_digest
       (env_at_wall (noon_day_100 + 2 * half_a_minute)
          (Alerter.mkWallClock 2024 3 5 9 1 7))
       (mkStore [] [] [])
     = Py.Return
         (Alerter.emoji_bar_chart ++ " **DAILY TRENDS DIGEST**" ++ Alerter.nl
          ++ Alerter.nl ++ "*Generated at 2024-03-05 09:01*")%string
  /\ Alerter.build_digest
       (env_at_wall noon_day_100 (Alerter.mkWallClock 2024 3 5 9 0 7))
       (mkStore [] [] [])
     <> Alerter.build_digest
          (env_at_wall (noon_day_100 + 2 * half_a_minute)
             (Alerter.mkWallClock 2024 3 5 9 1 7))
          (mkStore [] [] []).
Proof.
  split; [ reflexivity | split; [ reflexivity | ] ].
  vm_compute. discriminate.
Qed.

(* ================================================================== *)
(** * Further properties of the scoring engine                         *)
(* ================================================================== *)

Lemma composite_shape (log10 : Q -> Q) (now : datetime) (db : Store) (p : Product) :
  exists s1 s2 s3 s4 conf,
    Engine.calculate_composite_momentum_score log10 now db p
    = Py.Return
        (Py.min 100
           (Py.max 0
              (Py.sum [ s1 * (35 # 100); s2 * (25 # 100);
                        s3 * (20 # 100); s4 * (20 # 100) ])),
         conf)
    /\ s1 <= 100 /\ s2 <= 100 /\ s3 <= 70 /\ s4 <= 100.
Proof.
  destruct (bsr_block_spec log10 p) as (s1 & c1 & E1 & M1 & A1).
  destruct (title_blocks_spec now db p) as (s2 & c2 & s3 & c3 & E2 & E3 & M2 & A2).
  destruct (competition_block_spec now db p) as (s4 & c4 & E4 & M4 & A4).
  exists s1, s2, s3, s4, (Engine.overall_confidence (c1 ++ c2 ++ c3 ++ c4)).
  split; [ apply (composite_unfolded log10 now db p _ _ _ _ _ _ _ _ E1 E2 E3 E4) | ].
  split.
  { destruct (Py.truthy_int (bsr_current p) && Py.truthy_int (bsr_previous p)) eqn:T.
    - destruct (bsr_current p) as [cur | ] eqn:Ec; [ | discriminate T ].
      destruct (A1 cur eq_refl eq_refl) as (t & Ht & _).
      apply (bsr_upper _ _ _ _ _ _ Ht).
    - destruct (M1 eq_refl) as [-> _]. discriminate. }
  assert (B : s2 <= 100 /\ s3 <= 70).
  { destruct (Py.truthy_str (title p)) eqn:T.
    - destruct (title p) as [t | ] eqn:Et; [ | discriminate T ].
      destruct (A2 t eq_refl eq_refl) as (t1 & t2 & H1 & _ & H2 & _).
      pose proof (search_range (Engine.keyword_of_title t) now db) as R1.
      pose proof (social_range (Engine.keyword_of_title t) now db) as R2.
      rewrite H1 in R1. rewrite H2 in R2. tauto.
    - destruct (M2 eq_refl) as (-> & _ & -> & _). split; discriminate. }
  destruct B as [B2 B3]. split; [ exact B2 | ]. split; [ exact B3 | ].
  destruct (Py.truthy_str (category p)) eqn:T.
  - destruct (category p) as [cat | ] eqn:Ec; [ | discriminate T ].
    destruct (A4 cat eq_refl eq_refl) as (t & H & _).
    pose proof (competition_range cat now db) as R. rewrite H in R. tauto.
  - destruct (M4 eq_refl) as [-> _]. discriminate.
Qed.

(** X1.  The composite score never exceeds 94: the social-buzz score is at
    most 70 (50 for mentions, 20 for sentiment), so the weighted sum is at
    most 35 + 25 + 14 + 20. *)
Theorem composite_at_most_94
  (log10 : Q -> Q) (now : datetime) (db : Store) (p : Product) :
  exists score conf,
    Engine.calculate_composite_momentum_score log10 now db p
    = Py.Return (score, conf)
    /\ score <= 94.
Proof.
  destruct (composite_shape log10 now db p)
    as (s1 & s2 & s3 & s4 & conf & E & B1 & B2 & B3 & B4).
  eexists. exists conf. split; [ exact E | ].
  apply clamp_below; [ discriminate | ].
  unfold Py.sum. simpl fold_left. lra.
Qed.

(** X2.  A row that a score update marks as trending has a non-empty title
    and two non-zero ranks: without a title the composite is at most 55,
    without the ranks at most 59.  This holds for the single-item update
    and for every row a batch update returns. *)
Theorem trending_needs_title_and_ranks (log10 : Q -> Q) (db : Store) :
  (forall (product_id : Z) (now : datetime) (p' : Product),
     fst (Engine.update_product_momentum log10 product_id now (open_session db))
     = Py.Return (Some p') ->
     is_trending p' = true ->
     Py.truthy_str (title p') = true
     /\ Py.truthy_int (bsr_current p') = true
     /\ Py.truthy_int (bsr_previous p') = true)
  /\ (forall (clock : nat -> datetime) (store_up : nat -> bool)
             (updated : list Product) (p' : Product),
        fst (Engine.batch_update_momentum_scores log10 clock store_up (open_session db))
        = Py.Return updated ->
        In p' updated ->
        is_trending p' = true ->
        Py.truthy_str (title p') = true
        /\ Py.truthy_int (bsr_current p') = true
        /\ Py.truthy_int (bsr_previous p') = true).
Proof.
  assert (Hkey : forall now0 db0 p score conf,
            Engine.calculate_composite_momentum_score log10 now0 db0 p
            = Py.Return (score, conf) ->
            forall t, is_trending (Engine.with_momentum p score conf t) = true ->
            Py.truthy_str (title p) = true
            /\ Py.truthy_int (bsr_current p) = true
            /\ Py.truthy_int (bsr_previous p) = true).
  { intros now0 db0 p score conf E t Ht. simpl in Ht. apply gt_true in Ht.
    destruct (scored_sixty_has_inputs log10 now0 db0 p score conf E) as [H1 H2];
      [ apply Qlt_le_weak; exact Ht | ].
    apply andb_true_iff in H2. tauto. }
  split.
  - intros product_id now p' E Ht.
    destruct (update_product_outcome log10 product_id now db)
      as [[_ E0] | (pre & p & rest & score & conf & _ & _ & _ & Ec & E0)].
    + rewrite E0 in E. discriminate.
    + cbv zeta in E0. rewrite E0 in E. simpl in E. injection E as <-.
      apply (Hkey now db p score conf Ec now Ht).
  - intros clock store_up updated p' E Hin Ht.
    destruct (batch_update_outcome log10 clock store_up db)
      as [(_ & (e & He) & _) | (_ & updated0 & Hr & _ & Hres)].
    + rewrite He in E. discriminate.
    + rewrite Hr in E. injection E as <-.
      clear Hr. revert Hres Hin. generalize 0%nat. generalize (products db).
      induction updated0 as [ | new news IH ]; intros olds k Hres Hin;
        [ contradiction | ].
      destruct olds as [ | old olds ]; simpl in Hres; [ contradiction | ].
      destruct Hres as [(score & conf & Ec & ->) Hrest].
      destruct Hin as [<- | Hin].
      * apply (Hkey (clock k) db old score conf Ec (clock k) Ht).
      * apply (IH olds (S k) Hrest Hin).
Qed.

(** X2, a run: the purifier that climbed to rank 100 is scored 74.5 and
    marked trending; it has a title and both ranks. *)
Lemma trending_needs_title_and_ranks_witness :
  exists p',
    fst (Engine.update_product_momentum floor_log10 1 noon_day_100
           (open_session hot_store))
    = Py.Return (Some p')
    /\ is_trending p' = true
    /\ Py.truthy_str (title p') = true
    /\ Py.truthy_int (bsr_current p') = true
    /\ Py.truthy_int (bsr_previous p') = true.
Proof.
  eexists. split; [ reflexivity | ]. split; [ reflexivity | ].
  apply (proj1 (trending_needs_title_and_ranks floor_log10 hot_store)
           1%Z noon_day_100);
    reflexivity.
Defined.

(** X3.  The rank-velocity score is not monotone around a flat rank: over
    [hours > 0], an unchanged rank scores 20 (tag declining), while a rank
    that improved by fewer than [hours] places scores [20 * change / hours],
    which is below 20 (tag low). *)
Theorem rank_velocity_dips_after_flat
  (log10 : Q -> Q) (current change : Z) (hours : Q) :
  (0 < current)%Z -> (0 < change)%Z -> inject_Z change < hours ->
  (exists s0,
     Engine.calculate_bsr_velocity_score log10 current (Some current) hours
     = Py.Return (s0, declining)
     /\ s0 == 20)
  /\ exists s,
       Engine.calculate_bsr_velocity_score log10 current
         (Some (current + change)%Z) hours
       = Py.Return (s, low)
       /\ s == 20 * inject_Z change / hours
       /\ 0 < s /\ s < 20.
Proof.
  intros Hc Hd Hh.
  assert (Hd' : 0 < inject_Z change).
  { change 0 with (inject_Z 0). rewrite <- Zlt_Qlt. exact Hd. }
  assert (Hpos : 0 < hours) by (apply Qlt_trans with (inject_Z change); assumption).
  split.
  - rewrite bsr_declining; try lia.
    replace (current - current)%Z with 0%Z by lia.
    eexists. split; reflexivity.
  - pose proof (bsr_climbing log10 current (current + change)%Z hours) as E.
    replace (current + change - current)%Z with change in E by lia.
    cbv zeta in E. rewrite E; try lia.
    2: { intro H0. rewrite H0 in Hpos. discriminate. }
    set (v := inject_Z change / hours).
    assert (Hv0 : 0 < v).
    { unfold v. apply Qlt_shift_div_l; [ exact Hpos | ]. rewrite Qmult_0_l. exact Hd'. }
    assert (Hv1 : v < 1).
    { unfold v. apply Qlt_shift_div_r; [ exact Hpos | ]. rewrite Qmult_1_l. exact Hh. }
    assert (G100 : Py.gt v 100 = false) by (apply gt_false; lra).
    assert (G10 : Py.gt v 10 = false) by (apply gt_false; lra).
    assert (G1 : Py.gt v 1 = false) by (apply gt_false; lra).
    rewrite G100, G10, G1.
    assert (Gm : Py.max 0 (v * 20) = v * 20).
    { unfold Py.max. replace (Py.gt (v * 20) 0) with true; [ reflexivity | ].
      symmetry. apply gt_true. lra. }
    rewrite Gm. eexists. split; [ reflexivity | ].
    split; [ unfold v; field; intro H0; rewrite H0 in Hpos; discriminate | ].
    split; lra.
Qed.

(** X3, a run: over 24 hours, rank 900 kept scores 20 and rank 910 improved
    to 900 scores 25/3. *)
Lemma rank_velocity_dips_after_flat_witness :
  (exists s0,
     Engine.calculate_bsr_velocity_score floor_log10 900 (Some 900%Z) 24
     = Py.Return (s0, declining)
     /\ s0 == 20)
  /\ exists s,
       Engine.calculate_bsr_velocity_score floor_log10 900 (Some (900 + 10)%Z) 24
       = Py.Return (s, low)
       /\ s == 20 * inject_Z 10 / 24
       /\ 0 < s /\ s < 20.
Proof.
  apply (rank_velocity_dips_after_flat floor_log10 900 10 24); reflexivity.
Defined.

Lemma competition_by_count (cat : string) (now : datetime) (db : Store) (n : nat) :
  Engine.new_products_count cat now db = n ->
  Engine.calculate_competition_score cat now db
  = let c := inject_Z (Z.of_nat n) in
    if Py.gt c 50 then (Py.min 100 (70 + c * (1 # 2)), high)
    else if Py.gt c 20 then (Py.min 80 (40 + c * (3 # 2)), medium)
    else if Py.gt c 5 then (Py.min 60 (20 + c * 3), low)
    else (Py.max 0 (c * 10), low).
Proof.
  intros <-. reflexivity.
Qed.

(** X4.  The competition score is not monotone in the number of new
    entrants: five new products in the category score 50, six to nine score
    [20 + 3 n], which is below 50; both with tag low. *)
Theorem competition_dips_after_five
  (cat : string) (now : datetime) (db : Store) :
  (Engine.new_products_count cat now db = 5%nat ->
   Engine.calculate_competition_score cat now db = (50, low))
  /\ (forall n : nat,
        Engine.new_products_count cat now db = n ->
        (6 <= n <= 9)%nat ->
        exists s,
          Engine.calculate_competition_score cat now db = (s, low)
          /\ s == 20 + 3 * inject_Z (Z.of_nat n)
          /\ s < 50).
Proof.
  split.
  - intro H. rewrite (competition_by_count cat now db 5 H). reflexivity.
  - intros n H Hn. rewrite (competition_by_count cat now db n H).
    assert (Hcases : (n = 6 \/ n = 7 \/ n = 8 \/ n = 9)%nat) by lia.
    destruct Hcases as [-> | [-> | [-> | ->]]];
      eexists; (split; [ reflexivity | split; reflexivity ]).
Qed.

(** X4, a run: five rows of one category score 50, six score 38. *)
Lemma competition_dips_after_five_witness :
  Engine.calculate_competition_score "Home & Kitchen" noon_day_100
    (mkStore (repeat vacuum 5) [] [])
  = (50, low)
  /\ exists s,
       Engine.calculate_competition_score "Home & Kitchen" noon_day_100
         (mkStore (repeat vacuum 6) [] [])
       = (s, low)
       /\ s == 20 + 3 * inject_Z (Z.of_nat 6)
       /\ s < 50.
Proof.
  split.
  - apply (proj1 (competition_dips_after_five "Home & Kitchen" noon_day_100
                    (mkStore (repeat vacuum 5) [] []))).
    reflexivity.
  - apply (proj2 (competition_dips_after_five "Home & Kitchen" noon_day_100
                    (mkStore (repeat vacuum 6) [] [])) 6%nat).
    + reflexivity.
    + lia.
Defined.

Lemma in_firstn {A : Type} (n : nat) (x : A) (l : list A) :
  In x (firstn n l) -> In x l.
Proof.
  intro H. rewrite <- (firstn_skipn n l). apply in_or_app. left. exact H.
Qed.

Lemma recent_search_rows_top (kw : string) (now : datetime) (db : Store) :
  top_selection 5 (search_row kw now) no_older (trends db)
    (Engine.recent_search_rows kw now db).
Proof.
  unfold Engine.recent_search_rows.
  set (f := fun d : TrendData =>
              String.eqb (keyword d) kw
              && String.eqb (platform d) "google_trends"
              && (now - timedelta_days 30 <? timestamp d)%Z).
  assert (Hf : forall t, f t = true <-> search_row kw now t).
  { intro t. unfold f, search_row.
    rewrite !andb_true_iff, !String.eqb_eq, Z.ltb_lt. tauto. }
  assert (Hge : forall a b, Engine.newer_first a b = true <-> no_older a b).
  { intros a b. unfold Engine.newer_first, no_older. apply Z.leb_le. }
  destruct (query_top TrendData Engine.newer_first) with (n := 5%nat) (f := f)
                                                         (l := trends db)
    as (Hlen & Hs & Hsel & Hperm & Hcut & Hfull & Hcross).
  { intros a b. unfold Engine.newer_first. rewrite !Z.leb_le. lia. }
  { intros a b c. unfold Engine.newer_first. rewrite !Z.leb_le. lia. }
  split; [ exact Hlen | ].
  split.
  { eapply (strongly_sorted_on (fun _ => True)); [ | | exact Hs ].
    - intros a b _ _ H. apply Hge. exact H.
    - apply Forall_forall. intros; exact I. }
  split.
  { eapply Forall_impl; [ | exact Hsel ]. intro t. apply Hf. }
  eexists. eexists.
  split; [ exact Hperm | ].
  split.
  { eapply Forall_impl; [ | exact Hcut ]. intro t. apply Hf. }
  split; [ apply forall_filter_negb; exact Hf | ].
  split; [ exact Hfull | ].
  intros x y Hx Hy. apply Hge. apply Hcross; assumption.
Qed.

(** X5.  The search-acceleration score reads the five newest rows of the
    keyword on the search platform within 30 days, newest first: at most
    five rows, all of them such rows of the table, and a such row is left
    out only when five are read and it is no newer than any of them.  With
    at least three rows read, the acceleration is the second difference of
    the three newest volumes, [(v1 - v2) - (v2 - v3)], and the score is
    [min(100, 60 + 2a)] (high) above 10, [min(80, 40 + 4a)] (medium) in
    (5,10], [min(60, 20 + 8a)] (low) in (0,5] and [max(0, 30 + 5a)] (low)
    otherwise; with exactly two it is [max(0, min(70, 2 (v1 - v2)))] (low);
    with fewer it is [(0, insufficient_data)]. *)
Theorem search_acceleration_reads_newest_rows
  (kw : string) (now : datetime) (db : Store) :
  let rows := Engine.recent_search_rows kw now db in
  let result := Engine.calculate_search_acceleration_score kw now db in
  top_selection 5 (search_row kw now) no_older (trends db) rows
  /\ ((List.length rows < 2)%nat -> result = (0, insufficient_data))
  /\ (forall r1 r2 : TrendData,
        rows = [r1; r2] ->
        result
        = (Py.max 0 (Py.min 70 ((volume_score r1 - volume_score r2) * 2)), low))
  /\ (forall (r1 r2 r3 : TrendData) (older : list TrendData),
        rows = r1 :: r2 :: r3 :: older ->
        let a := volume_score r1 - volume_score r2
                 - (volume_score r2 - volume_score r3) in
        result
        = if Py.gt a 10 then (Py.min 100 (60 + a * 2), high)
          else if Py.gt a 5 then (Py.min 80 (40 + a * 4), medium)
          else if Py.gt a 0 then (Py.min 60 (20 + a * 8), low)
          else (Py.max 0 (30 + a * 5), low)).
Proof.
  intros rows result.
  split; [ apply recent_search_rows_top | ].
  unfold result, Engine.calculate_search_acceleration_score. fold rows.
  split; [ | split ].
  - intro Hlen. apply Nat.ltb_lt in Hlen. rewrite Hlen. reflexivity.
  - intros r1 r2 ->. reflexivity.
  - intros r1 r2 r3 older Hrows. rewrite Hrows. cbv zeta.
    assert (Hlen : (List.length (r1 :: r2 :: r3 :: older) <? 2)%nat = false)
      by (apply Nat.ltb_ge; simpl; lia).
    rewrite Hlen.
    set (volumes := map volume_score (rev (r1 :: r2 :: r3 :: older))).
    assert (Hv : volumes
                 = map volume_score (rev older)
                   ++ [volume_score r3; volume_score r2; volume_score r1]).
    { unfold volumes. simpl rev. rewrite <- !app_assoc. rewrite map_app. reflexivity. }
    assert (Hl : List.length volumes = (List.length (map volume_score (rev older)) + 3)%nat).
    { rewrite Hv, length_app. reflexivity. }
    assert (H3 : (3 <=? List.length volumes)%nat = true)
      by (apply Nat.leb_le; lia).
    rewrite H3.
    assert (E1 : Py.from_end volumes 1 = volume_score r1).
    { unfold Py.from_end. rewrite Hl, Hv, app_nth2 by lia.
      replace (List.length (map volume_score (rev older)) + 3 - 1
               - List.length (map volume_score (rev older)))%nat with 2%nat by lia.
      reflexivity. }
    assert (E2 : Py.from_end volumes 2 = volume_score r2).
    { unfold Py.from_end. rewrite Hl, Hv, app_nth2 by lia.
      replace (List.length (map volume_score (rev older)) + 3 - 2
               - List.length (map volume_score (rev older)))%nat with 1%nat by lia.
      reflexivity. }
    assert (E3 : Py.from_end volumes 3 = volume_score r3).
    { unfold Py.from_end. rewrite Hl, Hv, app_nth2 by lia.
      replace (List.length (map volume_score (rev older)) + 3 - 3
               - List.length (map volume_score (rev older)))%nat with 0%nat by lia.
      reflexivity. }
    rewrite E1, E2, E3. reflexivity.
Qed.

(** X5, a run: volumes 10, 20, 60 give the acceleration 30 and the score
    100 with tag high. *)
Lemma search_acceleration_reads_newest_rows_witness :
  map volume_score (Engine.recent_search_rows "levoit core 300s" noon_day_100 hot_store)
  = [60; 20; 10]
  /\ Engine.calculate_search_acceleration_score "levoit core 300s" noon_day_100 hot_store
     = (100, high).
Proof.
  split; [ reflexivity | ].
  pose proof (search_acceleration_reads_newest_rows "levoit core 300s"
                noon_day_100 hot_store) as (_ & _ & _ & H).
  rewrite (H _ _ _ _ eq_refl). reflexivity.
Defined.

Lemma new_products_count_same (cat : string) (now : datetime) (db db' : Store) :
  Forall2 same_catalogue (products db) (products db') ->
  Engine.new_products_count cat now db = Engine.new_products_count cat now db'.
Proof.
  unfold Engine.new_products_count. intro H.
  induction H as [ | p q ps qs Hpq _ IH ]; [ reflexivity | ].
  destruct Hpq as (_ & _ & _ & Hc & _ & _ & _ & Hf).
  cbn [filter]. rewrite Hc, Hf.
  destruct (_ && _); cbn [List.length]; rewrite IH; reflexivity.
Qed.

Lemma composite_same_inputs
  (log10 : Q -> Q) (now : datetime) (db db' : Store) (p q : Product) :
  same_inputs db db' -> same_catalogue p q ->
  Engine.calculate_composite_momentum_score log10 now db p
  = Engine.calculate_composite_momentum_score log10 now db' q.
Proof.
  intros (Hps & Hts & _) (_ & _ & Ht & Hc & _ & Hbc & Hbp & _).
  unfold Engine.calculate_composite_momentum_score.
  assert (E1 : Engine.bsr_block log10 p = Engine.bsr_block log10 q)
    by (unfold Engine.bsr_block; rewrite Hbc, Hbp; reflexivity).
  assert (E2 : Engine.search_block now db p = Engine.search_block now db' q).
  { unfold Engine.search_block, Engine.calculate_search_acceleration_score,
      Engine.recent_search_rows. rewrite Ht, Hts. reflexivity. }
  assert (E3 : Engine.social_block now db p = Engine.social_block now db' q).
  { unfold Engine.social_block, Engine.calculate_social_buzz_score,
      Engine.recent_social_rows. rewrite Ht, Hts. reflexivity. }
  assert (E4 : Engine.competition_block now db p = Engine.competition_block now db' q).
  { unfold Engine.competition_block, Engine.calculate_competition_score.
    rewrite Hc. destruct (category q) as [c | ]; [ | reflexivity ].
    rewrite (new_products_count_same c now db db' Hps). reflexivity. }
  rewrite E1, E2, E3, E4. reflexivity.
Qed.

Lemma with_momentum_same (p q : Product) (score : Q) (conf : conf_tag) (now : datetime) :
  same_catalogue p q ->
  Engine.with_momentum p score conf now = Engine.with_momentum q score conf now.
Proof.
  intros (H1 & H2 & H3 & H4 & H5 & H6 & H7 & H8).
  unfold Engine.with_momentum. rewrite H1, H2, H3, H4, H5, H6, H7, H8. reflexivity.
Qed.

Lemma with_momentum_same_catalogue
  (p : Product) (score : Q) (conf : conf_tag) (now : datetime) :
  same_catalogue p (Engine.with_momentum p score conf now).
Proof. repeat split. Qed.

Lemma rescored_same
  (log10 : Q -> Q) (clock : nat -> datetime) (db db' : Store) :
  same_inputs db db' ->
  forall (olds olds' : list Product),
    Forall2 same_catalogue olds olds' ->
    forall (k : nat) (news news' : list Product),
      rescored_from log10 clock db k olds news ->
      rescored_from log10 clock db' k olds' news' ->
      news = news'.
Proof.
  intros Hdb olds olds' H.
  induction H as [ | p q ps qs Hpq _ IH ]; intros k [ | n news ] [ | n' news' ] H1 H2;
    simpl in H1, H2; try contradiction; [ reflexivity | ].
  destruct H1 as [(s1 & c1 & E1 & ->) H1], H2 as [(s2 & c2 & E2 & ->) H2].
  rewrite (composite_same_inputs log10 (clock k) db db' p q Hdb Hpq) in E1.
  rewrite E1 in E2. injection E2 as <- <-.
  rewrite (with_momentum_same p q s1 c1 (clock k) Hpq).
  f_equal. exact (IH _ _ _ H1 H2).
Qed.

Lemma rescored_same_catalogue
  (log10 : Q -> Q) (clock : nat -> datetime) (db : Store) (olds : list Product) :
  forall (k : nat) (news : list Product),
    rescored_from log10 clock db k olds news ->
    Forall2 same_catalogue olds news.
Proof.
  induction olds as [ | old olds IH ]; intros k [ | new news ] H;
    simpl in H; try contradiction; [ constructor | ].
  destruct H as [(score & conf & _ & ->) H].
  constructor; [ apply with_momentum_same_catalogue | exact (IH _ _ H) ].
Qed.

Lemma rescored_nth
  (log10 : Q -> Q) (clock : nat -> datetime) (db : Store) (olds : list Product) :
  forall (k : nat) (news : list Product) (i : nat) (p : Product),
    rescored_from log10 clock db k olds news ->
    nth_error olds i = Some p ->
    exists score conf,
      Engine.calculate_composite_momentum_score log10 (clock (k + i)%nat) db p
      = Py.Return (score, conf)
      /\ nth_error news i
         = Some (Engine.with_momentum p score conf (clock (k + i)%nat)).
Proof.
  induction olds as [ | old olds IH ]; intros k [ | new news ] i p H Hi;
    simpl in H; try contradiction.
  - destruct i; discriminate.
  - destruct H as [(score & conf & E & ->) H]. destruct i as [ | i ].
    + injection Hi as <-. rewrite Nat.add_0_r. exists score, conf. split; [ exact E | reflexivity ].
    + simpl in Hi. destruct (IH _ _ _ _ H Hi) as (s & c & E' & Hn).
      replace (k + S i)%nat with (S k + i)%nat by lia.
      exists s, c. split; [ exact E' | exact Hn ].
Qed.

(** X6.  A scoring run overwrites whatever earlier runs wrote and never
    reads it: two stores that differ at most in the score, confidence, time
    of update and trending flag of their product rows give, when the store
    answers every query, the same updated rows and the same database. *)
Theorem scoring_overwrites_previous_scores
  (log10 : Q -> Q) (clock : nat -> datetime) (store_up : nat -> bool)
  (db db' : Store)
  (Hsame : same_inputs db db')
  (Hup : forall k, (k < List.length (products db))%nat -> store_up k = true) :
  fst (Engine.batch_update_momentum_scores log10 clock store_up (open_session db))
  = fst (Engine.batch_update_momentum_scores log10 clock store_up (open_session db'))
  /\ Engine.scoring_run log10 clock store_up db
     = Engine.scoring_run log10 clock store_up db'.
Proof.
  assert (Hlen : List.length (products db) = List.length (products db'))
    by (destruct Hsame as (H & _); exact (Forall2_length H)).
  unfold Engine.scoring_run, close.
  destruct (batch_update_outcome log10 clock store_up db)
    as [((k & Hk & Hd) & _) | (_ & u & Hu & Hdur & Hres)];
    [ rewrite Hup in Hd by exact Hk; discriminate | ].
  destruct (batch_update_outcome log10 clock store_up db')
    as [((k & Hk & Hd) & _) | (_ & u' & Hu' & Hdur' & Hres')];
    [ rewrite Hup in Hd by (rewrite Hlen; exact Hk); discriminate | ].
  assert (E : u = u').
  { destruct Hsame as (Hps & Hts & Has).
    exact (rescored_same log10 clock db db' (conj Hps (conj Hts Has))
             _ _ Hps 0%nat u u' Hres Hres'). }
  destruct Hsame as (_ & Hts & Has).
  rewrite Hu, Hu', Hdur, Hdur', E, Hts, Has. split; reflexivity.
Qed.

Lemma scoring_run_same_inputs
  (log10 : Q -> Q) (clock : nat -> datetime) (store_up : nat -> bool) (db : Store) :
  same_inputs db (Engine.scoring_run log10 clock store_up db).
Proof.
  unfold Engine.scoring_run, close.
  destruct (batch_update_outcome log10 clock store_up db)
    as [(_ & _ & Hdur) | (_ & u & _ & Hdur & Hres)]; rewrite Hdur.
  - repeat split. clear. induction (products db); constructor; [ repeat split | assumption ].
  - repeat split. exact (rescored_same_catalogue log10 clock db _ _ _ Hres).
Qed.

(** X6, a run: scoring the store a second time at the same clock readings
    gives the database of the first run. *)
Lemma scoring_overwrites_previous_scores_witness :
  Engine.scoring_run floor_log10 (fun _ => noon_day_100) (fun _ => true) hot_store
  = Engine.scoring_run floor_log10 (fun _ => noon_day_100) (fun _ => true)
      (Engine.scoring_run floor_log10 (fun _ => noon_day_100) (fun _ => true) hot_store).
Proof.
  apply (scoring_overwrites_previous_scores floor_log10 (fun _ => noon_day_100)
           (fun _ => true) hot_store
           (Engine.scoring_run floor_log10 (fun _ => noon_day_100) (fun _ => true)
              hot_store)).
  - apply scoring_run_same_inputs.
  - intros k _. reflexivity.
Defined.

Lemma find_index_first {A : Type} (f : A -> bool) (pre : list A) (x : A) (rest : list A) :
  (forall y, In y pre -> f y = false) -> f x = true ->
  Engine.find_index f (pre ++ x :: rest) = Some (List.length pre).
Proof.
  intros Hpre Hx. induction pre as [ | y pre IH ]; simpl.
  - rewrite Hx. reflexivity.
  - rewrite (Hpre y) by (left; reflexivity).
    rewrite IH by (intros z Hz; apply Hpre; right; exact Hz). reflexivity.
Qed.

(** X7.  The single-item update and the batch update agree row by row: for
    the first row with a given id, at position [k] of the table, updating
    that id at the clock reading [clock k] returns exactly the row that a
    complete batch run puts at position [k], in the list it returns and in
    the database. *)
Theorem single_update_agrees_with_batch
  (log10 : Q -> Q) (clock : nat -> datetime) (store_up : nat -> bool)
  (db : Store) (pre : list Product) (p : Product) (rest : list Product)
  (Hrows : products db = pre ++ p :: rest)
  (Hfirst : forall q, In q pre -> id q <> id p)
  (Hup : forall k, (k < List.length (products db))%nat -> store_up k = true) :
  exists (p' : Product) (updated : list Product),
    fst (Engine.update_product_momentum log10 (id p) (clock (List.length pre))
           (open_session db))
    = Py.Return (Some p')
    /\ fst (Engine.batch_update_momentum_scores log10 clock store_up (open_session db))
       = Py.Return updated
    /\ nth_error updated (List.length pre) = Some p'
    /\ nth_error (products (Engine.scoring_run log10 clock store_up db))
         (List.length pre)
       = Some p'.
Proof.
  assert (Hnth : nth_error (products db) (List.length pre) = Some p).
  { rewrite Hrows, nth_error_app2 by lia. rewrite Nat.sub_diag. reflexivity. }
  destruct (batch_update_outcome log10 clock store_up db)
    as [((k & Hk & Hd) & _) | (_ & u & Hu & Hdur & Hres)];
    [ rewrite Hup in Hd by exact Hk; discriminate | ].
  destruct (rescored_nth log10 clock db _ _ _ _ _ Hres Hnth) as (score & conf & E & Hn).
  cbn [Nat.add] in E, Hn.
  exists (Engine.with_momentum p score conf (clock (List.length pre))), u.
  split; [ | split; [ exact Hu | split; [ exact Hn | ] ] ].
  - unfold Engine.update_product_momentum. cbn [working durable open_session].
    rewrite Hrows at 1.
    rewrite find_index_first;
      [ | intros y Hy; apply Z.eqb_neq; apply Hfirst; exact Hy | apply Z.eqb_refl ].
    rewrite Hnth, E. reflexivity.
  - unfold Engine.scoring_run, close. rewrite Hdur. exact Hn.
Qed.

(** X7, a run: the vacuum is the second row of the store. *)
Lemma single_update_agrees_with_batch_witness :
  exists (p' : Product) (updated : list Product),
    fst (Engine.update_product_momentum floor_log10 (id vacuum) noon_day_100
           (open_session hot_store))
    = Py.Return (Some p')
    /\ fst (Engine.batch_update_momentum_scores floor_log10 (fun _ => noon_day_100)
              (fun _ => true) (open_session hot_store))
       = Py.Return updated
    /\ nth_error updated 1 = Some p'
    /\ nth_error
         (products (Engine.scoring_run floor_log10 (fun _ => noon_day_100)
                      (fun _ => true) hot_store)) 1
       = Some p'.
Proof.
  apply (single_update_agrees_with_batch floor_log10 (fun _ => noon_day_100)
           (fun _ => true) hot_store [climbing_purifier] vacuum []).
  - reflexivity.
  - intros q [<- | []]. discriminate.
  - intros k _. reflexivity.
Defined.

(* ================================================================== *)
(** * Further properties of the alerter                                *)
(* ================================================================== *)

Lemma store_eta (db : Store) :
  mkStore (products db) (trends db) (alerts db ++ []) = db.
Proof. destruct db. simpl. rewrite app_nil_r. reflexivity. Qed.

Lemma format_returns_iff (w : Alerter.WallClock) (p : Product) :
  (exists msg, Alerter.format_momentum_alert w p = Py.Return msg)
  <-> momentum_score p <> None /\ title p <> None /\ price p <> None
      /\ confidence_level p <> None /\ bsr_current p <> None.
Proof.
  unfold Alerter.format_momentum_alert.
  destruct (momentum_score p), (title p), (price p), (confidence_level p),
    (bsr_current p);
    split;
    try (intros (msg & H); discriminate);
    try (intros (H1 & H2 & H3 & H4 & H5); congruence);
    try (intros _; repeat split; discriminate);
    try (intros _; eexists; reflexivity).
Qed.

(** One call of [send_momentum_alert] in a fresh session. *)
Lemma send_step
  (self : Alerter.TelegramAlerter) (env : Alerter.Env) (p : Product) (db : Store) :
  ((exists r, In r (alerts db) /\ product_asin r = asin p
              /\ (Alerter.utcnow env - timedelta_hours 6 < sent_at r)%Z)
   /\ Alerter.send_momentum_alert self env p (open_session db)
      = (Py.Return false, open_session db))
  \/ (quiet db (asin p) (Alerter.utcnow env)
      /\ exists e,
           Alerter.format_momentum_alert (Alerter.wall env) p = Py.Raise e
           /\ Alerter.send_momentum_alert self env p (open_session db)
              = (Py.Raise e, open_session db))
  \/ (quiet db (asin p) (Alerter.utcnow env)
      /\ exists msg,
           Alerter.format_momentum_alert (Alerter.wall env) p = Py.Return msg
           /\ let sent := Alerter.send_telegram_message self (Alerter.wire env) msg in
              let a := mkAlert (asin p) "momentum_spike" msg (momentum_score p)
                         (confidence_level p) (Alerter.insert_utcnow env) sent in
              Alerter.send_momentum_alert self env p (open_session db)
              = (Py.Return sent, open_session (with_alert db a))).
Proof.
  unfold Alerter.send_momentum_alert. cbn [durable open_session].
  destruct (find (Alerter.is_recent_alert (asin p) (Alerter.utcnow env)) (alerts db))
    as [r | ] eqn:Ef.
  - left. apply find_some in Ef. destruct Ef as [Hin Hr].
    apply is_recent_alert_true in Hr. split; [ | reflexivity ].
    exists r. tauto.
  - right.
    assert (Hq : quiet db (asin p) (Alerter.utcnow env)).
    { intros (r & Hin & Ha & Ht).
      pose proof (find_none _ _ Ef r Hin) as Hn.
      assert (Alerter.is_recent_alert (asin p) (Alerter.utcnow env) r = true)
        by (apply is_recent_alert_true; tauto).
      congruence. }
    destruct (Alerter.format_momentum_alert (Alerter.wall env) p) as [msg | e].
    + right. split; [ exact Hq | ]. exists msg. split; [ reflexivity | ].
      cbv zeta. rewrite commit_add_alert. reflexivity.
    + left. split; [ exact Hq | ]. exists e. split; reflexivity.
Qed.

Lemma alerts_loop_account
  (self : Alerter.TelegramAlerter) (envs : nat -> Alerter.Env) (todo : list Product) :
  forall (k n : nat) (db : Store),
  exists news,
    Alerter.alerts_loop self envs k todo n (open_session db)
    = ((n + List.length (filter telegram_sent news))%nat,
       open_session (mkStore (products db) (trends db) (alerts db ++ news)))
    /\ (List.length news <= List.length todo)%nat
    /\ Forall (fun a => exists j, sent_at a = Alerter.insert_utcnow (envs j)) news.
Proof.
  induction todo as [ | p todo IH ]; intros k n db.
  - exists []. simpl. rewrite Nat.add_0_r, store_eta.
    repeat split; [ lia | constructor ].
  - cbn [Alerter.alerts_loop].
    destruct (send_step self (envs k) p db)
      as [(_ & E) | [(_ & e & _ & E) | (_ & msg & _ & E)]].
    + rewrite E. destruct (IH (S k) n db) as (news & E' & Hlen & Hall).
      exists news. rewrite E'. repeat split; [ simpl; lia | exact Hall ].
    + rewrite E. destruct (IH (S k) n db) as (news & E' & Hlen & Hall).
      exists news. rewrite E'. repeat split; [ simpl; lia | exact Hall ].
    + cbv zeta in E. rewrite E.
      set (sent := Alerter.send_telegram_message self (Alerter.wire (envs k)) msg) in *.
      set (a := mkAlert (asin p) "momentum_spike" msg (momentum_score p)
                  (confidence_level p) (Alerter.insert_utcnow (envs k)) sent) in *.
      assert (Hsent : telegram_sent a = sent) by reflexivity.
      destruct sent.
      * destruct (IH (S k) (S n) (with_alert db a)) as (news & E' & Hlen & Hall).
        exists (a :: news). rewrite E'. cbn [with_alert products trends alerts filter].
        rewrite Hsent, <- app_assoc. cbn [app List.length].
        repeat split; [ f_equal; lia | lia | ].
        constructor; [ exists k; reflexivity | exact Hall ].
      * destruct (IH (S k) n (with_alert db a)) as (news & E' & Hlen & Hall).
        exists (a :: news). rewrite E'. cbn [with_alert products trends alerts filter].
        rewrite Hsent, <- app_assoc. cbn [app List.length].
        repeat split; [ lia | ].
        constructor; [ exists k; reflexivity | exact Hall ].
Qed.


Lemma alerts_loop_covers
  (self : Alerter.TelegramAlerter) (envs : nat -> Alerter.Env) (todo : list Product) :
  forall (k n : nat) (db : Store) (i : nat) (p : Product),
    nth_error todo i = Some p ->
    collected p ->
    momentum_score p <> None -> confidence_level p <> None ->
    exists r,
      In r (alerts (durable (snd (Alerter.alerts_loop self envs k todo n
                                    (open_session db)))))
      /\ product_asin r = asin p
      /\ (((Alerter.utcnow (envs (k + i)%nat) - timedelta_hours 6 < sent_at r)%Z
           /\ (In r (alerts db)
               \/ exists j, sent_at r = Alerter.insert_utcnow (envs j)))
          \/ sent_at r = Alerter.insert_utcnow (envs (k + i)%nat)).
Proof.
  induction todo as [ | q todo IH ]; intros k n db i p Hi Hcol Hs Hc.
  - destruct i; discriminate.
  - cbn [Alerter.alerts_loop].
    assert (Hgrow : forall n' db',
              exists news,
                alerts (durable (snd (Alerter.alerts_loop self envs (S k) todo n'
                                        (open_session db'))))
                = alerts db' ++ news).
    { intros n' db'. destruct (alerts_loop_account self envs todo (S k) n' db')
        as (news & E & _). exists news. rewrite E. reflexivity. }
    destruct i as [ | i ].
    + injection Hi as ->. rewrite Nat.add_0_r.
      destruct (send_step self (envs k) p db)
        as [((r & Hin & Ha & Hr) & E) | [(_ & e & Ef & E) | (_ & msg & _ & E)]].
      * rewrite E. destruct (Hgrow n db) as (news & En).
        exists r. rewrite En. split; [ apply in_or_app; left; exact Hin | ].
        split; [ exact Ha | left; split; [ exact Hr | left; exact Hin ] ].
      * exfalso.
        destruct (proj2 (format_returns_iff (Alerter.wall (envs k)) p)) as (msg & Hm);
          [ unfold collected in Hcol; tauto | congruence ].
      * cbv zeta in E. rewrite E.
        set (sent := Alerter.send_telegram_message self (Alerter.wire (envs k)) msg) in *.
        set (a := mkAlert (asin p) "momentum_spike" msg (momentum_score p)
                    (confidence_level p) (Alerter.insert_utcnow (envs k)) sent) in *.
        assert (Hboth : forall n' : nat,
                  exists r,
                    In r (alerts (durable (snd (Alerter.alerts_loop self envs (S k) todo n'
                                                  (open_session (with_alert db a))))))
                    /\ product_asin r = asin p
                    /\ (((Alerter.utcnow (envs k) - timedelta_hours 6 < sent_at r)%Z
                         /\ (In r (alerts db)
                             \/ exists j, sent_at r = Alerter.insert_utcnow (envs j)))
                        \/ sent_at r = Alerter.insert_utcnow (envs k))).
        { intro n'. destruct (Hgrow n' (with_alert db a)) as (news & En).
          exists a. rewrite En. cbn [with_alert alerts].
          split; [ apply in_or_app; left; apply in_or_app; right; left; reflexivity | ].
          split; [ reflexivity | right; reflexivity ]. }
        destruct sent; apply Hboth.
    + cbn [nth_error] in Hi.
      replace (k + S i)%nat with (S k + i)%nat by lia.
      destruct (send_step self (envs k) q db)
        as [(_ & E) | [(_ & e & _ & E) | (_ & msg & _ & E)]].
      * rewrite E. exact (IH (S k) n db i p Hi Hcol Hs Hc).
      * rewrite E. exact (IH (S k) n db i p Hi Hcol Hs Hc).
      * cbv zeta in E. rewrite E.
        set (sent := Alerter.send_telegram_message self (Alerter.wire (envs k)) msg) in *.
        set (a := mkAlert (asin q) "momentum_spike" msg (momentum_score q)
                    (confidence_level q) (Alerter.insert_utcnow (envs k)) sent) in *.
        assert (Hboth : forall n' : nat,
                  exists r,
                    In r (alerts (durable (snd (Alerter.alerts_loop self envs (S k) todo n'
                                                  (open_session (with_alert db a))))))
                    /\ product_asin r = asin p
                    /\ (((Alerter.utcnow (envs (S k + i)%nat) - timedelta_hours 6
                          < sent_at r)%Z
                         /\ (In r (alerts db)
                             \/ exists j, sent_at r = Alerter.insert_utcnow (envs j)))
                        \/ sent_at r = Alerter.insert_utcnow (envs (S k + i)%nat))).
        { intro n'.
          destruct (IH (S k) n' (with_alert db a) i p Hi Hcol Hs Hc)
            as (r & Hin & Ha & Hr).
          exists r. split; [ exact Hin | ]. split; [ exact Ha | ].
          destruct Hr as [[Hrec [Hold | Hnew]] | Hnew];
            [ | left; split; [ exact Hrec | right; exact Hnew ] | right; exact Hnew ].
          cbn [with_alert alerts] in Hold. apply in_app_or in Hold.
          destruct Hold as [Hold | [<- | []]];
            left; (split; [ exact Hrec | ]); [ left; exact Hold | ].
          right. exists k. reflexivity. }
        destruct sent; apply Hboth.
Qed.

Lemma alert_worthy_scored (self : Alerter.TelegramAlerter) (p : Product) :
  Alerter.alert_worthy self p = true ->
  momentum_score p <> None /\ confidence_level p <> None.
Proof.
  unfold Alerter.alert_worthy. rewrite !andb_true_iff.
  destruct (momentum_score p), (confidence_level p);
    intros [[H1 H2] _]; try discriminate; split; discriminate.
Qed.

Lemma nth_error_filter {A : Type} (f : A -> bool) (l : list A) (k : nat) (x : A) :
  nth_error (filter f l) k = Some x -> In x l /\ f x = true.
Proof.
  intro H. apply nth_error_In in H. apply filter_In in H. exact H.
Qed.


(** X9.  No product that passes the filter of the check and carries the
    columns the collector writes (title, price and current rank) is left
    without a recent alert: when the clock does not run backwards by six
    hours between the dedup query and the insert, after the check the store
    holds an alert row for the product's ASIN that is newer than six hours
    before the product's dedup query, whether or not the delivery
    succeeded. *)
Theorem check_covers_every_renderable
  (self : Alerter.TelegramAlerter) (envs : nat -> Alerter.Env) (db : Store)
  (k : nat) (p : Product)
  (Hclock : forall j,
      (Alerter.utcnow (envs j) - timedelta_hours 6 < Alerter.insert_utcnow (envs j))%Z)
  (Hk : nth_error (filter (Alerter.alert_worthy self) (products db)) k = Some p)
  (Hcollected : collected p) :
  recently_alerted (snd (Main.check_alerts self envs db)) (asin p)
    (Alerter.utcnow (envs k)).
Proof.
  destruct (nth_error_filter _ _ _ _ Hk) as [_ Hw].
  destruct (alert_worthy_scored self p Hw) as [Hs Hc].
  destruct (alerts_loop_covers self envs
              (filter (Alerter.alert_worthy self) (products db)) 0 0 db k p
              Hk Hcollected Hs Hc) as (r & Hin & Ha & Hr).
  cbn [Nat.add] in Hr.
  unfold Main.check_alerts, Alerter.check_and_send_alerts. cbn [durable open_session].
  destruct (Alerter.alerts_loop self envs 0
              (filter (Alerter.alert_worthy self) (products db)) 0 (open_session db))
    as [n s]. cbn [snd close] in *.
  exists r. split; [ exact Hin | ]. split; [ exact Ha | ].
  destruct Hr as [[Hrec _] | Hnew]; [ exact Hrec | rewrite Hnew; apply Hclock ].
Qed.

(** X9, a run: the delivery fails and the purifier is recently alerted
    all the same. *)
Lemma check_covers_every_renderable_witness :
  recently_alerted
    (snd (Main.check_alerts configured_alerter
            (fun _ => env_at noon_day_100 Alerter.RaisedTelegramError) unalerted_store))
    (asin trending_purifier) noon_day_100.
Proof.
  apply (check_covers_every_renderable configured_alerter
           (fun _ => env_at noon_day_100 Alerter.RaisedTelegramError) unalerted_store
           0 trending_purifier).
  - intro j. unfold env_at. cbn [Alerter.utcnow Alerter.insert_utcnow].
    unfold timedelta_hours. lia.
  - reflexivity.
  - repeat split; discriminate.
Defined.

Lemma alerts_loop_silent
  (self : Alerter.TelegramAlerter) (envs : nat -> Alerter.Env) (todo : list Product) :
  forall (k n : nat) (db : Store),
    (forall i p,
       nth_error todo i = Some p ->
       recently_alerted db (asin p) (Alerter.utcnow (envs (k + i)%nat))
       \/ forall w, ~ exists msg, Alerter.format_momentum_alert w p = Py.Return msg) ->
    Alerter.alerts_loop self envs k todo n (open_session db) = (n, open_session db).
Proof.
  induction todo as [ | q todo IH ]; intros k n db H; [ reflexivity | ].
  cbn [Alerter.alerts_loop].
  assert (Hrest : Alerter.alerts_loop self envs (S k) todo n (open_session db)
                  = (n, open_session db)).
  { apply IH. intros i p Hi.
    replace (S k + i)%nat with (k + S i)%nat by lia. apply (H (S i) p Hi). }
  destruct (send_step self (envs k) q db)
    as [(_ & E) | [(_ & e & _ & E) | (Hq & msg & Hm & _)]].
  - rewrite E. exact Hrest.
  - rewrite E. exact Hrest.
  - exfalso. destruct (H 0%nat q eq_refl) as [Hr | Hn].
    + rewrite Nat.add_0_r in Hr. exact (Hq Hr).
    + apply (Hn (Alerter.wall (envs k))). exists msg. exact Hm.
Qed.

(** X10.  A check that follows another within the dedup window sends and
    records nothing, also for the products whose delivery failed in the
    first check: when every dedup query of the second check is less than
    six hours after every insert of the first, and the alert rows that were
    recent for the first check are still recent for the second, the second
    check returns 0 and leaves the database as the first left it. *)
Theorem second_check_is_silent
  (self : Alerter.TelegramAlerter) (envs1 envs2 : nat -> Alerter.Env) (db : Store)
  (Hsoon : forall j k,
      (Alerter.utcnow (envs2 j) - timedelta_hours 6
       < Alerter.insert_utcnow (envs1 k))%Z)
  (Hold : forall r k j,
      In r (alerts db) ->
      (Alerter.utcnow (envs1 k) - timedelta_hours 6 < sent_at r)%Z ->
      (Alerter.utcnow (envs2 j) - timedelta_hours 6 < sent_at r)%Z) :
  Main.check_alerts self envs2 (snd (Main.check_alerts self envs1 db))
  = (0%nat, snd (Main.check_alerts self envs1 db)).
Proof.
  set (todo := filter (Alerter.alert_worthy self) (products db)).
  assert (Hfirst : exists news,
             snd (Main.check_alerts self envs1 db)
             = mkStore (products db) (trends db) (alerts db ++ news)).
  { unfold Main.check_alerts, Alerter.check_and_send_alerts.
    cbn [durable open_session]. fold todo.
    destruct (alerts_loop_account self envs1 todo 0 0 db) as (news & E & _).
    exists news. rewrite E. reflexivity. }
  destruct Hfirst as (news & Hdb1).
  assert (Hcov : forall i p,
             nth_error todo i = Some p ->
             collected p ->
             forall j,
               recently_alerted (snd (Main.check_alerts self envs1 db)) (asin p)
                 (Alerter.utcnow (envs2 j))).
  { intros i p Hi Hcol j.
    destruct (nth_error_filter _ _ _ _ Hi) as [_ Hw].
    destruct (alert_worthy_scored self p Hw) as [Hs Hc].
    destruct (alerts_loop_covers self envs1 todo 0 0 db i p Hi Hcol Hs Hc)
      as (r & Hin & Ha & Hr).
    cbn [Nat.add] in Hr.
    unfold Main.check_alerts, Alerter.check_and_send_alerts.
    cbn [durable open_session]. fold todo.
    destruct (Alerter.alerts_loop self envs1 0 todo 0 (open_session db)) as [n s].
    cbn [snd close] in *.
    exists r. split; [ exact Hin | ]. split; [ exact Ha | ].
    destruct Hr as [[Hrec [Hin0 | (k' & Hnew)]] | Hnew].
    - exact (Hold r i j Hin0 Hrec).
    - rewrite Hnew. apply Hsoon.
    - rewrite Hnew. apply Hsoon. }
  unfold Main.check_alerts at 1. unfold Alerter.check_and_send_alerts.
  cbn [durable open_session].
  rewrite alerts_loop_silent; [ reflexivity | ].
  intros i p Hi. rewrite Hdb1 in Hi. cbn [products] in Hi. fold todo in Hi.
  assert (Hdec : collected p
                 \/ (title p = None \/ price p = None \/ bsr_current p = None)).
  { unfold collected.
    destruct (title p); [ | right; left; reflexivity ].
    destruct (price p); [ | right; right; left; reflexivity ].
    destruct (bsr_current p); [ | right; right; right; reflexivity ].
    left. repeat split; discriminate. }
  destruct Hdec as [Hcol | Hmiss].
  - left. apply (Hcov i p Hi Hcol).
  - right. intros w Hf. apply format_returns_iff in Hf. tauto.
Qed.

(** X10, a run: the delivery of noon fails, the check of one o'clock keeps
    silent. *)
Lemma second_check_is_silent_witness :
  Main.check_alerts configured_alerter
    (fun _ => env_at (noon_day_100 + timedelta_hours 1) Alerter.Sent)
    (snd (Main.check_alerts configured_alerter
            (fun _ => env_at noon_day_100 Alerter.RaisedTelegramError) unalerted_store))
  = (0%nat,
     snd (Main.check_alerts configured_alerter
            (fun _ => env_at noon_day_100 Alerter.RaisedTelegramError) unalerted_store)).
Proof.
  apply (second_check_is_silent configured_alerter
           (fun _ => env_at noon_day_100 Alerter.RaisedTelegramError)
           (fun _ => env_at (noon_day_100 + timedelta_hours 1) Alerter.Sent)
           unalerted_store).
  - intros j k. unfold env_at. cbn [Alerter.utcnow Alerter.insert_utcnow].
    unfold timedelta_hours. lia.
  - intros r k j [].
Defined.

Lemma product_lines_titled (l : list Product) :
  forall i : nat,
    Forall (fun p => momentum_score p <> None) l ->
    Forall (fun p => title p <> None) l ->
    exists lines, Alerter.product_lines i l = Py.Return lines.
Proof.
  induction l as [ | p l IH ]; intros i Hs Ht; [ exists EmptyString; reflexivity | ].
  inversion Hs as [ | p' l' Hp Hl ]; subst. inversion Ht as [ | p' l' Hp' Hl' ]; subst.
  cbn [Alerter.product_lines].
  destruct (momentum_score p) as [score | ]; [ | congruence ].
  destruct (title p) as [t | ]; [ | congruence ].
  destruct (IH (S i) Hl Hl') as (lines & ->). eexists. reflexivity.
Qed.

Lemma product_lines_untitled (l : list Product) :
  forall i : nat,
    Exists (fun p => title p = None) l ->
    Alerter.product_lines i l = Py.Raise Py.TypeError.
Proof.
  induction l as [ | p l IH ]; intros i H; inversion H as [ p' l' Hp | p' l' Hl ]; subst;
    cbn [Alerter.product_lines].
  - rewrite Hp. destruct (momentum_score p); reflexivity.
  - destruct (momentum_score p); [ | reflexivity ].
    destruct (title p); [ | reflexivity ].
    rewrite (IH (S i) Hl). reflexivity.
Qed.

Lemma digest_products_scored (now : datetime) (db : Store) :
  Forall (fun p => momentum_score p <> None) (Alerter.digest_products now db).
Proof.
  destruct (query_top Product Alerter.score_geb score_geb_total score_geb_trans
              10 (Alerter.top_product_filter (now - timedelta_days 1)) (products db))
    as (_ & _ & Hsel & _).
  eapply Forall_impl; [ | exact Hsel ].
  intros p Hp. unfold Alerter.top_product_filter in Hp.
  apply andb_true_iff in Hp. destruct Hp as [_ Hp].
  destruct (momentum_score p); [ discriminate | discriminate ].
Qed.

Lemma forall_firstn {A : Type} (P : A -> Prop) (n : nat) (l : list A) :
  Forall P l -> Forall P (firstn n l).
Proof.
  rewrite !Forall_forall. intros H x Hx. apply H. exact (in_firstn n x l Hx).
Qed.

(** X11.  The daily digest fails exactly on a missing title among the rows
    it shows: when each of the first five selected products has a title the
    summary is rendered and handed to the transport, whose answer is the
    result; when one of them has none, building the summary raises
    [TypeError] and nothing is sent.  A missing score cannot occur, the
    query selects scored rows only. *)
Theorem digest_fails_only_on_untitled
  (self : Alerter.TelegramAlerter) (env : Alerter.Env) (db : Store) :
  let shown := firstn 5 (Alerter.digest_products (Alerter.utcnow env) db) in
  Forall (fun p => momentum_score p <> None) shown
  /\ (Forall (fun p => title p <> None) shown ->
      exists msg,
        Alerter.build_digest env db = Py.Return msg
        /\ Alerter.send_daily_digest self env db
           = Py.Return (Alerter.send_telegram_message self (Alerter.wire env) msg))
  /\ (Exists (fun p => title p = None) shown ->
      Alerter.build_digest env db = Py.Raise Py.TypeError
      /\ Alerter.send_daily_digest self env db = Py.Raise Py.TypeError).
Proof.
  intro shown.
  assert (Hs : Forall (fun p => momentum_score p <> None) shown)
    by (apply forall_firstn; apply digest_products_scored).
  split; [ exact Hs | ].
  unfold Alerter.send_daily_digest, Alerter.build_digest, Alerter.format_trends_digest.
  fold shown. split.
  - intro Ht. destruct (product_lines_titled shown 1 Hs Ht) as (lines & El).
    rewrite El.
    destruct (Alerter.digest_products (Alerter.utcnow env) db);
      cbn [Py.bind]; eexists; split; reflexivity.
  - intro Hex. rewrite (product_lines_untitled shown 1 Hex).
    destruct (Alerter.digest_products (Alerter.utcnow env) db) as [ | p l ] eqn:E.
    + subst shown. inversion Hex.
    + split; reflexivity.
Qed.

(** X11, a run: the only selected row has a title. *)
Lemma digest_fails_only_on_untitled_witness :
  exists msg,
    Alerter.build_digest (env_at noon_day_100 Alerter.Sent) digest_store = Py.Return msg
    /\ Alerter.send_daily_digest configured_alerter
         (env_at noon_day_100 Alerter.Sent) digest_store
       = Py.Return
           (Alerter.send_telegram_message configured_alerter
              (Alerter.wire (env_at noon_day_100 Alerter.Sent)) msg).
Proof.
  apply (digest_fails_only_on_untitled configured_alerter
           (env_at noon_day_100 Alerter.Sent) digest_store).
  repeat constructor; discriminate.
Defined.

(** X12.  The digest queries select up to ten rows each and the summary
    shows five: [format_trends_digest] gives the same text, or the same
    error, for two lists as for their first five entries. *)
Theorem digest_shows_first_five
  (now : Alerter.WallClock) (top_products : list Product)
  (trending_keywords : list Alerter.KeywordEntry) :
  Alerter.format_trends_digest now top_products trending_keywords
  = Alerter.format_trends_digest now (firstn 5 top_products)
      (firstn 5 trending_keywords).
Proof.
  unfold Alerter.format_trends_digest.
  rewrite !firstn_firstn. change (Nat.min 5 5) with 5%nat.
  destruct top_products as [ | p ps ]; destruct trending_keywords as [ | t ts ];
    reflexivity.
Qed.

Lemma prefix_append (a b : string) : String.prefix a (a ++ b) = true.
Proof.
  induction a as [ | c a IH ]; simpl; [ destruct b; reflexivity | ].
  destruct (ascii_dec c c) as [_ | Hne]; [ exact IH | congruence ].
Qed.

(** X13.  An alert for a product that passes the filter of the check is
    headed by the rocket from a score of 80 on and by the rising chart
    below: with a threshold of 60 or more, the third marker of
    [format_momentum_alert], for scores under 60, is never used. *)
Theorem gated_alert_markers
  (self : Alerter.TelegramAlerter) (w : Alerter.WallClock) (p : Product) (msg : string)
  (Hthreshold : 60 <= Alerter.momentum_threshold self)
  (Hworthy : Alerter.alert_worthy self p = true)
  (Hmsg : Alerter.format_momentum_alert w p = Py.Return msg) :
  exists score,
    momentum_score p = Some score
    /\ (80 <= score -> String.prefix Alerter.emoji_rocket msg = true)
    /\ (score < 80 -> String.prefix Alerter.emoji_chart_up msg = true).
Proof.
  unfold Alerter.alert_worthy in Hworthy. rewrite !andb_true_iff in Hworthy.
  destruct Hworthy as [[Hscore _] _].
  unfold Alerter.format_momentum_alert in Hmsg.
  destruct (momentum_score p) as [score | ]; [ | discriminate ].
  apply ge_true in Hscore.
  assert (H60 : Py.ge score 60 = true) by (apply ge_true; lra).
  exists score. split; [ reflexivity | ].
  destruct (title p); [ | discriminate ].
  destruct (price p); [ | discriminate ].
  destruct (confidence_level p); [ | discriminate ].
  destruct (bsr_current p); [ | discriminate ].
  injection Hmsg as <-. rewrite H60.
  split; intro H.
  - apply ge_true in H. rewrite H. apply prefix_append.
  - assert (H80 : Py.ge score 80 = false) by (apply ge_false; exact H).
    rewrite H80. apply prefix_append.
Qed.

(** X13, a run: the purifier scored 85. *)
Lemma gated_alert_markers_witness :
  exists msg,
    Alerter.format_momentum_alert nine_o_clock trending_purifier = Py.Return msg
    /\ String.prefix Alerter.emoji_rocket msg = true.
Proof.
  eexists. split; [ reflexivity | ].
  destruct (gated_alert_markers configured_alerter nine_o_clock trending_purifier _
              ltac:(vm_compute; discriminate) eq_refl eq_refl)
    as (score & Hs & H80 & _).
  injection Hs as <-. apply H80. vm_compute. discriminate.
Defined.

(* ================================================================== *)
(** * The collectors, the dashboard and the scheduled jobs             *)
(* ================================================================== *)

Lemma is_space_lower (c : ascii) : Py.is_space (Py.lower_char c) = Py.is_space c.
Proof. destruct c as [[] [] [] [] [] [] [] []]; reflexivity. Qed.

Lemma lower_of_list (l : list ascii) :
  Py.lower (string_of_list_ascii l) = string_of_list_ascii (map Py.lower_char l).
Proof.
  induction l as [ | c l IH ]; [ reflexivity | ].
  unfold Py.lower in *. simpl. rewrite IH. reflexivity.
Qed.

Lemma lower_append (a b : string) :
  Py.lower (a ++ b) = (Py.lower a ++ Py.lower b)%string.
Proof.
  unfold Py.lower. induction a as [ | c a IH ]; [ reflexivity | ].
  simpl. rewrite IH. reflexivity.
Qed.

Lemma split_from_lower (s : string) :
  forall cur : list ascii,
    Py.split_from (map Py.lower_char cur) (Py.lower s)
    = map Py.lower (Py.split_from cur s).
Proof.
  induction s as [ | c s IH ]; intro cur.
  - cbn [Py.lower Py.map_string Py.split_from].
    destruct cur as [ | d cur ]; [ reflexivity | ].
    cbn [map]. rewrite lower_of_list, map_rev. reflexivity.
  - change (Py.lower (String c s)) with (String (Py.lower_char c) (Py.lower s)).
    cbn [Py.split_from]. rewrite is_space_lower.
    destruct (Py.is_space c).
    + pose proof (IH []) as IH0. cbn [map] in IH0. rewrite IH0.
      destruct cur as [ | d cur ]; [ reflexivity | ].
      cbn [map]. rewrite lower_of_list, map_rev. reflexivity.
    + exact (IH (c :: cur)).
Qed.

Lemma join_lower (words : list string) :
  Py.lower (Py.join " " words) = Py.join " " (map Py.lower words).
Proof.
  induction words as [ | w ws IH ]; [ reflexivity | ].
  destruct ws as [ | w' ws ]; [ reflexivity | ].
  change (Py.join " " (w :: w' :: ws)) with (w ++ " " ++ Py.join " " (w' :: ws))%string.
  rewrite !lower_append, IH. reflexivity.
Qed.

Lemma keyword_agrees (t : string) :
  Engine.keyword_of_title t = TrendsCollector.title_keyword t.
Proof.
  unfold Engine.keyword_of_title, TrendsCollector.title_keyword, Py.split.
  rewrite join_lower, <- firstn_map.
  rewrite <- (split_from_lower t []). reflexivity.
Qed.

Lemma set_add_in (k k' : string) (keywords : list string) :
  In k' (TrendsCollector.set_add k keywords) <-> k' = k \/ In k' keywords.
Proof.
  unfold TrendsCollector.set_add.
  destruct (existsb (String.eqb k) keywords) eqn:E.
  - split; [ intro H; right; exact H | ].
    intros [-> | H]; [ | exact H ].
    apply existsb_exists in E. destruct E as (x & Hx & Ex).
    apply String.eqb_eq in Ex. subst. exact Hx.
  - rewrite in_app_iff. simpl. intuition congruence.
Qed.

Lemma set_add_nodup (k : string) (keywords : list string) :
  NoDup keywords -> NoDup (TrendsCollector.set_add k keywords).
Proof.
  intro H. unfold TrendsCollector.set_add.
  destruct (existsb (String.eqb k) keywords) eqn:E; [ exact H | ].
  apply NoDup_rev in H. rewrite <- (rev_involutive (keywords ++ [k])).
  apply NoDup_rev. rewrite rev_app_distr. simpl. constructor; [ | exact H ].
  intro Hin. apply in_rev in Hin.
  assert (existsb (String.eqb k) keywords = true)
    by (apply existsb_exists; exists k; split; [ exact Hin | apply String.eqb_refl ]).
  congruence.
Qed.

Lemma extract_fold (rows : list Product) :
  forall acc : list string,
    let result :=
      fold_left
        (fun keywords product =>
           match title product with
           | Some t =>
               if negb (String.eqb t EmptyString)
               then TrendsCollector.set_add (TrendsCollector.title_keyword t) keywords
               else keywords
           | None => keywords
           end) rows acc in
    (NoDup acc -> NoDup result)
    /\ forall k,
         In k result
         <-> In k acc
             \/ exists p t, In p rows /\ title p = Some t /\ t <> EmptyString
                            /\ k = TrendsCollector.title_keyword t.
Proof.
  induction rows as [ | p rows IH ]; intro acc; cbn [fold_left].
  - split; [ tauto | ]. intro k. split; [ tauto | ].
    intros [H | (p & t & [] & _)]. exact H.
  - destruct (title p) as [t | ] eqn:Et.
    + destruct (String.eqb t EmptyString) eqn:Ee; cbn [negb].
      * destruct (IH acc) as [Hn Hi]. split; [ exact Hn | ].
        intro k. rewrite (Hi k). split; intros [H | (q & u & Hq & Hu & Hne & Hk)];
          try (left; exact H).
        -- right. exists q, u. split; [ right; exact Hq | tauto ].
        -- destruct Hq as [<- | Hq].
           ++ rewrite Et in Hu. injection Hu as <-. apply String.eqb_eq in Ee. contradiction.
           ++ right. exists q, u. tauto.
      * destruct (IH (TrendsCollector.set_add (TrendsCollector.title_keyword t) acc))
          as [Hn Hi].
        split; [ intro H; apply Hn; apply set_add_nodup; exact H | ].
        intro k. rewrite (Hi k), set_add_in.
        split; intros [H | (q & u & Hq & Hu & Hne & Hk)].
        -- destruct H as [-> | H]; [ | left; exact H ].
           right. exists p, t. split; [ left; reflexivity | ].
           split; [ exact Et | ]. split; [ | reflexivity ].
           intros ->. discriminate.
        -- right. exists q, u. split; [ right; exact Hq | tauto ].
        -- left. right. exact H.
        -- destruct Hq as [<- | Hq].
           ++ rewrite Et in Hu. injection Hu as <-. left. left. exact Hk.
           ++ right. exists q, u. tauto.
    + destruct (IH acc) as [Hn Hi]. split; [ exact Hn | ].
      intro k. rewrite (Hi k). split; intros [H | (q & u & Hq & Hu & Hne & Hk)];
        try (left; exact H).
      * right. exists q, u. split; [ right; exact Hq | tauto ].
      * destruct Hq as [<- | Hq]; [ congruence | ].
        right. exists q, u. tauto.
Qed.

(** X14.  The trends collector and the scoring engine name a product's
    search keyword alike, although one lowers the title before splitting it
    and the other after joining the words: the keywords the collector
    extracts are, without repetition, exactly the keywords under which the
    engine looks up the first fifty products that have a title. *)
Theorem collector_keywords_are_engine_keywords (db : Store) :
  (forall t : string, Engine.keyword_of_title t = TrendsCollector.title_keyword t)
  /\ NoDup (TrendsCollector.extract_keywords_from_products db)
  /\ forall k : string,
       In k (TrendsCollector.extract_keywords_from_products db)
       <-> exists p t,
             In p (firstn 50 (products db))
             /\ title p = Some t /\ t <> EmptyString
             /\ k = Engine.keyword_of_title t.
Proof.
  split; [ exact keyword_agrees | ].
  unfold TrendsCollector.extract_keywords_from_products.
  destruct (extract_fold (firstn 50 (products db)) []) as [Hn Hi].
  split; [ apply Hn; constructor | ].
  intro k. rewrite (Hi k). split.
  - intros [[] | (p & t & Hp & Ht & Hne & Hk)].
    exists p, t. rewrite keyword_agrees. tauto.
  - intros (p & t & Hp & Ht & Hne & Hk). right.
    exists p, t. rewrite <- keyword_agrees. tauto.
Qed.

Lemma bucket_of_score (s : Q) :
  (Py.ge s 70 = true /\ (Py.ge s 40 && Py.lt s 70) = false /\ Py.lt s 40 = false)
  \/ (Py.ge s 70 = false /\ (Py.ge s 40 && Py.lt s 70) = true /\ Py.lt s 40 = false)
  \/ (Py.ge s 70 = false /\ (Py.ge s 40 && Py.lt s 70) = false /\ Py.lt s 40 = true).
Proof.
  unfold Py.lt.
  destruct (Py.ge s 70) eqn:E70; destruct (Py.ge s 40) eqn:E40;
    destruct (Py.gt 70 s) eqn:G70; destruct (Py.gt 40 s) eqn:G40; cbn [andb];
    try (left; repeat split; reflexivity);
    try (right; left; repeat split; reflexivity);
    try (right; right; repeat split; reflexivity);
    exfalso;
    repeat match goal with
           | H : Py.ge _ _ = true |- _ => apply ge_true in H
           | H : Py.ge _ _ = false |- _ => apply ge_false in H
           | H : Py.gt _ _ = true |- _ => apply gt_true in H
           | H : Py.gt _ _ = false |- _ => apply gt_false in H
           end; lra.
Qed.

Lemma buckets_add_up (rows : list Product) :
  (Dashboard.count (Dashboard.score_is (fun s => Py.ge s 70)) rows
   + Dashboard.count (Dashboard.score_is (fun s => Py.ge s 40 && Py.lt s 70)) rows
   + Dashboard.count (Dashboard.score_is (fun s => Py.lt s 40)) rows)%nat
  = Dashboard.count (Dashboard.score_is (fun _ => true)) rows
  /\ (Dashboard.count (Dashboard.score_is (fun _ => true)) rows
      <= List.length rows)%nat.
Proof.
  unfold Dashboard.count, Dashboard.score_is.
  induction rows as [ | p l [IH1 IH2] ]; [ split; reflexivity | ].
  cbn [filter].
  destruct (momentum_score p) as [s | ].
  - destruct (bucket_of_score s) as [(E1 & E2 & E3) | [(E1 & E2 & E3) | (E1 & E2 & E3)]];
      rewrite E1, E2, E3; cbn [List.length]; split; lia.
  - cbn [List.length]. split; lia.
Qed.

(** X15.  The momentum distribution of [get_stats] sorts every scored
    product into exactly one of its three buckets and leaves the unscored
    ones out: high, medium and low add up to the number of rows with a
    score, which is at most [total_products]. *)
Theorem stats_buckets_partition (now : datetime) (db : Store) :
  let stats := Dashboard.get_stats now db in
  (Dashboard.high stats + Dashboard.medium stats + Dashboard.low stats)%nat
  = Dashboard.count (Dashboard.score_is (fun _ => true)) (products db)
  /\ (Dashboard.high stats + Dashboard.medium stats + Dashboard.low stats
      <= Dashboard.total_products stats)%nat.
Proof.
  cbv zeta. unfold Dashboard.get_stats.
  cbn [Dashboard.high Dashboard.medium Dashboard.low Dashboard.total_products].
  destruct (buckets_add_up (products db)) as [H1 H2].
  split; [ exact H1 | rewrite H1; exact H2 ].
Qed.

Lemma rescored_counts
  (log10 : Q -> Q) (clock : nat -> datetime) (db : Store) (olds : list Product) :
  forall (k : nat) (news : list Product),
    rescored_from log10 clock db k olds news ->
    Main.count_high_momentum news = Py.Return (Dashboard.count is_trending news)
    /\ Dashboard.count (Dashboard.score_is (fun _ => true)) news = List.length news.
Proof.
  unfold Dashboard.count.
  induction olds as [ | old olds IH ]; intros k [ | new news ] H;
    simpl in H; try contradiction; [ split; reflexivity | ].
  destruct H as [(score & conf & _ & ->) H].
  destruct (IH _ _ H) as [E1 E2].
  cbn [Main.count_high_momentum filter Engine.with_momentum momentum_score is_trending].
  unfold Dashboard.score_is at 1.
  cbn [Engine.with_momentum momentum_score].
  rewrite E1. cbn [Py.bind].
  destruct (Py.gt score 60); cbn [List.length]; rewrite E2; split; reflexivity.
Qed.

(** X16.  After a scoring job that the store answered throughout, the
    dashboard statistics agree with the job's log line: the job logs
    [Updated n h] where [n] is [total_products] and [h] is
    [trending_products], and the three buckets of the momentum distribution
    add up to [total_products]. *)
Theorem stats_agree_with_scoring_log
  (log10 : Q -> Q) (clock : nat -> datetime) (store_up : nat -> bool)
  (now : datetime) (db : Store)
  (Hup : forall k, (k < List.length (products db))%nat -> store_up k = true) :
  let result := Main.update_momentum_scores log10 clock store_up db in
  let stats := Dashboard.get_stats now (snd result) in
  fst result
  = Main.Updated (Dashboard.total_products stats) (Dashboard.trending_products stats)
  /\ snd result = Engine.scoring_run log10 clock store_up db
  /\ Dashboard.total_products stats = List.length (products db)
  /\ (Dashboard.high stats + Dashboard.medium stats + Dashboard.low stats)%nat
     = Dashboard.total_products stats.
Proof.
  cbv zeta.
  assert (Hpart : forall db' : Store,
             (Dashboard.high (Dashboard.get_stats now db')
              + Dashboard.medium (Dashboard.get_stats now db')
              + Dashboard.low (Dashboard.get_stats now db'))%nat
             = Dashboard.count (Dashboard.score_is (fun _ => true)) (products db')).
  { intro db'. unfold Dashboard.get_stats.
    cbn [Dashboard.high Dashboard.medium Dashboard.low].
    apply buckets_add_up. }
  rewrite Hpart. clear Hpart.
  unfold Main.update_momentum_scores, Engine.scoring_run.
  destruct (batch_update_outcome log10 clock store_up db)
    as [((k & Hk & Hd) & _) | (_ & u & Hu & Hdur & Hres)];
    [ rewrite Hup in Hd by exact Hk; discriminate | ].
  destruct (Engine.batch_update_momentum_scores log10 clock store_up (open_session db))
    as [o s]. cbn [fst snd] in Hu, Hdur. subst o.
  destruct (rescored_counts log10 clock db _ _ _ Hres) as [Ec Es].
  destruct (rescored_consistent log10 clock db _ _ _ Hres) as [_ Hlen].
  rewrite Ec. cbn [fst snd]. unfold close. rewrite Hdur.
  unfold Dashboard.get_stats.
  cbn [Dashboard.total_products Dashboard.trending_products products].
  rewrite Es, Hlen. repeat split; reflexivity.
Qed.

(** X16, a run: both rows of the store are scored, one is trending. *)
Lemma stats_agree_with_scoring_log_witness :
  fst (Main.update_momentum_scores floor_log10 (fun _ => noon_day_100) (fun _ => true)
         hot_store)
  = Main.Updated 2 1.
Proof.
  destruct (stats_agree_with_scoring_log floor_log10 (fun _ => noon_day_100)
              (fun _ => true) noon_day_100 hot_store (fun k _ => eq_refl))
    as (E & _).
  rewrite E. vm_compute. reflexivity.
Defined.

Lemma firstn_add {A : Type} (n m : nat) (l : list A) :
  firstn (n + m) l = firstn n l ++ firstn m (skipn n l).
Proof.
  revert l. induction n as [ | n IH ]; intro l; [ reflexivity | ].
  destruct l as [ | x l ]; simpl; [ rewrite firstn_nil; reflexivity | ].
  rewrite IH. reflexivity.
Qed.

Lemma skipn_add {A : Type} (n m : nat) (l : list A) :
  skipn (n + m) l = skipn m (skipn n l).
Proof.
  revert l. induction n as [ | n IH ]; intro l; [ reflexivity | ].
  destruct l as [ | x l ]; simpl; [ rewrite skipn_nil; reflexivity | apply IH ].
Qed.

(** X17.  The pages of [get_products] fit together: for non-negative
    [skip], [n] and [m], the page of [n] rows at offset [skip] followed by
    the page of [m] rows at offset [skip + n] is the page of [n + m] rows
    at offset [skip]; and the unlimited page from offset 0 lists every row
    of the table (every trending row with [trending_only]) exactly once,
    scored rows first in descending order of score. *)
Theorem product_pages_compose
  (skip n m : Z) (trending_only : bool) (db : Store) :
  ((0 <= skip)%Z -> (0 <= n)%Z -> (0 <= m)%Z ->
   Dashboard.get_products skip n trending_only db
   ++ Dashboard.get_products (skip + n) m trending_only db
   = Dashboard.get_products skip (n + m) trending_only db)
  /\ Permutation
       (Dashboard.get_products 0 (-1) trending_only db)
       (if trending_only then filter is_trending (products db) else products db)
  /\ StronglySorted (fun a b => Alerter.score_geb a b = true)
       (Dashboard.get_products 0 (-1) trending_only db).
Proof.
  unfold Dashboard.get_products, TrendsCollector.sql_limit, TrendsCollector.sql_offset.
  set (rows := order_by_desc Alerter.score_geb
                 (if trending_only then filter is_trending (products db)
                  else products db)).
  split; [ | split ].
  - intros Hs Hn Hm.
    assert (E1 : (n <? 0)%Z = false) by (apply Z.ltb_ge; exact Hn).
    assert (E2 : (m <? 0)%Z = false) by (apply Z.ltb_ge; exact Hm).
    assert (E3 : (n + m <? 0)%Z = false) by (apply Z.ltb_ge; lia).
    rewrite E1, E2, E3.
    rewrite !Z2Nat.inj_add by assumption.
    rewrite firstn_add, skipn_add. reflexivity.
  - cbn. apply Permutation_sym. apply order_by_desc_perm.
  - cbn. apply order_by_desc_sorted; [ exact score_geb_total | exact score_geb_trans ].
Qed.

(** X17, a run: the first row and the next two make the page of three. *)
Lemma product_pages_compose_witness :
  Dashboard.get_products 0 1 false mixed_store
  ++ Dashboard.get_products (0 + 1) 2 false mixed_store
  = Dashboard.get_products 0 (1 + 2) false mixed_store.
Proof.
  apply (product_pages_compose 0 1 2 false mixed_store); lia.
Defined.

Lemma demo_entries_asins
  (draws : nat -> AmazonCollector.Draw) (clock : nat -> datetime)
  (infos : list (string * string * string)) :
  forall k : nat,
    map AmazonCollector.pd_asin (AmazonCollector.demo_entries draws clock k infos)
    = map (fun info => fst (fst info)) infos.
Proof.
  induction infos as [ | [[a t] c] infos IH ]; intro k; [ reflexivity | ].
  cbn [AmazonCollector.demo_entries map]. rewrite IH. reflexivity.
Qed.

Lemma demo_asins_nodup : NoDup demo_asins.
Proof.
  assert (E : nodup string_dec demo_asins = demo_asins) by (vm_compute; reflexivity).
  rewrite <- E. apply NoDup_nodup.
Qed.

Lemma asin_taken_app (a : string) (rows more : list Product) :
  AmazonCollector.asin_taken a (rows ++ more)
  = AmazonCollector.asin_taken a rows || AmazonCollector.asin_taken a more.
Proof. unfold AmazonCollector.asin_taken. apply existsb_app. Qed.

Lemma asin_taken_in (a : string) (rows : list Product) :
  AmazonCollector.asin_taken a rows = true <-> In a (map asin rows).
Proof.
  unfold AmazonCollector.asin_taken. rewrite existsb_exists, in_map_iff.
  split; intros (p & H1 & H2).
  - exists p. apply String.eqb_eq in H2. tauto.
  - exists p. split; [ tauto | apply String.eqb_eq; tauto ].
Qed.

Lemma insert_loop_adds
  (clock : nat -> datetime) (todo : list AmazonCollector.ProductData) :
  forall (k n : nat) (db : Store),
    NoDup (map AmazonCollector.pd_asin todo) ->
    exists added,
      AmazonCollector.insert_loop clock k todo n (open_session db)
      = ((n + List.length added)%nat,
         open_session (mkStore (products db ++ added) (trends db) (alerts db)))
      /\ map asin added
         = filter (fun a => negb (AmazonCollector.asin_taken a (products db)))
             (map AmazonCollector.pd_asin todo)
      /\ Forall (fun row => momentum_score row = None /\ is_trending row = false) added.
Proof.
  induction todo as [ | pd todo IH ]; intros k n db Hnd.
  - exists []. cbn [AmazonCollector.insert_loop map filter List.length].
    rewrite Nat.add_0_r, app_nil_r. destruct db. repeat split. constructor.
  - cbn [map] in Hnd. inversion Hnd as [ | a l Hnotin Hnd' ]; subst.
    cbn [AmazonCollector.insert_loop durable working open_session map filter].
    destruct (AmazonCollector.asin_taken (AmazonCollector.pd_asin pd) (products db))
      eqn:Et; cbn [negb].
    + exact (IH (S k) n db Hnd').
    + set (row := AmazonCollector.new_product
                    (AmazonCollector.next_id (products db)) pd (clock k)).
      change (commit
                (mkSession db
                   (mkStore (products db ++ [row]) (trends db) (alerts db))))
        with (open_session (mkStore (products db ++ [row]) (trends db) (alerts db))).
      destruct (IH (S k) (S n) (mkStore (products db ++ [row]) (trends db) (alerts db))
                  Hnd') as (added & E & Hmap & Hall).
      exists (row :: added). rewrite E. cbn [products trends alerts].
      rewrite <- app_assoc. cbn [app List.length map].
      split; [ f_equal; lia | ].
      split.
      * f_equal. rewrite Hmap. apply filter_ext_in. intros a Ha.
        cbn [products]. rewrite asin_taken_app. cbn [AmazonCollector.asin_taken existsb].
        assert (Hne : String.eqb (asin row) a = false).
        { apply String.eqb_neq. intros <-. apply Hnotin. exact Ha. }
        rewrite Hne. cbn [orb]. rewrite orb_false_r. reflexivity.
      * constructor; [ split; reflexivity | exact Hall ].
Qed.

Lemma update_product_database_adds
  (draws : nat -> AmazonCollector.Draw) (clock insert_clock : nat -> datetime)
  (db : Store) :
  exists added,
    AmazonCollector.update_product_database draws clock insert_clock (open_session db)
    = (List.length added,
       open_session (mkStore (products db ++ added) (trends db) (alerts db)))
    /\ map asin added
       = filter (fun a => negb (AmazonCollector.asin_taken a (products db))) demo_asins
    /\ Forall (fun row => momentum_score row = None /\ is_trending row = false) added.
Proof.
  unfold AmazonCollector.update_product_database,
    AmazonCollector.get_real_products_for_demo.
  destruct (insert_loop_adds insert_clock
              (AmazonCollector.demo_entries draws clock 0 AmazonCollector.real_products)
              0 0 db) as (added & E & Hmap & Hall).
  { rewrite demo_entries_asins. exact demo_asins_nodup. }
  rewrite demo_entries_asins in Hmap. fold demo_asins in Hmap.
  exists added. split; [ exact E | ]. split; [ exact Hmap | exact Hall ].
Qed.

(** X18.  The Amazon collector only ever inserts: a run appends one
    unscored row for each ASIN of its fixed list that the table does not
    hold yet, in list order, returns the number of rows it appended, and
    leaves the rows that were there, their ranks included, as they were;
    ASINs that were unique stay unique. *)
Theorem collector_adds_missing_products
  (draws : nat -> AmazonCollector.Draw) (clock insert_clock : nat -> datetime)
  (db : Store) :
  exists added,
    AmazonCollector.update_product_database draws clock insert_clock (open_session db)
    = (List.length added,
       open_session (mkStore (products db ++ added) (trends db) (alerts db)))
    /\ map asin added
       = filter (fun a => negb (AmazonCollector.asin_taken a (products db))) demo_asins
    /\ Forall (fun row => momentum_score row = None /\ is_trending row = false) added
    /\ (NoDup (map asin (products db)) -> NoDup (map asin (products db ++ added))).
Proof.
  destruct (update_product_database_adds draws clock insert_clock db)
    as (added & E & Hmap & Hall).
  exists added. split; [ exact E | ]. split; [ exact Hmap | ]. split; [ exact Hall | ].
  intro Hnd. rewrite map_app. apply NoDup_app; [ exact Hnd | | ].
  - rewrite Hmap. apply NoDup_filter. exact demo_asins_nodup.
  - intros a Ha Hb. rewrite Hmap in Hb. apply filter_In in Hb.
    destruct Hb as [_ Hb]. apply negb_true_iff in Hb.
    apply asin_taken_in in Ha. congruence.
Qed.

Lemma filter_none {A : Type} (f : A -> bool) (l : list A) :
  (forall a, In a l -> f a = false) -> filter f l = [].
Proof.
  induction l as [ | x l IH ]; intro H; [ reflexivity | ].
  simpl. rewrite (H x) by (left; reflexivity).
  apply IH. intros a Ha. apply H. right. exact Ha.
Qed.

(** X19.  A second run of the Amazon collector changes nothing, whatever
    it draws: after one run every ASIN of the fixed list is in the table,
    so each insert of the next run breaks the unique index and is rolled
    back; the run returns 0 and the ranks of the first run stay. *)
Theorem collector_rerun_adds_nothing
  (draws draws' : nat -> AmazonCollector.Draw)
  (clock insert_clock clock' insert_clock' : nat -> datetime) (db : Store) :
  let first :=
    AmazonCollector.update_product_database draws clock insert_clock
      (open_session db) in
  AmazonCollector.update_product_database draws' clock' insert_clock' (snd first)
  = (0%nat, snd first).
Proof.
  cbv zeta.
  destruct (update_product_database_adds draws clock insert_clock db)
    as (added & E & Hmap & _).
  rewrite E. cbn [snd].
  set (db1 := mkStore (products db ++ added) (trends db) (alerts db)).
  unfold AmazonCollector.update_product_database,
    AmazonCollector.get_real_products_for_demo.
  destruct (insert_loop_adds insert_clock'
              (AmazonCollector.demo_entries draws' clock' 0 AmazonCollector.real_products)
              0 0 db1) as (added' & E' & Hmap' & _).
  { rewrite demo_entries_asins. exact demo_asins_nodup. }
  rewrite demo_entries_asins in Hmap'. fold demo_asins in Hmap'.
  assert (Hnone : filter (fun a => negb (AmazonCollector.asin_taken a (products db1)))
                    demo_asins = []).
  { apply filter_none. intros a Ha. apply negb_false_iff.
    unfold db1. cbn [products]. rewrite asin_taken_app.
    destruct (AmazonCollector.asin_taken a (products db)) eqn:Et; [ reflexivity | ].
    cbn [orb]. apply asin_taken_in. rewrite Hmap. apply filter_In.
    split; [ exact Ha | rewrite Et; reflexivity ]. }
  rewrite Hnone in Hmap'. apply map_eq_nil in Hmap'. subst added'.
  rewrite E'. cbn [List.length Nat.add]. rewrite app_nil_r. reflexivity.
Qed.

Lemma lower_char_idem (c : ascii) : Py.lower_char (Py.lower_char c) = Py.lower_char c.
Proof. destruct c as [[] [] [] [] [] [] [] []]; reflexivity. Qed.

Lemma lower_idem (s : string) : Py.lower (Py.lower s) = Py.lower s.
Proof.
  unfold Py.lower. induction s as [ | c s IH ]; [ reflexivity | ].
  simpl. rewrite lower_char_idem, IH. reflexivity.
Qed.

(** X20.  The keyword sentiment is a share: it lies between 0 and 1, is
    1/2 when the text holds none of the listed words, 1 when it holds
    listed positive words only and 0 when it holds listed negative words
    only, and lowering the text beforehand does not change it. *)
Theorem sentiment_is_a_share (text : string) :
  let positive :=
    SocialCollector.count_present SocialCollector.positive_words (Py.lower text) in
  let negative :=
    SocialCollector.count_present SocialCollector.negative_words (Py.lower text) in
  let sentiment := SocialCollector.analyze_social_sentiment text in
  0 <= sentiment /\ sentiment <= 1
  /\ (positive = 0%nat -> negative = 0%nat -> sentiment = 1 # 2)
  /\ ((0 < positive)%nat -> negative = 0%nat -> sentiment == 1)
  /\ (positive = 0%nat -> (0 < negative)%nat -> sentiment == 0)
  /\ SocialCollector.analyze_social_sentiment (Py.lower text) = sentiment.
Proof.
  cbv zeta. unfold SocialCollector.analyze_social_sentiment.
  rewrite !lower_idem.
  set (p := SocialCollector.count_present SocialCollector.positive_words (Py.lower text)).
  set (n := SocialCollector.count_present SocialCollector.negative_words (Py.lower text)).
  destruct (p + n =? 0)%nat eqn:E.
  - apply Nat.eqb_eq in E.
    repeat split; try reflexivity; try discriminate; intros; lia.
  - apply Nat.eqb_neq in E.
    assert (Hd : 0 < inject_Z (Z.of_nat (p + n))).
    { change 0 with (inject_Z 0). rewrite <- Zlt_Qlt. lia. }
    assert (Hp : 0 <= inject_Z (Z.of_nat p)).
    { change 0 with (inject_Z 0). rewrite <- Zle_Qle. lia. }
    assert (Hle : inject_Z (Z.of_nat p) <= inject_Z (Z.of_nat (p + n))).
    { rewrite <- Zle_Qle. lia. }
    split; [ apply Qle_shift_div_l; [ exact Hd | lra ] | ].
    split; [ apply Qle_shift_div_r; [ exact Hd | lra ] | ].
    split; [ intros; lia | ].
    split.
    { intros _ Hn. rewrite Hn, Nat.add_0_r. field.
      rewrite Hn, Nat.add_0_r in Hd. lra. }
    split.
    { intros Hz _. rewrite Hz. cbn [Nat.add Z.of_nat]. field.
      rewrite Hz in Hd. cbn [Nat.add] in Hd. lra. }
    reflexivity.
Qed.

Lemma velocity_query_top
  (n : nat) (f : TrendData -> bool) (P : TrendData -> Prop) (l : list TrendData) :
  (forall t, f t = true <-> P t) ->
  top_selection n P velocity_at_least l
    (firstn n (order_by_desc Alerter.velocity_geb (filter f l))).
Proof.
  intro Hf.
  destruct (query_top TrendData Alerter.velocity_geb velocity_geb_total
              velocity_geb_trans n f l)
    as (Hlen & Hs & Hsel & Hperm & Hcut & Hfull & Hcross).
  split; [ exact Hlen | ].
  split.
  { eapply (strongly_sorted_on (fun _ => True)); [ | | exact Hs ].
    - intros a b _ _ H. apply ge_true in H. exact H.
    - apply Forall_forall. intros; exact I. }
  split.
  { eapply Forall_impl; [ | exact Hsel ]. intro t. apply Hf. }
  eexists. eexists.
  split; [ exact Hperm | ].
  split.
  { eapply Forall_impl; [ | exact Hcut ]. intro t. apply Hf. }
  split; [ apply forall_filter_negb; exact Hf | ].
  split; [ exact Hfull | ].
  intros x y Hx Hy. apply ge_true. apply Hcross; assumption.
Qed.

Lemma accelerating_filter_spec (now : datetime) (t : TrendData) :
  TrendsCollector.accelerating_filter (now - timedelta_days 7) t = true
  <-> accelerating now t.
Proof.
  unfold TrendsCollector.accelerating_filter, accelerating.
  rewrite !andb_true_iff, Z.ltb_lt, String.eqb_eq, gt_true. tauto.
Qed.

Lemma viral_filter_spec
  (now : datetime) (platform_arg : option string) (days : Z) (t : TrendData) :
  SocialCollector.viral_filter (now - timedelta_days days) platform_arg t = true
  <-> viral now platform_arg days t.
Proof.
  unfold SocialCollector.viral_filter, viral, wanted_platform.
  rewrite !andb_true_iff, Z.ltb_lt, gt_true.
  destruct platform_arg as [wanted | ].
  - destruct (String.eqb wanted EmptyString); cbn [negb];
      rewrite ?orb_true_iff, ?String.eqb_eq; tauto.
  - rewrite orb_true_iff, !String.eqb_eq. tauto.
Qed.

(** X21.  The two collector queries answer with the top rows by velocity:
    [get_accelerating_keywords] gives, for a limit of at least 0, at most
    that many search-trend rows of the last 7 days with velocity above 5,
    and for a negative limit all of them; [get_viral_products] gives at
    most 10 rows of the last [days] days with velocity above 10, of the
    platform asked for or, when none or the empty string is given, of
    reddit and tiktok.  Both are in descending order of velocity, and a
    qualifying row is left out only when the limit is reached and it ranks
    no higher than the rows returned. *)
Theorem collector_queries_select_top
  (now : datetime) (limit days : Z) (platform_arg : option string) (db : Store) :
  ((0 <= limit)%Z ->
   top_selection (Z.to_nat limit) (accelerating now) velocity_at_least
     (trends db) (TrendsCollector.get_accelerating_keywords now limit db))
  /\ ((limit < 0)%Z ->
      Permutation (TrendsCollector.get_accelerating_keywords now limit db)
        (filter (TrendsCollector.accelerating_filter (now - timedelta_days 7))
           (trends db))
      /\ StronglySorted velocity_at_least
           (TrendsCollector.get_accelerating_keywords now limit db))
  /\ top_selection 10 (viral now platform_arg days) velocity_at_least
       (trends db) (SocialCollector.get_viral_products now platform_arg days db).
Proof.
  unfold TrendsCollector.get_accelerating_keywords, TrendsCollector.sql_limit,
    SocialCollector.get_viral_products.
  split; [ | split ].
  - intro H. apply Z.ltb_ge in H. rewrite H.
    apply velocity_query_top. apply accelerating_filter_spec.
  - intro H. apply Z.ltb_lt in H. rewrite H. split.
    + apply Permutation_sym. apply order_by_desc_perm.
    + eapply (strongly_sorted_on (fun _ => True));
        [ | | apply (order_by_desc_sorted TrendData Alerter.velocity_geb
                       velocity_geb_total velocity_geb_trans) ].
      * intros a b _ _ Hab. apply ge_true in Hab. exact Hab.
      * apply Forall_forall. intros; exact I.
  - apply velocity_query_top. apply viral_filter_spec.
Qed.

(** X21, a run: the default limit of 10 on a store with one fresh row. *)
Lemma collector_queries_select_top_witness :
  top_selection 10 (accelerating noon_day_100) velocity_at_least
    (trends digest_store)
    (TrendsCollector.get_accelerating_keywords noon_day_100 10 digest_store).
Proof.
  apply (proj1 (collector_queries_select_top noon_day_100 10 7 None digest_store)).
  lia.
Defined.

Lemma inject_Z_le (a b : Z) : (a <= b)%Z -> inject_Z a <= inject_Z b.
Proof. intro H. rewrite <- Zle_Qle. exact H. Qed.

Lemma inject_Z_lt (a b : Z) : (a < b)%Z -> inject_Z a < inject_Z b.
Proof. intro H. rewrite <- Zlt_Qlt. exact H. Qed.

(** X22.  What the rank block of the composite score makes of a row as the
    Amazon collector inserts it, for draws within their ranges.  A row
    drawn as improved gained at least 1000 ranks in the 24 hours the engine
    assumes, so it is never in the low tier: up to 2400 ranks it scores
    exactly 80 with tag medium, above it [min(100, 70 + 10 log10(gain/24))]
    with tag high.  A row drawn as not improved scores [20 - loss/1000],
    between 15 and 20, with tag declining; unless the loss equals the
    rank, when the previous rank is 0 and the block is skipped. *)
Theorem collected_row_rank_score
  (log10 : Q -> Q) (info : string * string * string) (d : AmazonCollector.Draw)
  (now insert_now : datetime) (key : Z)
  (Hd : AmazonCollector.draw_in_range d) :
  let row :=
    AmazonCollector.new_product key (AmazonCollector.demo_entry info d now)
      insert_now in
  (AmazonCollector.rank_improved d = true ->
   ((AmazonCollector.drawn_gain d <= 2400)%Z ->
    Engine.bsr_block log10 row = Py.Return (80, [medium]))
   /\ ((2400 < AmazonCollector.drawn_gain d)%Z ->
       Engine.bsr_block log10 row
       = Py.Return
           (Py.min 100
              (70 + log10 (inject_Z (AmazonCollector.drawn_gain d) / 24) * 10),
            [high])))
  /\ (AmazonCollector.rank_improved d = false ->
      (AmazonCollector.drawn_loss d = AmazonCollector.drawn_bsr d ->
       Engine.bsr_block log10 row = Py.Return (0, []))
      /\ (AmazonCollector.drawn_loss d <> AmazonCollector.drawn_bsr d ->
          exists s,
            Engine.bsr_block log10 row = Py.Return (s, [declining])
            /\ s == 20 - inject_Z (AmazonCollector.drawn_loss d) / 1000
            /\ 15 <= s /\ s <= 20)).
Proof.
  destruct info as [[a t] c].
  destruct Hd as ((Hb1 & Hb2) & (Hg1 & Hg2) & (Hl1 & Hl2) & _).
  cbv zeta. unfold Engine.bsr_block, AmazonCollector.new_product,
    AmazonCollector.demo_entry.
  cbn [bsr_current bsr_previous AmazonCollector.pd_bsr_current
       AmazonCollector.pd_bsr_previous Py.truthy_int].
  set (bsr := AmazonCollector.drawn_bsr d) in *.
  set (gain := AmazonCollector.drawn_gain d) in *.
  set (loss := AmazonCollector.drawn_loss d) in *.
  assert (Hcur : (bsr =? 0)%Z = false) by (apply Z.eqb_neq; lia).
  assert (Hpos : (bsr <=? 0)%Z = false) by (apply Z.leb_gt; lia).
  rewrite Hcur. cbn [negb andb].
  split; intros ->.
  - assert (Hprev : (bsr + gain =? 0)%Z = false) by (apply Z.eqb_neq; lia).
    rewrite Hprev. cbn [negb].
    unfold Engine.calculate_bsr_velocity_score. rewrite Hprev, Hpos. cbn [orb].
    replace (bsr + gain - bsr)%Z with gain by lia.
    assert (Hch : (gain <=? 0)%Z = false) by (apply Z.leb_gt; lia).
    rewrite Hch.
    change (Qeq_bool 24 0) with false. cbv iota.
    pose proof (inject_Z_le 1000 gain Hg1) as Hq1.
    change (inject_Z 1000) with 1000 in Hq1.
    split; intro Hg.
    + apply (inject_Z_le gain 2400) in Hg. change (inject_Z 2400) with 2400 in Hg.
      assert (G100 : Py.gt (inject_Z gain / 24) 100 = false)
        by (apply gt_false; apply Qle_shift_div_r; lra).
      assert (G10 : Py.gt (inject_Z gain / 24) 10 = true)
        by (apply gt_true; apply Qlt_shift_div_l; lra).
      rewrite G100, G10. cbn [Py.bind].
      assert (Hmin : Py.min 80 (40 + inject_Z gain / 24 * 2) = 80).
      { unfold Py.min, Py.lt.
        assert (G : Py.gt 80 (40 + inject_Z gain / 24 * 2) = false).
        { apply gt_false.
          assert (20 <= inject_Z gain / 24) by (apply Qle_shift_div_l; lra).
          lra. }
        rewrite G. reflexivity. }
      rewrite Hmin. reflexivity.
    + apply (inject_Z_lt 2400 gain) in Hg. change (inject_Z 2400) with 2400 in Hg.
      assert (G100 : Py.gt (inject_Z gain / 24) 100 = true)
        by (apply gt_true; apply Qlt_shift_div_l; lra).
      rewrite G100. reflexivity.
  - split; intro Hl.
    + rewrite Hl, Z.sub_diag. reflexivity.
    + assert (Hprev : (bsr - loss =? 0)%Z = false) by (apply Z.eqb_neq; lia).
      rewrite Hprev. cbn [negb].
      unfold Engine.calculate_bsr_velocity_score. rewrite Hprev, Hpos. cbn [orb].
      assert (Hch : (bsr - loss - bsr <=? 0)%Z = true) by (apply Z.leb_le; lia).
      rewrite Hch. cbn [Py.bind].
      replace (Z.abs (bsr - loss - bsr)) with loss by lia.
      pose proof (inject_Z_le 0 loss Hl1) as Hq0. change (inject_Z 0) with 0 in Hq0.
      pose proof (inject_Z_le loss 5000 Hl2) as Hq5.
      change (inject_Z 5000) with 5000 in Hq5.
      assert (Hlo : 0 <= inject_Z loss / 1000) by (apply Qle_shift_div_l; lra).
      assert (Hhi : inject_Z loss / 1000 <= 5) by (apply Qle_shift_div_r; lra).
      assert (Hmax : Py.max 0 (20 - inject_Z loss / 1000)
                     = 20 - inject_Z loss / 1000).
      { unfold Py.max.
        assert (G : Py.gt (20 - inject_Z loss / 1000) 0 = true)
          by (apply gt_true; lra).
        rewrite G. reflexivity. }
      rewrite Hmax. eexists. split; [ reflexivity | ].
      split; [ reflexivity | split; lra ].
Qed.

(** X22, a run: a row drawn at rank 500 that gained 1500 ranks. *)
Lemma collected_row_rank_score_witness :
  Engine.bsr_block floor_log10
    (AmazonCollector.new_product 1
       (AmazonCollector.demo_entry
          ("B09G9F43QL", "LEVOIT Core 300S Air Purifier", "Home & Kitchen")%string
          (AmazonCollector.mkDraw 500 true 1500 0 (1999 # 100) 30) noon_day_100)
       noon_day_100)
  = Py.Return (80, [medium]).
Proof.
  apply (collected_row_rank_score floor_log10
           ("B09G9F43QL", "LEVOIT Core 300S Air Purifier", "Home & Kitchen")%string
           (AmazonCollector.mkDraw 500 true 1500 0 (1999 # 100) 30)
           noon_day_100 noon_day_100 1).
  - unfold AmazonCollector.draw_in_range. cbn. repeat split; try lia; discriminate.
  - reflexivity.
  - cbn. lia.
Defined.
